(** * PayGo: mail ingestion, invoice classification and the document store

    A shallow embedding of the server-side TypeScript of the PayGo
    application: the Gmail route (dev-mode persistence, OAuth handlers,
    MIME resolution, attachment materialisation, classification
    forwarding), the [/api/verify-invoice] route and the REST handlers
    over the [profiles] and [mails] collections.

    Conventions.
    - A handler is a computation in the monad [M]: it threads the state of
      the process and of the document store and either returns or throws.
    - Everything outside the process (identity provider, mailbox API,
      classifier, local disk, random sources) is reached through the
      operations of the class [Outside]; they read and update an abstract
      [world], so two calls with the same arguments may answer differently.
    - JavaScript objects used as dictionaries are finite maps over their
      own keys; a read [object[key]] that finds no own key goes on to
      [Object.prototype]. An assignment [object[key] = value] adds or
      replaces the own key: the keys the program assigns under (the
      session ids it generates, the user id of a session) are taken not
      to be [__proto__], under which an assignment sets the prototype.
      Arrays and Mongo collections are lists (insertion order, duplicates
      allowed). *)

From Stdlib Require Import Ascii String ZArith QArith.
From stdpp Require Import base option list strings gmap.
Set Warnings "-register-all".
Local Open Scope string_scope.
Local Open Scope Z_scope.

(** ** JavaScript values *)

(** Truthiness of a string: every string but the empty one. *)
Definition truthy (s : string) : bool :=
  match s with
  | EmptyString => false
  | String _ _ => true
  end.

(** Truthiness of an optional string field ([undefined] is falsy). *)
Definition truthy_opt (o : option string) : bool :=
  match o with
  | Some s => truthy s
  | None => false
  end.

(** [s.replace(/c/g, r)] for a one-character pattern [c]. *)
Fixpoint replace_all (c : ascii) (r : string) (s : string) : string :=
  match s with
  | EmptyString => EmptyString
  | String a rest =>
      if Ascii.eqb a c then r ++ replace_all c r rest
      else String a (replace_all c r rest)
  end.

Definition dquote : string := String "034"%char EmptyString.

(** [l.includes(x)] *)
Definition includes (x : string) (l : list string) : bool :=
  existsb (String.eqb x) l.

(** The own keys of [Object.prototype]: eleven functions, and
    [__proto__], under which an object reads its prototype. Every value
    they name is truthy. *)
Definition object_prototype_keys : list string :=
  ["constructor"; "__defineGetter__"; "__defineSetter__"; "hasOwnProperty";
   "__lookupGetter__"; "__lookupSetter__"; "isPrototypeOf";
   "propertyIsEnumerable"; "toString"; "valueOf"; "__proto__";
   "toLocaleString"].

(** What a thrown JavaScript value carries as far as the handlers look at
    it: [error.code], [error.message], and whether it is a [ZodError]. *)
Record Err := mkErr {
  err_code : option Z;
  err_message : string;
  err_zod : bool
}.

Definition error (msg : string) : Err := mkErr None msg false.

Inductive Res (A : Type) : Type :=
  | Ok (a : A)
  | Throw (e : Err).
Arguments Ok {A} a.
Arguments Throw {A} e.

(** ** Messages of the mailbox API *)

Record Header := mkHeader { h_name : string; h_value : string }.

Record PartBody := mkPartBody {
  body_size : option Z;
  body_data : option string;
  attachmentId : option string
}.

(** A [MessagePart]: a leaf carries [body.data], a container carries
    [parts]; the source tells them apart only by the fields present.
    [headers] may be missing, as [emailData.payload?.headers || []] in
    the source allows for. *)
Inductive MimePart : Type :=
  | Part (mimeType : string) (filename : option string)
         (headers : option (list Header)) (body : option PartBody)
         (parts : option (list MimePart)).

Definition mimeType_of (p : MimePart) : string :=
  match p with Part m _ _ _ _ => m end.
Definition filename_of (p : MimePart) : option string :=
  match p with Part _ f _ _ _ => f end.
Definition headers_of (p : MimePart) : option (list Header) :=
  match p with Part _ _ h _ _ => h end.
Definition body_of (p : MimePart) : option PartBody :=
  match p with Part _ _ _ b _ => b end.
Definition parts_of (p : MimePart) : option (list MimePart) :=
  match p with Part _ _ _ _ ps => ps end.

Record Message := mkMessage {
  msg_id : string;
  threadId : string;
  snippet : string;
  labelIds : option (list string);
  payload : MimePart
}.


(** ** Dev-mode persistence: sessions and token sets *)

Record Session := mkSession {
  userId : string;
  email : string;
  profile_uuid : option string
}.

(** What a read [storage.sessions[key]] finds: an entry of the object, or
    what [Object.prototype] holds under that key. *)
Inductive SessionValue :=
  | Own (sess : Session)
  | Inherited (key : string).

(** The credentials object of the OAuth client. *)
Record Tokens := mkTokens {
  access_token : option string;
  refresh_token : option string;
  expiry_date : option Z
}.

Record DevStorage := mkStorage {
  sessions : gmap string Session;
  tokens : gmap string Tokens
}.

Definition empty_storage : DevStorage := mkStorage ∅ ∅.

(** The file [.dev_storage.json]: missing, unreadable or not JSON, or the
    JSON text of a storage object. *)
Inductive StorageFile :=
  | NoFile
  | Corrupt
  | Stored (d : DevStorage).

(** ** Documents of the store *)

(** A document of [profiles]. Passwords and creation dates are stored too;
    no handler below reads them. *)
Record ProfileDoc := mkProfile {
  p_uuid : string;
  p_google_id : option string;
  p_name : option string;
  p_email : string;
  p_scanned : option (list string)
}.

(** A document of [mails], as [MailSchema] shapes it. *)
Record MailDoc := mkMail {
  m_uuid : string;
  m_user_uuid : string;
  m_scraped_data : string;
  m_invoice_number : option string;
  m_vendor_name : option string;
  m_invoice_date : option string;
  m_total_amount : option Q;
  m_purchase_order : option string;
  m_due_date : option string;
  m_gst_number : option string;
  m_tax_amount : option Q
}.

(** A request body read against [MailSchema]: the keys the schema knows,
    each present or not (other keys are stripped by the parser). *)
Record RawMail := mkRawMail {
  r_uuid : option string;
  r_user_uuid : option string;
  r_scraped_data : option string;
  r_invoice_number : option string;
  r_vendor_name : option string;
  r_invoice_date : option string;
  r_total_amount : option Q;
  r_purchase_order : option string;
  r_due_date : option string;
  r_gst_number : option string;
  r_tax_amount : option Q
}.

Record Db := mkDb {
  profiles : list ProfileDoc;
  mails : list MailDoc
}.

(** ** Requests and responses *)

Record Request := mkRequest {
  cookies : gmap string string;
  searchParams : gmap string string;
  req_headers : gmap string string
}.

Record EmailAttachment := mkAttachment {
  att_filename : string;
  att_mimeType : string;
  att_size : Z;
  att_url : option string
}.

Record ProcessedEmail := mkProcessed {
  pe_id : string;
  pe_threadId : string;
  pe_subject : string;
  pe_from : string;
  pe_fromEmail : string;
  pe_to : string;
  pe_date : string;
  pe_snippet : string;
  pe_body : string;
  pe_isRead : bool;
  pe_hasAttachments : bool;
  pe_attachments : list EmailAttachment;
  pe_labels : list string
}.

(** [{...processedEmail, isInvoice, invoiceConfidence}] *)
Record VerifiedEmail := mkVerified {
  ve_email : ProcessedEmail;
  isInvoice : bool;
  invoiceConfidence : option Q
}.

(** The classifier's answer, [{success, is_invoice, confidence, message,
    details}]. *)
Record Verdict := mkVerdict {
  v_success : option bool;
  v_is_invoice : bool;
  v_confidence : option Q;
  v_message : string;
  v_details : string
}.

(** What [fetch] resolves to: status, body text, and the body as JSON when
    it parses ([response.json()] throws otherwise). *)
Record HttpReply := mkReply {
  reply_status : Z;
  reply_text : string;
  reply_json : option Verdict
}.

Record ClassifyRequest := mkClassify {
  c_subject : string;
  c_body : string;
  c_attachment_filename : option string
}.

(** The [emailData] object sent along to [/api/verify-invoice]. *)
Record EmailData := mkEmailData {
  ed_id : string;
  ed_threadId : string;
  ed_from : string;
  ed_to : string;
  ed_snippet : string;
  ed_date : string;
  ed_isRead : bool;
  ed_hasAttachments : bool;
  ed_attachments : list EmailAttachment;
  ed_user_uuid : option string
}.

Record VerifyRequest := mkVerifyRequest {
  vq_subject : option string;
  vq_body : option string;
  vq_attachment_filename : option string;
  vq_emailData : option EmailData
}.

Inductive Body :=
  | JsonError (error : string) (details : option string)
  | JsonReauth (error : string)
  | JsonMessage (message : string)
  | JsonSuccess
  | JsonMail (m : MailDoc)
  | JsonNull
  | JsonEmails (emails : list VerifiedEmail) (total : Z) (unreadCount : Z)
               (invoiceCount : option Z)
  | JsonVerdict (v : Verdict) (saved_to_db : bool)
                (mail_uuid : option string) (save_error : option string)
  | JsonAuthUrl (authUrl : string)
  | JsonStatus (isAuthenticated : bool) (userEmail : option string)
               (profile : option string)
  | Html (title : string) (detail : string).

(** What a handler does to the [session_id] cookie. *)
Inductive CookieEffect :=
  | KeepCookie
  | SetCookie (v : string)
  | DeleteCookie.

Record Response := mkResponse {
  status : Z;
  content : Body;
  cookie : CookieEffect
}.

Definition json (st : Z) (b : Body) : Response := mkResponse st b KeepCookie.

(** [response.ok] *)
Definition ok_status (st : Z) : bool := (200 <=? st) && (st <=? 299).

(** ** The outside of the process *)

Record TicketPayload := mkTicket {
  sub : option string;
  ticket_email : option string
}.

Record ListResponse := mkList {
  messages : option (list string);
  resultSizeEstimate : option Z
}.

Class Outside := {
  world : Type;
  (** [process.env.NODE_ENV === 'production'] *)
  production : bool;
  (** Pure library functions. *)
  Buffer_from_base64 : string -> list Byte.byte;
  Buffer_toString_utf8 : list Byte.byte -> string;
  JSON_stringify : DevStorage -> list Byte.byte;
  toLowerCase : string -> string;
  trim : string -> string;
  (** [s.match(/^"?(.+?)"?\s*<(.+?)>$/)]: the two groups of a match *)
  match_address : string -> option (string * string);
  (** [html.replace(/<[^>]*>/g, ' ').replace(/\s+/g, ' ')] *)
  strip_tags : string -> string;
  parseInt : string -> option Z;
  path_join : list string -> string;
  cwd : string;
  (** [encodeURIComponent] throws on a lone surrogate *)
  encodeURIComponent : string -> option string;
  generateAuthUrl : string -> string;
  (** The string formats the schemas accept. *)
  is_uuid : string -> bool;
  is_date : string -> bool;
  (** The two revisions of [schemas.ts] differ in whether the invoice
      fields of [MailSchema] are required. *)
  invoice_fields_required : bool;
  (** Calls that leave the process. [None] is a call that returned. *)
  mongo_call : world -> option Err * world;
  randomUUID : world -> string * world;
  new_session_id : world -> string * world;
  fs_existsSync : string -> world -> bool * world;
  fs_mkdirSync : string -> world -> option Err * world;
  fs_writeFileSync : string -> list Byte.byte -> world -> option Err * world;
  verifyIdToken : string -> world -> Res TicketPayload * world;
  getToken : string -> world -> Res Tokens * world;
  revokeToken : string -> world -> option Err * world;
  gmail_list : option Z -> world -> Res ListResponse * world;
  gmail_get : string -> world -> Res Message * world;
  (** [attData.data?.data] of [attachments.get] *)
  gmail_attachment : string -> string -> world -> Res (option string) * world;
  (** [fetch] to the classifier service *)
  classifier_fetch : ClassifyRequest -> world -> Res HttpReply * world;
  (** [fetch] from one route of the application to another: whether the
      request gets through *)
  loopback_fetch : string -> world -> option Err * world;
  (** The builtin objects of the JavaScript realm are shared by the whole
      process and are no part of the state below. The handlers read and
      write one property of them, [profile_uuid]:
      [realm_profile_uuid None] is [Object.prototype.profile_uuid], what
      an object without a [profile_uuid] of its own reads;
      [realm_profile_uuid (Some k)] is the [profile_uuid] of the value
      [Object.prototype[k]]; [realm_assign k u] is the assignment
      [Object.prototype[k].profile_uuid = u]. *)
  realm_profile_uuid : option string -> world -> option string;
  realm_assign : string -> string -> world -> option Err * world;
}.

Section Model.
Context `{Outside}.

(** ** State of the process and of the store *)

Record State := mkState {
  ext : world;
  db : Db;
  (** storage objects that are alive, by reference *)
  heap : list DevStorage;
  (** the module variable [storageCache] *)
  storageCache : nat;
  file : StorageFile
}.

Definition M (A : Type) : Type := State -> Res A * State.

Definition ret {A} (a : A) : M A := fun s => (Ok a, s).

Definition bind {A B} (m : M A) (k : A -> M B) : M B :=
  fun s =>
    match m s with
    | (Ok a, s') => k a s'
    | (Throw e, s') => (Throw e, s')
    end.

Definition throw {A} (e : Err) : M A := fun s => (Throw e, s).

(** [try { m } catch (e) { h e }] *)
Definition try_catch {A} (m : M A) (h : Err -> M A) : M A :=
  fun s =>
    match m s with
    | (Ok a, s') => (Ok a, s')
    | (Throw e, s') => h e s'
    end.

End Model.

Notation "'let*' x := m 'in' k" := (bind m (fun x => k))
  (at level 10, x name, m at level 100, k at level 200).
Notation "m ;; k" := (bind m (fun _ => k))
  (at level 100, k at level 200, right associativity).

Section Handlers.
Context `{Outside}.

(** What is thrown by a call that leaves the process is not a
    [ZodError]. *)
Definition foreign {A} (r : Res A) : Res A :=
  match r with
  | Ok a => Ok a
  | Throw e => Throw (mkErr (err_code e) (err_message e) false)
  end.

(** A call that leaves the process and may throw. *)
Definition call {A} (f : world -> Res A * world) : M A :=
  fun s =>
    let (r, w) := f (ext s) in
    (foreign r, mkState w (db s) (heap s) (storageCache s) (file s)).

(** The same for a call without a result. *)
Definition call_ (f : world -> option Err * world) : M unit :=
  call (fun w =>
          match f w with
          | (None, w') => (Ok tt, w')
          | (Some e, w') => (Throw e, w')
          end).

(** A call that cannot throw ([fs.existsSync], [randomUUID]). *)
Definition ask {A} (f : world -> A * world) : M A :=
  call (fun w => let (a, w') := f w in (Ok a, w')).

(** ** Dev-mode persistence *)

Definition deref (r : nat) (s : State) : DevStorage :=
  default empty_storage (heap s !! r).

Definition read (r : nat) : M DevStorage := fun s => (Ok (deref r s), s).

(** In-place update of the storage object behind [r]; every variable that
    holds [r] sees it. *)
Definition mutate (r : nat) (f : DevStorage -> DevStorage) : M unit :=
  fun s =>
    (Ok tt, mkState (ext s) (db s) (<[r := f (deref r s)]> (heap s))
                    (storageCache s) (file s)).

(** A new storage object becomes [storageCache]. *)
Definition cache_fresh (d : DevStorage) : M unit :=
  fun s => (Ok tt, mkState (ext s) (db s) (heap s ++ [d])%list (length (heap s)) (file s)).

Definition set_cache (r : nat) : M unit :=
  fun s => (Ok tt, mkState (ext s) (db s) (heap s) r (file s)).

Definition get_cache : M nat := fun s => (Ok (storageCache s), s).

Definition STORAGE_FILE : string := path_join [cwd; ".dev_storage.json"].

(** [fs.readFileSync] followed by [JSON.parse]; the caller has checked
    that the file exists. *)
Definition read_storage_file : M DevStorage :=
  fun s =>
    match file s with
    | Stored d => (Ok d, s)
    | _ => (Throw (error "unreadable storage file"), s)
    end.

Definition storage_file_exists : M bool :=
  fun s => (Ok (match file s with NoFile => false | _ => true end), s).

Definition write_storage_file (d : DevStorage) : M unit :=
  call_ (fs_writeFileSync STORAGE_FILE (JSON_stringify d)) ;;
  fun s => (Ok tt, mkState (ext s) (db s) (heap s) (storageCache s) (Stored d)).

Definition loadStorage : M nat :=
  if production then get_cache
  else
    try_catch
      (let* present := storage_file_exists in
       if present then
         let* parsed := read_storage_file in
         cache_fresh parsed
       else ret tt)
      (fun _ => cache_fresh empty_storage) ;;
    get_cache.

Definition saveStorage (storageToSave : nat) : M unit :=
  if production then ret tt
  else
    try_catch
      (set_cache storageToSave ;;
       let* d := read storageToSave in
       write_storage_file d)
      (fun _ => ret tt).

(** [request.cookies.get('session_id')?.value] *)
Definition session_cookie (request : Request) : option string :=
  cookies request !! "session_id".

(** A read of the world outside that changes nothing. *)
Definition peek {A} (f : world -> A) : M A := fun s => (Ok (f (ext s)), s).

(** Whether a key that an object does not own reads as a truthy value:
    it names a member of [Object.prototype], or it is [profile_uuid] and
    the prototype has been given one. *)
Definition inherited (k : string) (w : world) : bool :=
  includes k object_prototype_keys
  || (String.eqb k "profile_uuid" && truthy_opt (realm_profile_uuid None w)).

(** [storage.sessions[k] || null] *)
Definition sessions_get (d : DevStorage) (k : string) (w : world)
    : option SessionValue :=
  match sessions d !! k with
  | Some sess => Some (Own sess)
  | None => if inherited k w then Some (Inherited k) else None
  end.

(** [storage.tokens[k] || null]. An inherited value read as a token set
    has none of the fields of one. *)
Definition tokens_get (d : DevStorage) (k : string) (w : world) : option Tokens :=
  match tokens d !! k with
  | Some t => Some t
  | None => if inherited k w then Some (mkTokens None None None) else None
  end.

(** [session.userId] and [session.email]: [undefined] on an inherited
    value. *)
Definition user_of (v : SessionValue) : option string :=
  match v with
  | Own sess => Some (userId sess)
  | Inherited _ => None
  end.

Definition email_of (v : SessionValue) : option string :=
  match v with
  | Own sess => Some (email sess)
  | Inherited _ => None
  end.

(** [session.userId] used as a property key: [undefined] is the key
    ["undefined"]. *)
Definition user_key (v : SessionValue) : string := default "undefined" (user_of v).

(** [session.profile_uuid]: the session's own, or what it inherits. *)
Definition profile_uuid_of (v : SessionValue) (w : world) : option string :=
  match v with
  | Own sess =>
      match profile_uuid sess with
      | Some u => Some u
      | None => realm_profile_uuid None w
      end
  | Inherited k => realm_profile_uuid (Some k) w
  end.

Definition getSession (request : Request) : M (option SessionValue) :=
  let* storage := loadStorage in
  match session_cookie request with
  | Some sessionId =>
      if truthy sessionId then
        let* d := read storage in
        peek (sessions_get d sessionId)
      else ret None
  | None => ret None
  end.

Definition getTokens (request : Request) : M (option Tokens) :=
  let* storage := loadStorage in
  let* session := getSession request in
  match session with
  | None => ret None
  | Some session =>
      let* d := read storage in
      peek (tokens_get d (user_key session))
  end.

(** ** MIME resolver *)

(** [decodeBase64Url]: the [catch] branch of the source is never taken,
    decoding a string does not throw. *)
Definition decodeBase64Url (d : string) : string :=
  let base64 := replace_all "_" "/" (replace_all "-" "+" d) in
  Buffer_toString_utf8 (Buffer_from_base64 base64).

Definition getHeader (headers : list Header) (name : string) : string :=
  match List.find (fun h => String.eqb (toLowerCase (h_name h)) (toLowerCase name))
                  headers with
  | Some header => h_value header
  | None => ""
  end.

Definition parseEmailAddress (emailString : string) : string * string :=
  match match_address emailString with
  | Some (name, addr) => (trim name, trim addr)
  | None => (emailString, emailString)
  end.

(** [payload.body?.size > 0 && payload.body.data] *)
Definition root_data (b : option PartBody) : option string :=
  match b with
  | Some (mkPartBody (Some n) (Some d) _) =>
      if (0 <? n) && truthy d then Some d else None
  | _ => None
  end.

(** [part?.body?.data], for a part that may be [undefined]. *)
Definition child_data (p : option MimePart) : option string :=
  match p with
  | Some q =>
      match body_of q with
      | Some b => if truthy_opt (body_data b) then body_data b else None
      | None => None
      end
  | None => None
  end.

Definition is_mime (m : string) (p : MimePart) : bool :=
  String.eqb (mimeType_of p) m.

Definition escape_markup (s : string) : string :=
  replace_all ">" "&gt;" (replace_all "<" "&lt;" s).

Definition pre_wrap (s : string) : string :=
  "<div style=" ++ dquote ++ "white-space: pre-wrap; font-family: monospace;"
    ++ dquote ++ ">" ++ s ++ "</div>".

Fixpoint getEmailBody (payload : MimePart) : string :=
  match payload with
  | Part _ _ _ body parts =>
      match root_data body with
      | Some d => decodeBase64Url d
      | None =>
          match parts with
          | None => ""
          | Some ps =>
              let htmlPart := List.find (is_mime "text/html") ps in
              let textPart := List.find (is_mime "text/plain") ps in
              match child_data htmlPart with
              | Some d => decodeBase64Url d
              | None =>
                  match child_data textPart with
                  | Some d => pre_wrap (escape_markup (decodeBase64Url d))
                  | None =>
                      (fix nested (l : list MimePart) : string :=
                         match l with
                         | [] => ""
                         | part :: rest =>
                             let nestedBody := getEmailBody part in
                             if truthy nestedBody then nestedBody
                             else nested rest
                         end) ps
                  end
              end
          end
      end
  end.

(** The body text sent to the classifier. *)
Definition has_data (m : string) (p : MimePart) : bool :=
  is_mime m p && truthy_opt (child_data (Some p)).

Fixpoint extractEmailBody (payload : MimePart) : string :=
  match payload with
  | Part _ _ _ body parts =>
      match child_data (Some payload) with
      | Some d => Buffer_toString_utf8 (Buffer_from_base64 d)
      | None =>
          match parts with
          | None => ""
          | Some ps =>
              match child_data (List.find (has_data "text/plain") ps) with
              | Some d => Buffer_toString_utf8 (Buffer_from_base64 d)
              | None =>
                  match child_data (List.find (has_data "text/html") ps) with
                  | Some d =>
                      trim (strip_tags (Buffer_toString_utf8 (Buffer_from_base64 d)))
                  | None =>
                      (fix nested (l : list MimePart) : string :=
                         match l with
                         | [] => ""
                         | part :: rest =>
                             match parts_of part with
                             | Some _ =>
                                 let nestedBody := extractEmailBody part in
                                 if truthy nestedBody then nestedBody
                                 else nested rest
                             | None => nested rest
                             end
                         end) ps
                  end
              end
          end
      end
  end.

(** ** Attachment materialiser *)

(** The entry pushed when saving failed: known from the part alone. *)
Definition unsaved (filename : string) (part : MimePart) : EmailAttachment :=
  mkAttachment filename (mimeType_of part)
    (default 0 (body_of part ≫= body_size)) None.

(** What [path.join] throws at an argument that is not a string. *)
Definition not_a_path : Err :=
  error ("The " ++ dquote ++ "path" ++ dquote
           ++ " argument must be of type string. Received undefined").

(** The body of the [try] block for one attachment part. [None]: the
    mailbox answered without data and nothing is pushed. [userId] is
    [session.userId] of the caller, [undefined] ([None]) for a session
    that is an inherited value: [path.join] throws at it. *)
Definition materialise (userId : option string) (messageId filename attId : string)
    (part : MimePart) : M (option EmailAttachment) :=
  let* attData := call (gmail_attachment messageId attId) in
  match attData with
  | Some d =>
      if truthy d then
        let buffer := Buffer_from_base64 d in
        match userId with
        | None => throw not_a_path
        | Some userId =>
            let uploadDir :=
              path_join [cwd; "public"; "attachments"; userId; messageId] in
            let* present := ask (fs_existsSync uploadDir) in
            (if present then ret tt else call_ (fs_mkdirSync uploadDir)) ;;
            let localFilePath := path_join [uploadDir; filename] in
            call_ (fs_writeFileSync localFilePath buffer) ;;
            match encodeURIComponent filename with
            | Some enc =>
                let publicUrl :=
                  "/attachments/" ++ userId ++ "/" ++ messageId ++ "/" ++ enc in
                ret (Some (mkAttachment filename (mimeType_of part)
                             (default 0 (body_of part ≫= body_size))
                             (Some publicUrl)))
            | None => throw (error "URI malformed")
            end
        end
      else ret None
  | None => ret None
  end.

(** [part.filename && part.body?.attachmentId]: the filename and the
    identifier of a part that is an attachment. *)
Definition attachment_of (part : MimePart) : option (string * string) :=
  match filename_of part, body_of part ≫= attachmentId with
  | Some fn, Some aid => if truthy fn && truthy aid then Some (fn, aid) else None
  | _, _ => None
  end.

(** One turn of the loop over [parts]. *)
Definition process_part (userId : option string) (messageId : string)
    (attachments : list EmailAttachment) (part : MimePart)
    : M (list EmailAttachment) :=
  match attachment_of part with
  | Some (fn, aid) =>
      try_catch
        (let* saved := materialise userId messageId fn aid part in
         ret (match saved with
              | Some a => attachments ++ [a]
              | None => attachments
              end)%list)
        (fun _ => ret (attachments ++ [unsaved fn part])%list)
  | None => ret attachments
  end.

Fixpoint for_parts (userId : option string) (messageId : string)
    (attachments : list EmailAttachment) (parts : list MimePart)
    : M (list EmailAttachment) :=
  match parts with
  | [] => ret attachments
  | part :: rest =>
      let* attachments' := process_part userId messageId attachments part in
      for_parts userId messageId attachments' rest
  end.

(** What [headers.find] throws when [payload.headers] is missing. *)
Definition no_headers : Err :=
  error "Cannot read properties of undefined (reading 'find')".

(** [payload.headers] is read before anything else and outside every
    [try]: a payload without headers makes the call throw. (A message
    without a payload throws one line earlier, to the same effect.) *)
Definition processEmail (userId : option string) (message : Message)
    : M ProcessedEmail :=
  let payload := payload message in
  match headers_of payload with
  | None => throw no_headers
  | Some headers =>
      let '(fromName, fromEmail) := parseEmailAddress (getHeader headers "From") in
      let parts := default [] (parts_of payload) in
      let* attachments := for_parts userId (msg_id message) [] parts in
      ret (mkProcessed
             (msg_id message)
             (threadId message)
             (getHeader headers "Subject")
             fromName
             fromEmail
             (getHeader headers "To")
             (getHeader headers "Date")
             (snippet message)
             (getEmailBody payload)
             (negb (default false (includes "UNREAD" <$> labelIds message)))
             (0 <? Z.of_nat (length attachments))
             attachments
             (default [] (labelIds message)))
  end.

(** ** The document store *)

(** One round trip to the database: the driver call may throw; when it
    returns, [f] is what it did to the collections. *)
Definition mongo {A} (f : Db -> A * Db) : M A :=
  call_ mongo_call ;;
  fun s =>
    let (a, d) := f (db s) in
    (Ok a, mkState (ext s) d (heap s) (storageCache s) (file s)).

(** [getDb]: [await client.connect()] *)
Definition getDb : M unit := call_ mongo_call.

Fixpoint delete_first {A} (q : A -> bool) (l : list A) : list A :=
  match l with
  | [] => []
  | x :: rest => if q x then rest else x :: delete_first q rest
  end.

Fixpoint update_first {A} (q : A -> bool) (f : A -> A) (l : list A) : list A :=
  match l with
  | [] => []
  | x :: rest => if q x then f x :: rest else x :: update_first q f rest
  end.

Definition count_one {A} (q : A -> bool) (l : list A) : Z :=
  if existsb q l then 1 else 0.

Definition profiles_findOne (q : ProfileDoc -> bool) : M (option ProfileDoc) :=
  mongo (fun d => (List.find q (profiles d), d)).

Definition profiles_insertOne (doc : ProfileDoc) : M unit :=
  mongo (fun d => (tt, mkDb (profiles d ++ [doc]) (mails d))).

(** The result is [deletedCount]. *)
Definition profiles_deleteOne (q : ProfileDoc -> bool) : M Z :=
  mongo (fun d => (count_one q (profiles d),
                   mkDb (delete_first q (profiles d)) (mails d))).

Definition profiles_updateMany (q : ProfileDoc -> bool)
    (f : ProfileDoc -> ProfileDoc) : M unit :=
  mongo (fun d => (tt, mkDb (map (fun p => if q p then f p else p) (profiles d))
                            (mails d))).

Definition mails_findOne (q : MailDoc -> bool) : M (option MailDoc) :=
  mongo (fun d => (List.find q (mails d), d)).

Definition mails_insertOne (doc : MailDoc) : M unit :=
  mongo (fun d => (tt, mkDb (profiles d) (mails d ++ [doc]))).

Definition mails_deleteOne (q : MailDoc -> bool) : M Z :=
  mongo (fun d => (count_one q (mails d),
                   mkDb (profiles d) (delete_first q (mails d)))).

Definition mails_deleteMany (q : MailDoc -> bool) : M unit :=
  mongo (fun d => (tt, mkDb (profiles d)
                            (List.filter (fun m => negb (q m)) (mails d)))).

(** The result is [matchedCount]. *)
Definition mails_updateOne (q : MailDoc -> bool) (f : MailDoc -> MailDoc) : M Z :=
  mongo (fun d => (count_one q (mails d),
                   mkDb (profiles d) (update_first q f (mails d)))).

(** Queries. *)
Definition by_uuid (id : string) (p : ProfileDoc) : bool := String.eqb (p_uuid p) id.
Definition by_google_id (id : string) (p : ProfileDoc) : bool :=
  match p_google_id p with
  | Some g => String.eqb g id
  | None => false
  end.
Definition scanned_has (id : string) (p : ProfileDoc) : bool :=
  includes id (default [] (p_scanned p)).
Definition mail_by_uuid (id : string) (m : MailDoc) : bool := String.eqb (m_uuid m) id.
Definition mail_by_user (id : string) (m : MailDoc) : bool := String.eqb (m_user_uuid m) id.

(** [{ $pull: { scanned: id } }] *)
Definition pull_scanned (id : string) (p : ProfileDoc) : ProfileDoc :=
  mkProfile (p_uuid p) (p_google_id p) (p_name p) (p_email p)
    (List.filter (fun x => negb (String.eqb x id)) <$> p_scanned p).

(** ** Validation against [MailSchema] *)

Definition field_ok {A} (required : bool) (chk : A -> bool) (o : option A) : bool :=
  match o with
  | Some a => chk a
  | None => negb required
  end.

Definition is_positive (q : Q) : bool := negb (Qle_bool q 0).
Definition is_nonnegative (q : Q) : bool := Qle_bool 0 q.

(** [MailSchema.parse] ([partial = false]) and
    [MailSchema.partial().parse] ([partial = true]). *)
Definition MailSchema_ok (partial : bool) (r : RawMail) : bool :=
  let req := negb partial in
  let inv := negb partial && invoice_fields_required in
  field_ok false is_uuid (r_uuid r)
  && field_ok req is_uuid (r_user_uuid r)
  && field_ok req truthy (r_scraped_data r)
  && field_ok inv truthy (r_invoice_number r)
  && field_ok inv truthy (r_vendor_name r)
  && field_ok inv is_date (r_invoice_date r)
  && field_ok inv is_positive (r_total_amount r)
  && field_ok false (fun _ => true) (r_purchase_order r)
  && field_ok false is_date (r_due_date r)
  && field_ok false (fun _ => true) (r_gst_number r)
  && field_ok false is_nonnegative (r_tax_amount r).

Definition zod_error : Err := mkErr None "Validation failed" true.

Definition MailSchema_parse (partial : bool) (r : RawMail) : M RawMail :=
  if MailSchema_ok partial r then ret r else throw zod_error.

(** [await request.json()]: throws when the body is not JSON. *)
Definition request_json {A} (b : option A) : M A :=
  match b with
  | Some a => ret a
  | None => throw (error "Unexpected end of JSON input")
  end.

(** [{ $set: validated }] *)
Definition set_fields (r : RawMail) (m : MailDoc) : MailDoc :=
  mkMail
    (default (m_uuid m) (r_uuid r))
    (default (m_user_uuid m) (r_user_uuid r))
    (default (m_scraped_data m) (r_scraped_data r))
    (match r_invoice_number r with Some x => Some x | None => m_invoice_number m end)
    (match r_vendor_name r with Some x => Some x | None => m_vendor_name m end)
    (match r_invoice_date r with Some x => Some x | None => m_invoice_date m end)
    (match r_total_amount r with Some x => Some x | None => m_total_amount m end)
    (match r_purchase_order r with Some x => Some x | None => m_purchase_order m end)
    (match r_due_date r with Some x => Some x | None => m_due_date m end)
    (match r_gst_number r with Some x => Some x | None => m_gst_number m end)
    (match r_tax_amount r with Some x => Some x | None => m_tax_amount m end).

(** ** [/api/mails] *)

Definition mails_POST (body : option RawMail) : M Response :=
  try_catch
    (let* body := request_json body in
     let* validated := MailSchema_parse false body in
     let* uuid :=
       match r_uuid validated with
       | Some u => if truthy u then ret u else ask randomUUID
       | None => ask randomUUID
       end in
     let data :=
       mkMail uuid
         (default "" (r_user_uuid validated))
         (default "" (r_scraped_data validated))
         (r_invoice_number validated) (r_vendor_name validated)
         (r_invoice_date validated) (r_total_amount validated)
         (r_purchase_order validated) (r_due_date validated)
         (r_gst_number validated) (r_tax_amount validated) in
     getDb ;;
     let* profileExists := profiles_findOne (by_uuid (m_user_uuid data)) in
     match profileExists with
     | None => ret (json 404 (JsonError "Profile not found" None))
     | Some _ =>
         mails_insertOne data ;;
         ret (json 201 (JsonMail data))
     end)
    (fun e =>
       if err_zod e then ret (json 400 (JsonError "Validation failed" None))
       else ret (json 500 (JsonError "Failed to create mail" (Some (err_message e))))).

(** ** [/api/mails/[id]] *)

Definition mails_id_PUT (id : string) (body : option RawMail) : M Response :=
  try_catch
    (let* body := request_json body in
     let* validated := MailSchema_parse true body in
     getDb ;;
     let* matchedCount := mails_updateOne (mail_by_uuid id) (set_fields validated) in
     if matchedCount =? 0 then ret (json 404 (JsonError "Mail not found" None))
     else
       let* updated := mails_findOne (mail_by_uuid id) in
       ret (json 200 (match updated with Some m => JsonMail m | None => JsonNull end)))
    (fun e =>
       if err_zod e then ret (json 400 (JsonError "Validation failed" None))
       else ret (json 500 (JsonError "Failed to update mail" None))).

Definition mails_id_DELETE (id : string) : M Response :=
  try_catch
    (getDb ;;
     let* mail := mails_findOne (mail_by_uuid id) in
     match mail with
     | None => ret (json 404 (JsonError "Mail not found" None))
     | Some _ =>
         profiles_updateMany (scanned_has id) (pull_scanned id) ;;
         let* result := mails_deleteOne (mail_by_uuid id) in
         ret (json 200 (JsonMessage "Mail deleted"))
     end)
    (fun _ => ret (json 500 (JsonError "Failed to delete mail" None))).

(** ** [/api/profiles/[id]] *)

Definition profiles_id_DELETE (id : string) : M Response :=
  try_catch
    (getDb ;;
     mails_deleteMany (mail_by_user id) ;;
     let* deletedCount := profiles_deleteOne (by_uuid id) in
     if deletedCount =? 0 then ret (json 404 (JsonError "Profile not found" None))
     else ret (json 200 (JsonMessage "Profile deleted")))
    (fun _ => ret (json 500 (JsonError "Failed to delete profile" None))).

(** ** [/api/verify-invoice] *)

(** The body posted to [/api/mails] is [mailData]; of its keys
    ([user_uuid], [email_id], [thread_id], [from], [to], [subject],
    [body], [snippet], [date], [is_read], [has_attachments],
    [attachments], [is_invoice], [invoice_confidence],
    [verification_details]) only [user_uuid] is a key of [MailSchema]. *)
Definition mail_request (userUuid : string) : RawMail :=
  mkRawMail None (Some userUuid) None None None None None None None None None.

(** [a || b] on optional strings. *)
Definition or_else (a b : option string) : option string :=
  if truthy_opt a then a else b.

(** The text of an error response. *)
Definition response_text (r : Response) : string :=
  match content r with
  | JsonError e _ => e
  | _ => ""
  end.

Definition saved_uuid (r : Response) : option string :=
  match content r with
  | JsonMail m => Some (m_uuid m)
  | _ => None
  end.

(** [NextResponse.json(b, { status })] refuses a status outside 200..599. *)
Definition json_with_status (st : Z) (b : Body) : M Response :=
  if (200 <=? st) && (st <=? 599) then ret (json st b)
  else throw (error "init[status] must be in the range of 200 to 599").

Definition verify_invoice_POST (request : Request) (body : option VerifyRequest)
    : M Response :=
  try_catch
    (let* body := request_json body in
     let subject := vq_subject body in
     let emailBody := vq_body body in
     if negb (truthy_opt subject) && negb (truthy_opt emailBody) then
       ret (json 400 (JsonError "Either subject or body must be provided" None))
     else
       let* response :=
         call (classifier_fetch
                 (mkClassify (default "" subject) (default "" emailBody)
                    (or_else (vq_attachment_filename body) None))) in
       if negb (ok_status (reply_status response)) then
         json_with_status (reply_status response)
           (JsonError "Failed to verify email with backend"
              (Some (reply_text response)))
       else
         let* verificationData := request_json (reply_json response) in
         let standard := json 200 (JsonVerdict verificationData false None None) in
         match vq_emailData body with
         | Some emailData =>
             if v_is_invoice verificationData then
               try_catch
                 (match or_else (req_headers request !! "x-user-uuid")
                          (ed_user_uuid emailData) with
                  | None => ret standard
                  | Some userUuid =>
                      let* saveResponse :=
                        call_ (loopback_fetch "/api/mails") ;;
                        mails_POST (Some (mail_request userUuid)) in
                      if ok_status (status saveResponse) then
                        ret (json 200 (JsonVerdict verificationData true
                                         (saved_uuid saveResponse) None))
                      else
                        ret (json 200 (JsonVerdict verificationData false None
                                         (Some (response_text saveResponse))))
                  end)
                 (fun dbError =>
                    ret (json 200 (JsonVerdict verificationData false None
                                     (Some (err_message dbError)))))
             else ret standard
         | None => ret standard
         end)
    (fun e =>
       ret (json 500 (JsonError "Internal server error during verification"
                        (Some (err_message e))))).

(** ** Classification forwarder *)

(** [verificationData.is_invoice || false] *)
Definition reply_is_invoice (b : Body) : bool :=
  match b with
  | JsonVerdict v _ _ _ => v_is_invoice v
  | _ => false
  end.

(** [verificationData.confidence || null] *)
Definition reply_confidence (b : Body) : option Q :=
  match b with
  | JsonVerdict v _ _ _ =>
      match v_confidence v with
      | Some q => if Qeq_bool q 0 then None else Some q
      | None => None
      end
  | _ => None
  end.

Definition first_filename (l : list EmailAttachment) : option string :=
  match l with
  | a :: _ => if truthy (att_filename a) then Some (att_filename a) else None
  | [] => None
  end.

(** [headers.find(h => h.name.toLowerCase() === 'subject')?.value || ''] *)
Definition subject_of (emailData : Message) : string :=
  default ""
    (h_value <$> List.find (fun h => String.eqb (toLowerCase (h_name h)) "subject")
                           (default [] (headers_of (payload emailData)))).

Definition processEmailWithVerification (userId : option string)
    (profileUuid : string) (emailData : Message) : M VerifiedEmail :=
  let* processedEmail := processEmail userId emailData in
  let subject := subject_of emailData in
  let body := extractEmailBody (payload emailData) in
  let attachmentFilename := first_filename (pe_attachments processedEmail) in
  try_catch
    (let* verificationResponse :=
       call_ (loopback_fetch "/api/verify-invoice") ;;
       verify_invoice_POST
         (mkRequest ∅ ∅ {[ "x-user-uuid" := profileUuid ]})
         (Some (mkVerifyRequest (Some subject) (Some body) attachmentFilename
                  (Some (mkEmailData
                           (pe_id processedEmail)
                           (pe_threadId processedEmail)
                           (pe_from processedEmail ++ " <"
                              ++ pe_fromEmail processedEmail ++ ">")
                           (pe_to processedEmail)
                           (pe_snippet processedEmail)
                           (pe_date processedEmail)
                           (pe_isRead processedEmail)
                           (pe_hasAttachments processedEmail)
                           (pe_attachments processedEmail)
                           None)))) in
     if ok_status (status verificationResponse) then
       ret (mkVerified processedEmail
              (reply_is_invoice (content verificationResponse))
              (reply_confidence (content verificationResponse)))
     else ret (mkVerified processedEmail false None))
    (fun _ => ret (mkVerified processedEmail false None)).

(** ** Profiles by external identity *)

(** Find or create the profile of a Google identity. The source repeats
    these lines in [authGoogle], [authStatus] and [getEmails]. *)
Definition find_or_create_profile (userId userEmail : string) : M ProfileDoc :=
  let* profile := profiles_findOne (by_google_id userId) in
  match profile with
  | Some p => ret p
  | None =>
      let* uuid := ask randomUUID in
      profiles_insertOne (mkProfile uuid (Some userId) None userEmail None) ;;
      let* profile := profiles_findOne (by_uuid uuid) in
      match profile with
      | Some p => ret p
      | None => throw (error "Cannot read properties of null (reading 'uuid')")
      end
  end.

(** The same lines for a session that is an inherited value, whose
    [userId] and [email] are [undefined]: the driver sends [undefined] as
    [null], [{ google_id: null }] matches the documents without a
    [google_id], and the document inserted has neither identity nor
    email (an absent email is the empty string here, as in
    [authGoogle]). *)
Definition without_google_id (p : ProfileDoc) : bool :=
  match p_google_id p with
  | Some _ => false
  | None => true
  end.

Definition find_or_create_unlinked : M ProfileDoc :=
  let* profile := profiles_findOne without_google_id in
  match profile with
  | Some p => ret p
  | None =>
      let* uuid := ask randomUUID in
      profiles_insertOne (mkProfile uuid None None "" None) ;;
      let* profile := profiles_findOne (by_uuid uuid) in
      match profile with
      | Some p => ret p
      | None => throw (error "Cannot read properties of null (reading 'uuid')")
      end
  end.

Definition find_or_create_for (session : SessionValue) : M ProfileDoc :=
  match session with
  | Own sess => find_or_create_profile (userId sess) (email sess)
  | Inherited _ => find_or_create_unlinked
  end.

(** ** Session and token entries of a storage object *)

Definition put_session (sessionId : string) (v : Session) (d : DevStorage) : DevStorage :=
  mkStorage (<[sessionId := v]> (sessions d)) (tokens d).

Definition put_tokens (user : string) (t : Tokens) (d : DevStorage) : DevStorage :=
  mkStorage (sessions d) (<[user := t]> (tokens d)).

Definition delete_session (sessionId : string) (d : DevStorage) : DevStorage :=
  mkStorage (delete sessionId (sessions d)) (tokens d).

Definition delete_tokens (user : string) (d : DevStorage) : DevStorage :=
  mkStorage (sessions d) (delete user (tokens d)).

(** [storage.sessions[sessionId].profile_uuid = uuid] *)
Definition put_profile_uuid (sessionId uuid : string) (d : DevStorage) : DevStorage :=
  mkStorage
    (alter (fun v => mkSession (userId v) (email v) (Some uuid)) sessionId (sessions d))
    (tokens d).

(** The write-back of a profile uuid into the session of the request:
    [if (sessionId && storage.sessions[sessionId]) { ...; saveStorage(storage) }]. *)
Definition backfill_profile (request : Request) (storage : nat) (uuid : string) : M unit :=
  match session_cookie request with
  | Some sessionId =>
      if truthy sessionId then
        let* d := read storage in
        let* entry := peek (sessions_get d sessionId) in
        match entry with
        | Some (Own _) =>
            mutate storage (put_profile_uuid sessionId uuid) ;;
            saveStorage storage
        | Some (Inherited k) =>
            call_ (realm_assign k uuid) ;;
            saveStorage storage
        | None => ret tt
        end
      else ret tt
  | None => ret tt
  end.

(** [session.profile_uuid = uuid], on the value [getSession] returned.
    For an entry of the storage object the write is not seen again
    (where that object is still in use, [backfill_profile] has made the
    same write). *)
Definition assign_profile (session : SessionValue) (uuid : string) : M unit :=
  match session with
  | Own _ => ret tt
  | Inherited k => call_ (realm_assign k uuid)
  end.

(** ** OAuth flow controller *)

Record Credential := mkCredential {
  credential : option string;
  credential_email : option string
}.

Definition authGoogle (body : option Credential) : M Response :=
  let* storage := loadStorage in
  try_catch
    (let* body := request_json body in
     match or_else (credential body) None with
     | None => ret (json 400 (JsonError "Credential is required" None))
     | Some idToken =>
         let* payload := call (verifyIdToken idToken) in
         match or_else (sub payload) None with
         | None => ret (json 400 (JsonError "Invalid credential" None))
         | Some userId =>
             let userEmail :=
               default "" (or_else (credential_email body) (ticket_email payload)) in
             getDb ;;
             let* profile := find_or_create_profile userId userEmail in
             let* sessionId := ask new_session_id in
             mutate storage
               (put_session sessionId (mkSession userId userEmail (Some (p_uuid profile)))) ;;
             saveStorage storage ;;
             let authUrl := generateAuthUrl sessionId in
             ret (mkResponse 200 (JsonAuthUrl authUrl) (SetCookie sessionId))
         end
     end)
    (fun e => ret (json 500 (JsonError "Authentication failed" (Some (err_message e))))).

Definition authGoogleCallback (request : Request) : M Response :=
  let* storage := loadStorage in
  try_catch
    (match or_else (searchParams request !! "code") None,
           or_else (searchParams request !! "state") None with
     | Some code, Some state =>
         let* d := read storage in
         let* session := peek (sessions_get d state) in
         match session with
         | None =>
             throw (error "Invalid or expired session. Please try logging in again.")
         | Some session =>
             let* tokens := call (getToken code) in
             mutate storage (put_tokens (user_key session) tokens) ;;
             saveStorage storage ;;
             ret (mkResponse 200
                    (Html "Auth Success"
                       "Your account is connected. This window will close automatically.")
                    KeepCookie)
         end
     | _, _ => throw (error "Authorization code or state is missing")
     end)
    (fun e => ret (mkResponse 500 (Html "Authorization Failed" (err_message e)) KeepCookie)).

(** [session.profile_uuid] when the answer is built. The session of the
    request is the entry of the storage object in use, so the write of
    [backfill_profile] shows in it. *)
Definition profile_uuid_now (request : Request) (storage : nat) : M (option string) :=
  match session_cookie request with
  | Some sessionId =>
      let* d := read storage in
      peek (fun w => sessions_get d sessionId w ≫= fun v => profile_uuid_of v w)
  | None => ret None
  end.

Definition authStatus (request : Request) : M Response :=
  let* session := getSession request in
  let* storage := get_cache in
  match session with
  | Some session =>
      let* before := peek (profile_uuid_of session) in
      (if negb (truthy_opt before) then
         try_catch
           (getDb ;;
            let* profile := find_or_create_for session in
            backfill_profile request storage (p_uuid profile) ;;
            assign_profile session (p_uuid profile))
           (fun _ => ret tt)
       else ret tt) ;;
      let* d := read storage in
      let* hasTokens :=
        peek (fun w => bool_decide (is_Some (tokens_get d (user_key session) w))) in
      let* after := profile_uuid_now request storage in
      ret (json 200 (JsonStatus hasTokens
                       (or_else (email_of session) None)
                       (or_else after None)))
  | None => ret (json 200 (JsonStatus false None None))
  end.

Definition authDisconnect (request : Request) : M Response :=
  let* storage := loadStorage in
  try_catch
    (let* session := getSession request in
     match session with
     | Some session =>
         let* d := read storage in
         let* tokens := peek (tokens_get d (user_key session)) in
         match or_else (tokens ≫= access_token) None with
         | Some tok => call_ (revokeToken tok)
         | None => ret tt
         end ;;
         mutate storage (delete_tokens (user_key session)) ;;
         match or_else (session_cookie request) None with
         | Some sessionId => mutate storage (delete_session sessionId)
         | None => ret tt
         end ;;
         saveStorage storage
     | None => ret tt
     end)
    (fun _ => ret tt) ;;
  ret (mkResponse 200 (JsonMessage "Disconnected") DeleteCookie).

(** ** Mailbox fetcher *)

(** [Promise.all(items.map(f))]: the promises are taken in list order. *)
Fixpoint Promise_all {A B} (f : A -> M B) (items : list A) : M (list B) :=
  match items with
  | [] => ret []
  | x :: rest =>
      let* y := f x in
      let* ys := Promise_all f rest in
      ret (y :: ys)
  end.

Definition count {A} (q : A -> bool) (l : list A) : Z :=
  Z.of_nat (length (List.filter q l)).

(** The [if (!session.profile_uuid)] block of [getEmails], and
    [session.profile_uuid] after it. *)
Definition session_profile (request : Request) (session : SessionValue) : M string :=
  let* before := peek (profile_uuid_of session) in
  match or_else before None with
  | Some u => ret u
  | None =>
      getDb ;;
      let* profile := find_or_create_for session in
      loadStorage ;;
      let* storage := get_cache in
      backfill_profile request storage (p_uuid profile) ;;
      assign_profile session (p_uuid profile) ;;
      ret (p_uuid profile)
  end.

Definition list_inbox (request : Request) : M ListResponse :=
  let maxResults :=
    parseInt (default "30" (or_else (searchParams request !! "maxResults") None)) in
  call (gmail_list maxResults).

(** [getEmails] from the answer of the list call on: fetch every listed
    message, process and classify each, count. *)
Definition deliver (userId : option string) (profileUuid : string)
    (listResponse : ListResponse) : M Response :=
  let messages := default [] (messages listResponse) in
  if (length messages =? 0)%nat then
    ret (json 200 (JsonEmails [] 0 0 None))
  else
    let* emailDetails := Promise_all (fun id => call (gmail_get id)) messages in
    let* processedEmails :=
      Promise_all (processEmailWithVerification userId profileUuid) emailDetails in
    let unreadCount := count (fun e => negb (pe_isRead (ve_email e))) processedEmails in
    let invoiceCount := count isInvoice processedEmails in
    let total :=
      match resultSizeEstimate listResponse with
      | Some n => if n =? 0 then Z.of_nat (length processedEmails) else n
      | None => Z.of_nat (length processedEmails)
      end in
    ret (json 200 (JsonEmails processedEmails total unreadCount (Some invoiceCount))).

(** The answer of the [catch] block of [getEmails]:
    [error.code === 401] is a token the provider rejected. *)
Definition fetch_error (e : Err) : Response :=
  match err_code e with
  | Some 401 => json 401 (JsonReauth "Token expired")
  | _ => json 500 (JsonError "Failed to fetch emails" None)
  end.

Definition getEmails (request : Request) : M Response :=
  try_catch
    (let* tokens := getTokens request in
     let* session := getSession request in
     match tokens, session with
     | Some tokens, Some session =>
         let* profileUuid := session_profile request session in
         let* listResponse := list_inbox request in
         deliver (user_of session) profileUuid listResponse
     | _, _ => ret (json 401 (JsonError "Not authenticated" None))
     end)
    (fun e => ret (fetch_error e)).

End Handlers.

(** ** The other handlers of the REST routes *)

(** The bodies these handlers answer with: [{ error }],
    [{ error, details: error.message }], [{ error: error.cause }] of a
    rejected body, a document or [null], an array of documents, and
    [{ message: 'Mail scanned', profile }]. The [details] of a 400 answer
    of [POST /api/profiles], [error.flatten()], are not part of the
    model. *)
Inductive RestBody :=
  | RError (error : string)
  | RFailure (error details : string)
  | RCause
  | RMail (m : option MailDoc)
  | RMails (l : list MailDoc)
  | RProfile (p : option ProfileDoc)
  | RProfiles (l : list ProfileDoc)
  | RScanned (profile : option ProfileDoc).

Record RestResponse := mkRest {
  rest_status : Z;
  rest_body : RestBody
}.

(** A request body read against [ProfileSchema], in the revision with a
    [scanned] array, which [POST /api/profiles] destructures. *)
Record RawProfile := mkRawProfile {
  rp_uuid : option string;
  rp_name : option string;
  rp_email : option string;
  rp_scanned : option (list string)
}.

(** A request body read against [ScanSchema]. *)
Record RawScan := mkRawScan {
  rs_profile_uuid : option string;
  rs_mail_uuid : option string
}.

Section RestHandlers.
Context `{Outside}.
(** [z.string().email()] *)
Variable is_email : string -> bool.

Definition profiles_updateOne (q : ProfileDoc -> bool)
    (f : ProfileDoc -> ProfileDoc) : M Z :=
  mongo (fun d => (count_one q (profiles d),
                   mkDb (update_first q f (profiles d)) (mails d))).

(** [collection.find({}).toArray()] *)
Definition mails_find_all : M (list MailDoc) := mongo (fun d => (mails d, d)).
Definition profiles_find_all : M (list ProfileDoc) := mongo (fun d => (profiles d, d)).

(** [GET /api/mails] *)
Definition mails_GET : M RestResponse :=
  try_catch
    (getDb ;;
     let* mails := mails_find_all in
     ret (mkRest 200 (RMails mails)))
    (fun _ => ret (mkRest 500 (RError "Failed to fetch mails"))).

(** [GET /api/mails/[id]] *)
Definition mails_id_GET (id : string) : M RestResponse :=
  try_catch
    (getDb ;;
     let* mail := mails_findOne (mail_by_uuid id) in
     match mail with
     | None => ret (mkRest 404 (RError "Mail not found"))
     | Some m => ret (mkRest 200 (RMail (Some m)))
     end)
    (fun _ => ret (mkRest 500 (RError "Failed to fetch mail"))).

(** [GET /api/profiles] *)
Definition profiles_GET : M RestResponse :=
  try_catch
    (getDb ;;
     let* profiles := profiles_find_all in
     ret (mkRest 200 (RProfiles profiles)))
    (fun _ => ret (mkRest 500 (RError "Failed to fetch profiles"))).

(** [GET /api/profiles/[id]] *)
Definition profiles_id_GET (id : string) : M RestResponse :=
  try_catch
    (getDb ;;
     let* profile := profiles_findOne (by_uuid id) in
     match profile with
     | None => ret (mkRest 404 (RError "Profile not found"))
     | Some p => ret (mkRest 200 (RProfile (Some p)))
     end)
    (fun _ => ret (mkRest 500 (RError "Failed to fetch profile"))).

(** [ProfileSchema.parse] and [ProfileSchema.partial().parse]. *)
Definition ProfileSchema_ok (partial : bool) (r : RawProfile) : bool :=
  let req := negb partial in
  field_ok false is_uuid (rp_uuid r)
  && field_ok req truthy (rp_name r)
  && field_ok req is_email (rp_email r)
  && field_ok false (forallb is_uuid) (rp_scanned r).

Definition ProfileSchema_parse (partial : bool) (r : RawProfile) : M RawProfile :=
  if ProfileSchema_ok partial r then ret r else throw zod_error.

(** [POST /api/profiles] *)
Definition profiles_POST (body : option RawProfile) : M RestResponse :=
  try_catch
    (let* body := request_json body in
     let* validated := ProfileSchema_parse false body in
     let* uuid :=
       match rp_uuid validated with
       | Some u => if truthy u then ret u else ask randomUUID
       | None => ask randomUUID
       end in
     let data :=
       mkProfile uuid None (rp_name validated)
         (default "" (rp_email validated))
         (Some (default [] (rp_scanned validated))) in
     getDb ;;
     profiles_insertOne data ;;
     ret (mkRest 201 (RProfile (Some data))))
    (fun e =>
       if err_zod e then ret (mkRest 400 (RError "Validation failed"))
       else ret (mkRest 500 (RFailure "Failed to create profile" (err_message e)))).

(** [{ $set: validated }] on a profile. *)
Definition set_profile_fields (r : RawProfile) (p : ProfileDoc) : ProfileDoc :=
  mkProfile
    (default (p_uuid p) (rp_uuid r))
    (p_google_id p)
    (match rp_name r with Some x => Some x | None => p_name p end)
    (default (p_email p) (rp_email r))
    (match rp_scanned r with Some x => Some x | None => p_scanned p end).

(** [PUT /api/profiles/[id]] *)
Definition profiles_id_PUT (id : string) (body : option RawProfile) : M RestResponse :=
  try_catch
    (let* body := request_json body in
     getDb ;;
     let* validated := ProfileSchema_parse true body in
     let* matchedCount := profiles_updateOne (by_uuid id) (set_profile_fields validated) in
     if matchedCount =? 0 then ret (mkRest 404 (RError "Profile not found"))
     else
       let* updated := profiles_findOne (by_uuid id) in
       ret (mkRest 200 (RProfile updated)))
    (fun e =>
       if err_zod e then ret (mkRest 400 RCause)
       else ret (mkRest 500 (RError "Failed to update profile"))).

(** [{ $addToSet: { scanned: id } }] *)
Definition add_scanned (id : string) (p : ProfileDoc) : ProfileDoc :=
  mkProfile (p_uuid p) (p_google_id p) (p_name p) (p_email p)
    (Some (if includes id (default [] (p_scanned p))
           then default [] (p_scanned p)
           else default [] (p_scanned p) ++ [id])%list).

Definition ScanSchema_parse (r : RawScan) : M (string * string) :=
  match rs_profile_uuid r, rs_mail_uuid r with
  | Some p, Some m => if is_uuid p && is_uuid m then ret (p, m) else throw zod_error
  | _, _ => throw zod_error
  end.

(** [POST /api/scan] *)
Definition scan_POST (body : option RawScan) : M RestResponse :=
  try_catch
    (let* body := request_json body in
     let* ids := ScanSchema_parse body in
     let profile_uuid := fst ids in
     let mail_uuid := snd ids in
     getDb ;;
     let* profile := profiles_findOne (by_uuid profile_uuid) in
     let* mail := mails_findOne (mail_by_uuid mail_uuid) in
     match profile, mail with
     | Some _, Some _ =>
         let* matchedCount :=
           profiles_updateOne (by_uuid profile_uuid) (add_scanned mail_uuid) in
         if matchedCount =? 0 then ret (mkRest 500 (RError "Failed to scan"))
         else
           let* updatedProfile := profiles_findOne (by_uuid profile_uuid) in
           ret (mkRest 200 (RScanned updatedProfile))
     | _, _ => ret (mkRest 404 (RError "Profile or mail not found"))
     end)
    (fun e =>
       if err_zod e then ret (mkRest 400 RCause)
       else ret (mkRest 500 (RError "Failed to scan mail"))).

(** [POST /api/emails/[id]/read]; the mailbox call
    [messages.modify({removeLabelIds: ['UNREAD']})] is a parameter. *)
Variable gmail_modify : string -> world -> option Err * world.

Definition markEmailAsRead (request : Request) (id : string) : M Response :=
  try_catch
    (let* tokens := getTokens request in
     match tokens with
     | None => ret (json 401 (JsonError "Not authenticated" None))
     | Some _ =>
         call_ (gmail_modify id) ;;
         ret (json 200 JsonSuccess)
     end)
    (fun _ => ret (json 500 (JsonError "Failed to mark email as read" None))).

End RestHandlers.

(** ** The resolution algorithm as the design states it

    Body resolution in the words of the design, as a relation between a
    part and its body, written without the functions of the source: the
    root's own body, base64url-decoded, if it is non-empty; else the body
    of a direct [text/html] child; else that of a direct [text/plain]
    child, with the two delimiters escaped, in a fixed-width container;
    else the first non-empty body among the children, in order; else the
    empty string. Which child of a type is looked at is a parameter: the
    first of that type that carries a body ([any_child_text], the
    preference as the design words it), or the first of that type, used
    only when it carries a body ([first_child_text]). *)

Section Resolution.
Context `{Outside}.

(** The loop over the children, as the source writes it. *)
Definition nested_loop : list MimePart -> string :=
  fix nested (l : list MimePart) : string :=
    match l with
    | [] => ""
    | part :: rest =>
        let nestedBody := getEmailBody part in
        if truthy nestedBody then nestedBody else nested rest
    end.

(** Base64url is base64 over an alphabet that has [-] for [+] and [_]
    for [/]. *)
Definition standard_alphabet (a : ascii) : ascii :=
  if Ascii.eqb a "-" then "+"%char
  else if Ascii.eqb a "_" then "/"%char
  else a.

Fixpoint map_chars (f : ascii -> ascii) (s : string) : string :=
  match s with
  | EmptyString => EmptyString
  | String a rest => String (f a) (map_chars f rest)
  end.

Definition base64url_decode (d : string) : string :=
  Buffer_toString_utf8 (Buffer_from_base64 (map_chars standard_alphabet d)).

(** Escaping of the two markup delimiters, character by character. *)
Definition html_escape_char (a : ascii) : string :=
  if Ascii.eqb a "<" then "&lt;"
  else if Ascii.eqb a ">" then "&gt;"
  else String a EmptyString.

Fixpoint html_escape (s : string) : string :=
  match s with
  | EmptyString => EmptyString
  | String a rest => html_escape_char a ++ html_escape rest
  end.

(** The fixed-width container: a block that keeps white space and is set
    in a monospace font. *)
Definition fixed_width_container (s : string) : string :=
  String.concat ""
    ["<div style="; dquote; "white-space: pre-wrap; font-family: monospace;";
     dquote; ">"; s; "</div>"].

(** The data a part's body carries, when it carries some. *)
Definition body_text (p : MimePart) : option string :=
  match body_of p ≫= body_data with
  | Some d => if String.eqb d "" then None else Some d
  | None => None
  end.

(** The data of a body of positive size. *)
Definition root_text (p : MimePart) : option string :=
  match body_of p ≫= body_size with
  | Some n => if 0 <? n then body_text p else None
  | None => None
  end.

Definition of_type (m : string) (q : MimePart) : bool :=
  bool_decide (mimeType_of q = m).

(** The body data of the first direct child of type [m], if that child
    carries some. *)
Definition first_child_text (m : string) (ps : list MimePart) : option string :=
  head (List.filter (of_type m) ps) ≫= body_text.

(** The body data of the first direct child of type [m] that carries
    some. *)
Definition any_child_text (m : string) (ps : list MimePart) : option string :=
  head (List.filter (fun q => of_type m q && bool_decide (is_Some (body_text q))) ps)
    ≫= body_text.

Inductive ResolvedBy (pick : string -> list MimePart -> option string)
    : MimePart -> string -> Prop :=
  | resolved_root p d :
      root_text p = Some d ->
      ResolvedBy pick p (base64url_decode d)
  | resolved_leaf p :
      root_text p = None ->
      parts_of p = None ->
      ResolvedBy pick p ""
  | resolved_html p ps d :
      root_text p = None ->
      parts_of p = Some ps ->
      pick "text/html" ps = Some d ->
      ResolvedBy pick p (base64url_decode d)
  | resolved_plain p ps d :
      root_text p = None ->
      parts_of p = Some ps ->
      pick "text/html" ps = None ->
      pick "text/plain" ps = Some d ->
      ResolvedBy pick p (fixed_width_container (html_escape (base64url_decode d)))
  | resolved_nested p ps s :
      root_text p = None ->
      parts_of p = Some ps ->
      pick "text/html" ps = None ->
      pick "text/plain" ps = None ->
      FirstResolvedBy pick ps s ->
      ResolvedBy pick p s
with FirstResolvedBy (pick : string -> list MimePart -> option string)
    : list MimePart -> string -> Prop :=
  | first_none : FirstResolvedBy pick [] ""
  | first_here q rest s :
      ResolvedBy pick q s -> s <> "" ->
      FirstResolvedBy pick (q :: rest) s
  | first_later q rest s :
      ResolvedBy pick q "" ->
      FirstResolvedBy pick rest s ->
      FirstResolvedBy pick (q :: rest) s.

(** Resolution with the preference as the design words it: a child of
    the type that has a body is preferred wherever it stands among the
    children of that type. *)
Definition Claimed : MimePart -> string -> Prop := ResolvedBy any_child_text.

(** Resolution where only the first child of each type is looked at. *)
Definition Resolved : MimePart -> string -> Prop := ResolvedBy first_child_text.

End Resolution.

(** ** Vocabulary for statements about a run *)

Section Vocabulary.
Context `{Outside}.

(** A computation that always returns. *)
Definition returns {A} (m : M A) : Prop :=
  forall s, exists a s', m s = (Ok a, s').

(** A computation that leaves the process and the store as they are: it
    acts on the outside only. *)
Definition outside_only {A} (m : M A) : Prop :=
  forall s r s', m s = (r, s') ->
    db s' = db s /\ heap s' = heap s /\
    storageCache s' = storageCache s /\ file s' = file s.

(** What the classifier is asked about a message once it is processed. *)
Definition classify_request (emailData : Message) (pe : ProcessedEmail)
    : ClassifyRequest :=
  mkClassify (subject_of emailData) (extractEmailBody (payload emailData))
    (first_filename (pe_attachments pe)).

(** The classifier call throws, or answers with a status outside 200..299. *)
Definition classifier_fails (q : ClassifyRequest) (w : world) : Prop :=
  match fst (classifier_fetch q w) with
  | Throw _ => True
  | Ok r => ok_status (reply_status r) = false
  end.

(** Whether a character occurs in a string. *)
Fixpoint mentions (c : ascii) (s : string) : bool :=
  match s with
  | EmptyString => false
  | String a rest => Ascii.eqb a c || mentions c rest
  end.

(** Referential integrity of the store. *)

(** Every mail record has an owner: a profile whose uuid is the record's
    [user_uuid]. *)
Definition owned (d : Db) : Prop :=
  forall m, In m (mails d) ->
    exists p, In p (profiles d) /\ p_uuid p = m_user_uuid m.

(** Every entry of a [scanned] array is the uuid of a mail record. *)
Definition scans_resolve (d : Db) : Prop :=
  forall p x, In p (profiles d) -> In x (default [] (p_scanned p)) ->
    exists m, In m (mails d) /\ m_uuid m = x.

(** The same two conditions as tests. *)
Definition ownedb (d : Db) : bool :=
  forallb (fun m => existsb (by_uuid (m_user_uuid m)) (profiles d)) (mails d).

Definition scans_resolveb (d : Db) : bool :=
  forallb (fun p => forallb (fun x => existsb (mail_by_uuid x) (mails d))
                            (default [] (p_scanned p)))
          (profiles d).

(** What [updateMany({scanned: id}, {$pull: {scanned: id}})] leaves. *)
Definition purged (id : string) (ps : list ProfileDoc) : list ProfileDoc :=
  map (fun p => if scanned_has id p then pull_scanned id p else p) ps.

(** The storage object [storageCache] refers to. *)
Definition current (s : State) : DevStorage := deref (storageCache s) s.

(** What a handler is handed by [loadStorage]: the cached object in
    production or without a file, the content of the file otherwise, and
    an empty storage when the file cannot be read. *)
Definition loaded_view (s : State) : DevStorage :=
  if production then current s
  else
    match file s with
    | NoFile => current s
    | Corrupt => empty_storage
    | Stored d => d
    end.

(** The profiles of an external identity. *)
Definition with_identity (g : string) (d : Db) : list ProfileDoc :=
  List.filter (by_google_id g) (profiles d).

(** The database answers every call. *)
Definition store_reachable : Prop := forall w, fst (mongo_call w) = None.

(** A message whose payload has a header list. *)
Definition with_headers (m : Message) : Prop :=
  is_Some (headers_of (payload m)).

End Vocabulary.

(** ** A deployment to run the handlers on

    A small world for closed examples: there is one state of the outside;
    the database and the disk work; the mailbox lists two messages, each
    with a text part and a PDF whose bytes cannot be fetched; the
    classifier is unreachable; the identity provider refuses to revoke;
    the builtin objects of the realm are as the platform ships them. *)

Definition lower (a : ascii) : ascii :=
  let n := nat_of_ascii a in
  if ((65 <=? n) && (n <=? 90))%nat then ascii_of_nat (n + 32) else a.

Fixpoint lowercase (s : string) : string :=
  match s with
  | EmptyString => EmptyString
  | String a rest => String (lower a) (lowercase rest)
  end.

Definition lab_body (s : string) : option PartBody :=
  Some (mkPartBody (Some (Z.of_nat (String.length s))) (Some s) None).

Definition lab_text_part : MimePart :=
  Part "text/plain" None None (lab_body "a < b") None.

Definition lab_pdf_part : MimePart :=
  Part "application/pdf" (Some "invoice.pdf") None
       (Some (mkPartBody (Some 1024) None (Some "att-1"))) None.

Definition lab_message (id : string) : Message :=
  mkMessage id "thread-1" "Invoice attached" (Some ["INBOX"; "UNREAD"])
    (Part "multipart/mixed" None
       (Some [mkHeader "From" "billing@vendor.example";
              mkHeader "Subject" "Invoice 42"])
       None
       (Some [lab_text_part; lab_pdf_part])).

Definition lab : Outside := {|
  world := unit;
  production := false;
  Buffer_from_base64 := list_byte_of_string;
  Buffer_toString_utf8 := string_of_list_byte;
  JSON_stringify := fun _ => [];
  toLowerCase := lowercase;
  trim := fun s => s;
  match_address := fun _ => None;
  strip_tags := fun s => s;
  parseInt := fun _ => Some 30;
  path_join := String.concat "/";
  cwd := "/srv/paygo";
  encodeURIComponent := Some;
  generateAuthUrl := fun st => "https://accounts.example/auth?state=" ++ st;
  is_uuid := fun s => (String.length s =? 36)%nat;
  is_date := truthy;
  invoice_fields_required := false;
  mongo_call := fun w => (None, w);
  randomUUID := fun w => ("0f0e0d0c-0b0a-4908-8706-050403020100", w);
  new_session_id := fun w => ("sess_1700000000000_k3x9q2ab", w);
  fs_existsSync := fun _ w => (false, w);
  fs_mkdirSync := fun _ w => (None, w);
  fs_writeFileSync := fun _ _ w => (None, w);
  verifyIdToken := fun _ w => (Ok (mkTicket (Some "g-100") (Some "ana@example.org")), w);
  getToken := fun _ w => (Ok (mkTokens (Some "ya29.new") None None), w);
  revokeToken := fun _ w => (Some (error "invalid_token"), w);
  gmail_list := fun _ w => (Ok (mkList (Some ["m1"; "m2"]) None), w);
  gmail_get := fun id w => (Ok (lab_message id), w);
  gmail_attachment := fun _ _ w => (Throw (error "socket hang up"), w);
  classifier_fetch := fun _ w => (Throw (error "ECONNREFUSED"), w);
  loopback_fetch := fun _ w => (None, w);
  realm_profile_uuid := fun _ _ => None;
  realm_assign := fun _ _ w => (None, w);
|}.

Definition uuid_a : string := "aaaaaaaa-aaaa-4aaa-8aaa-aaaaaaaaaaaa".
Definition uuid_b : string := "bbbbbbbb-bbbb-4bbb-8bbb-bbbbbbbbbbbb".
Definition uuid_m : string := "11111111-1111-4111-8111-111111111111".
Definition uuid_x : string := "99999999-9999-4999-8999-999999999999".

Definition ana : ProfileDoc := mkProfile uuid_a (Some "g-100") None "ana@example.org" None.
Definition bo : ProfileDoc := mkProfile uuid_b None (Some "Bo") "bo@example.org" (Some [uuid_m]).

Definition mail_of_ana : MailDoc :=
  mkMail uuid_m uuid_a "Invoice 42, total 10.00" None None None None None None None None.

Definition lab_db : Db := mkDb [ana; bo] [mail_of_ana].

Definition lab_storage : DevStorage :=
  mkStorage {[ "sess_1" := mkSession "g-100" "ana@example.org" (Some uuid_a) ]}
            {[ "g-100" := mkTokens (Some "ya29.old") (Some "1//refresh") None ]}.

Definition lab_state : @State lab :=
  @mkState lab tt lab_db [lab_storage] 0%nat (Stored lab_storage).

Definition lab_request : Request :=
  mkRequest {[ "session_id" := "sess_1" ]} ∅ ∅.

(** A container whose first [text/html] child has no body, followed by a
    plain-text child and a second [text/html] child that has one. *)
Definition lab_html_part : MimePart :=
  Part "text/html" None None (lab_body "<p>paid</p>") None.

Definition lab_mixed : MimePart :=
  Part "multipart/alternative" None None None
       (Some [Part "text/html" None None None None; lab_text_part; lab_html_part]).

(** A [multipart/alternative] container with a plain-text leaf only. *)
Definition lab_plain_only : MimePart :=
  Part "multipart/alternative" None None None (Some [lab_text_part]).


(** A callback whose [state] names no session either, but is the name of
    a method every object inherits. *)
Definition lab_forged_callback : Request :=
  mkRequest ∅ {[ "code" := "4/0AX4XfWh"; "state" := "toString" ]} ∅.

(** A request whose session cookie is that name. *)
Definition lab_forged_request : Request :=
  mkRequest {[ "session_id" := "toString" ]} ∅ ∅.

(** ** Further vocabulary and deployments *)

Section Frames.
Context `{Outside}.

(** Every run of [m], returning or throwing, relates the state it
    starts from to the state it ends in by [R]. *)
Definition preserves (R : State -> State -> Prop) {A} (m : M A) : Prop :=
  forall s r s', m s = (r, s') -> R s s'.

Definition same_store (s s' : State) : Prop := db s' = db s.
Definition same_mails (s s' : State) : Prop := mails (db s') = mails (db s).
Definition same_outside (s s' : State) : Prop := ext s' = ext s.
Definition same_file (s s' : State) : Prop := file s' = file s.

(** Only the storage objects in memory and the cache variable differ. *)
Definition memory_only (s s' : State) : Prop :=
  ext s' = ext s /\ db s' = db s /\ file s' = file s.

(** A computation that never writes the document store. *)
Definition keeps_store {A} (m : M A) : Prop := preserves same_store m.

(** A computation that never writes the [mails] collection. *)
Definition keeps_mails {A} (m : M A) : Prop := preserves same_mails m.

(** A computation that makes no call outside the process. *)
Definition stays_inside {A} (m : M A) : Prop := preserves same_outside m.

(** A computation that never writes [.dev_storage.json]. *)
Definition keeps_file {A} (m : M A) : Prop := preserves same_file m.

(** Whatever [m] returns satisfies [P]. *)
Definition produces {A} (P : A -> Prop) (m : M A) : Prop :=
  forall s a s', m s = (Ok a, s') -> P a.

(** The answer carries no [saved_to_db: true]. *)
Definition not_saved (r : Response) : Prop :=
  match content r with
  | JsonVerdict _ saved _ _ => saved = false
  | _ => True
  end.

(** Storage objects are never freed: the heap only grows at its end. *)
Definition heap_grows (s s' : State) : Prop :=
  exists more, heap s' = (heap s ++ more)%list.

(** The session the cookie of a request resolves to, in the storage a
    handler is handed. *)
Definition session_of (request : Request) (s : State) : option SessionValue :=
  match session_cookie request with
  | Some sessionId =>
      if truthy sessionId then sessions_get (loaded_view s) sessionId (ext s)
      else None
  | None => None
  end.

(** The token set of that session's user. *)
Definition tokens_of (request : Request) (s : State) : option Tokens :=
  session_of request s ≫= fun v => tokens_get (loaded_view s) (user_key v) (ext s).

(** The store after a scan of mail [m] by profile [pu]. *)
Definition scanned_db (pu m : string) (d : Db) : Db :=
  mkDb (update_first (by_uuid pu) (add_scanned m) (profiles d)) (mails d).

(** The record [POST /api/mails] builds from a validated body under uuid
    [u]. *)
Definition mail_record (u : string) (raw : RawMail) : MailDoc :=
  mkMail u
    (default "" (r_user_uuid raw))
    (default "" (r_scraped_data raw))
    (r_invoice_number raw) (r_vendor_name raw)
    (r_invoice_date raw) (r_total_amount raw)
    (r_purchase_order raw) (r_due_date raw)
    (r_gst_number raw) (r_tax_amount raw).

(** Whether a part, or a part below it, carries [body.data]. *)
Fixpoint carries_data (p : MimePart) : bool :=
  match p with
  | Part _ _ _ b ps =>
      truthy_opt (b ≫= body_data)
      || match ps with
         | Some l => existsb carries_data l
         | None => false
         end
  end.

(** The verdict a response of the verification route carries. *)
Definition verdict_of (r : Response) : option Verdict :=
  match content r with
  | JsonVerdict v _ _ _ => Some v
  | _ => None
  end.

(** [verificationData.confidence || null] *)
Definition confidence_of (v : Verdict) : option Q :=
  reply_confidence (JsonVerdict v false None None).

(** The disk takes every write. *)
Definition disk_writable : Prop :=
  forall path bytes w, fst (fs_writeFileSync path bytes w) = None.

(** The storage objects, the cache variable and the file are as before. *)
Definition same_memory (s s' : State) : Prop :=
  heap s' = heap s /\ storageCache s' = storageCache s /\ file s' = file s.

(** The cache refers to a storage object that is alive. *)
Definition cache_alive (s : State) : Prop :=
  (storageCache s < length (heap s))%nat.



End Frames.

(** The lab with another provider, mailbox and classifier. *)
Definition lab_with
    (revoke : string -> unit -> option Err * unit)
    (get : string -> unit -> Res Message * unit)
    (attachment : string -> string -> unit -> Res (option string) * unit)
    (classifier : ClassifyRequest -> unit -> Res HttpReply * unit) : Outside := {|
  world := unit;
  production := false;
  Buffer_from_base64 := list_byte_of_string;
  Buffer_toString_utf8 := string_of_list_byte;
  JSON_stringify := fun _ => [];
  toLowerCase := lowercase;
  trim := fun s => s;
  match_address := fun _ => None;
  strip_tags := fun s => s;
  parseInt := fun _ => Some 30;
  path_join := String.concat "/";
  cwd := "/srv/paygo";
  encodeURIComponent := Some;
  generateAuthUrl := fun st => "https://accounts.example/auth?state=" ++ st;
  is_uuid := fun s => (String.length s =? 36)%nat;
  is_date := truthy;
  invoice_fields_required := false;
  mongo_call := fun w => (None, w);
  randomUUID := fun w => ("0f0e0d0c-0b0a-4908-8706-050403020100", w);
  new_session_id := fun w => ("sess_1700000000000_k3x9q2ab", w);
  fs_existsSync := fun _ w => (false, w);
  fs_mkdirSync := fun _ w => (None, w);
  fs_writeFileSync := fun _ _ w => (None, w);
  verifyIdToken := fun _ w => (Ok (mkTicket (Some "g-100") (Some "ana@example.org")), w);
  getToken := fun _ w => (Ok (mkTokens (Some "ya29.new") None None), w);
  revokeToken := revoke;
  gmail_list := fun _ w => (Ok (mkList (Some ["m1"; "m2"]) None), w);
  gmail_get := get;
  gmail_attachment := attachment;
  classifier_fetch := classifier;
  loopback_fetch := fun _ w => (None, w);
  realm_profile_uuid := fun _ _ => None;
  realm_assign := fun _ _ w => (None, w);
|}.

(** A lab where everything outside answers: the provider revokes, the
    attachment bytes arrive, the classifier sees an invoice. *)
Definition lab_calm : Outside :=
  lab_with
    (fun _ w => (None, w))
    (fun id w => (Ok (lab_message id), w))
    (fun _ _ w => (Ok (Some "JVBERi0xLjQ="), w))
    (fun _ w => (Ok (mkReply 200 "ok"
                       (Some (mkVerdict (Some true) true (Some (9 # 10)) "invoice" ""))),
                 w)).

(** A lab whose mailbox loses the second message between list and get. *)
Definition lab_flaky : Outside :=
  lab_with
    (fun _ w => (None, w))
    (fun id w => if String.eqb id "m2"
                 then (Throw (mkErr (Some 404) "Requested entity was not found." false), w)
                 else (Ok (lab_message id), w))
    (fun _ _ w => (Ok (Some "JVBERi0xLjQ="), w))
    (fun _ w => (Throw (error "ECONNREFUSED"), w)).

Definition calm_state : @State lab_calm :=
  @mkState lab_calm tt lab_db [lab_storage] 0%nat (Stored lab_storage).

Definition flaky_state : @State lab_flaky :=
  @mkState lab_flaky tt lab_db [lab_storage] 0%nat (Stored lab_storage).

(** The provider's redirect for the session of [lab_request]. *)
Definition lab_return : Request :=
  mkRequest ∅ {[ "code" := "4/0AX4XfWh"; "state" := "sess_1" ]} ∅.

(** A request without a cookie. *)
Definition lab_anonymous : Request := mkRequest ∅ ∅ ∅.

(** The body of a sign-in. *)
Definition lab_credential : Credential := mkCredential (Some "eyJhbGciOiJSUzI1NiJ9") None.

(** A mail of [ana] under a uuid not in use. *)
Definition lab_mail : RawMail :=
  mkRawMail (Some uuid_x) (Some uuid_a) (Some "Invoice 43, total 12.50")
    None None None None None None None None.

(** [ana] scans the mail in store. *)
Definition lab_scan : RawScan := mkRawScan (Some uuid_a) (Some uuid_m).

(** A container whose only leaf has no body. *)
Definition lab_hollow : MimePart :=
  Part "multipart/mixed" None (Some []) None
    (Some [Part "text/plain" None None (Some (mkPartBody (Some 0) None None)) None]).

(** A message without subject and without body text. *)
Definition lab_blank : Message := mkMessage "m0" "thread-0" "" None lab_hollow.

(** What the classifier of [lab_calm] answers. *)
Definition lab_verdict : Verdict := mkVerdict (Some true) true (Some (9 # 10)) "invoice" "".

(** * Properties *)

Section MimeProofs.
Context `{Outside}.

Lemma MimePart_nested_ind (P : MimePart -> Prop) :
  (forall m f h b, P (Part m f h b None)) ->
  (forall m f h b ps, Forall P ps -> P (Part m f h b (Some ps))) ->
  forall p, P p.
Proof.
  intros Hleaf Hnode.
  fix IH 1.
  intros [m f h b [ps|]].
  - apply Hnode.
    induction ps as [|q r IHr]; constructor; [apply IH | exact IHr].
  - apply Hleaf.
Qed.

Lemma getEmailBody_unfold m f h b ps :
  getEmailBody (Part m f h b ps) =
  match root_data b with
  | Some d => decodeBase64Url d
  | None =>
      match ps with
      | None => ""
      | Some l =>
          match child_data (List.find (is_mime "text/html") l) with
          | Some d => decodeBase64Url d
          | None =>
              match child_data (List.find (is_mime "text/plain") l) with
              | Some d => pre_wrap (escape_markup (decodeBase64Url d))
              | None => nested_loop l
              end
          end
      end
  end.
Proof. reflexivity. Qed.

Lemma truthy_false s : truthy s = false -> s = "".
Proof. destruct s; [reflexivity | discriminate]. Qed.

Lemma truthy_nonempty s : truthy s = true <-> s <> "".
Proof. destruct s; simpl; split; congruence. Qed.

(** The functions of the source against the steps of the design. *)

Lemma replace_all_char c r s :
  replace_all c (String r EmptyString) s
  = map_chars (fun a => if Ascii.eqb a c then r else a) s.
Proof.
  induction s as [|a s IH]; simpl; [reflexivity |].
  destruct (Ascii.eqb a c); simpl; rewrite IH; reflexivity.
Qed.

Lemma map_chars_compose f g s :
  map_chars g (map_chars f s) = map_chars (fun a => g (f a)) s.
Proof. induction s as [|a s IH]; simpl; [reflexivity | rewrite IH; reflexivity]. Qed.

Lemma map_chars_ext f g s :
  (forall a, f a = g a) -> map_chars f s = map_chars g s.
Proof.
  intros E. induction s as [|a s IH]; simpl; [reflexivity |].
  rewrite E, IH. reflexivity.
Qed.

Lemma decodeBase64Url_decodes d : decodeBase64Url d = base64url_decode d.
Proof.
  unfold decodeBase64Url, base64url_decode.
  rewrite !replace_all_char, map_chars_compose. do 2 f_equal.
  apply map_chars_ext. intros a. unfold standard_alphabet.
  destruct (Ascii.eqb a "-") eqn:E; [| reflexivity].
  apply Ascii.eqb_eq in E. subst a. reflexivity.
Qed.

Lemma escape_markup_escapes s : escape_markup s = html_escape s.
Proof.
  unfold escape_markup. induction s as [|a s IH]; simpl; [reflexivity |].
  unfold html_escape_char.
  destruct (Ascii.eqb a "<") eqn:E; simpl.
  - change ("" ++ replace_all "<" "&lt;" s) with (replace_all "<" "&lt;" s).
    rewrite IH. reflexivity.
  - rewrite IH. destruct (Ascii.eqb a ">"); reflexivity.
Qed.

Lemma pre_wrap_container s : pre_wrap s = fixed_width_container s.
Proof. reflexivity. Qed.

Lemma truthy_eqb d : truthy d = negb (String.eqb d "").
Proof. destruct d; reflexivity. Qed.

Lemma child_data_text q : child_data (Some q) = body_text q.
Proof.
  unfold child_data, body_text. destruct (body_of q) as [b|]; simpl; [| reflexivity].
  destruct (body_data b) as [d|]; simpl; [| reflexivity].
  rewrite truthy_eqb. destruct (String.eqb d ""); reflexivity.
Qed.

Lemma root_data_text p : root_data (body_of p) = root_text p.
Proof.
  unfold root_data, root_text, body_text.
  destruct (body_of p) as [[[n|] [d|] a]|]; simpl; try reflexivity.
  - rewrite truthy_eqb. destruct (0 <? n), (String.eqb d ""); reflexivity.
  - destruct (0 <? n); reflexivity.
Qed.

Lemma find_head_filter {A} (q : A -> bool) l : List.find q l = head (List.filter q l).
Proof.
  induction l as [|x l IH]; simpl; [reflexivity |].
  destruct (q x); [reflexivity | exact IH].
Qed.

Lemma first_child_text_find m ps :
  child_data (List.find (is_mime m) ps) = first_child_text m ps.
Proof.
  unfold first_child_text. rewrite find_head_filter.
  replace (List.filter (is_mime m) ps) with (List.filter (of_type m) ps).
  - destruct (head _) as [q|]; [apply child_data_text | reflexivity].
  - apply List.filter_ext. intros q. unfold of_type, is_mime.
    destruct (String.eqb_spec (mimeType_of q) m) as [E | E].
    + apply bool_decide_eq_true_2. exact E.
    + apply bool_decide_eq_false_2. exact E.
Qed.

(** [getEmailBody], branch by branch, in the vocabulary of the design. *)
Lemma getEmailBody_steps p :
  getEmailBody p =
  match root_text p with
  | Some d => base64url_decode d
  | None =>
      match parts_of p with
      | None => ""
      | Some l =>
          match first_child_text "text/html" l with
          | Some d => base64url_decode d
          | None =>
              match first_child_text "text/plain" l with
              | Some d => fixed_width_container (html_escape (base64url_decode d))
              | None => nested_loop l
              end
          end
      end
  end.
Proof.
  destruct p as [m f h b ps]. rewrite getEmailBody_unfold.
  rewrite <- root_data_text. simpl body_of. simpl parts_of.
  destruct (root_data b) as [d|]; [apply decodeBase64Url_decodes |].
  destruct ps as [l|]; [| reflexivity].
  rewrite <- !first_child_text_find.
  destruct (child_data (List.find (is_mime "text/html") l)) as [d|];
    [apply decodeBase64Url_decodes |].
  destruct (child_data (List.find (is_mime "text/plain") l)) as [d|];
    [| reflexivity].
  rewrite decodeBase64Url_decodes, escape_markup_escapes. apply pre_wrap_container.
Qed.

Lemma nested_loop_first l :
  Forall (fun q => Resolved q (getEmailBody q)) l ->
  FirstResolvedBy first_child_text l (nested_loop l).
Proof.
  induction 1 as [|q rest Hq _ IH]; simpl.
  - constructor.
  - destruct (truthy (getEmailBody q)) eqn:E.
    + apply first_here; [exact Hq | apply truthy_nonempty; exact E].
    + apply first_later; [| exact IH].
      rewrite <- (truthy_false _ E). exact Hq.
Qed.

Lemma getEmailBody_resolved p : Resolved p (getEmailBody p).
Proof.
  induction p as [m f h b | m f h b ps IH] using MimePart_nested_ind;
    rewrite getEmailBody_steps; unfold Resolved.
  - destruct (root_text _) as [d|] eqn:R.
    + apply resolved_root. exact R.
    + apply resolved_leaf; [exact R | reflexivity].
  - destruct (root_text _) as [d|] eqn:R.
    + apply resolved_root. exact R.
    + simpl parts_of. cbv beta iota.
      destruct (first_child_text "text/html" ps) as [d|] eqn:Eh.
      * eapply resolved_html; [exact R | reflexivity | exact Eh].
      * destruct (first_child_text "text/plain" ps) as [d|] eqn:Et.
        -- eapply resolved_plain; [exact R | reflexivity | exact Eh | exact Et].
        -- eapply resolved_nested; [exact R | reflexivity | exact Eh | exact Et |].
           apply nested_loop_first. exact IH.
Qed.

Lemma nested_loop_unique l s :
  Forall (fun q => forall t, Resolved q t -> getEmailBody q = t) l ->
  FirstResolvedBy first_child_text l s -> nested_loop l = s.
Proof.
  intros HF. revert s.
  induction HF as [|q rest Hq _ IH]; intros s Hs; inversion Hs; subst; simpl.
  - reflexivity.
  - rewrite (Hq s) by assumption.
    match goal with E : s <> "" |- _ =>
      apply truthy_nonempty in E; rewrite E end. reflexivity.
  - rewrite (Hq "") by assumption. simpl. apply IH. assumption.
Qed.

Lemma resolved_unique p : forall s, Resolved p s -> getEmailBody p = s.
Proof.
  induction p as [m f h b | m f h b ps IH] using MimePart_nested_ind;
    intros s Hs; rewrite getEmailBody_steps; unfold Resolved in Hs;
    inversion Hs; subst; simpl parts_of in *;
    repeat match goal with
           | E : Some _ = Some _ |- _ => injection E as E; subst
           | E : None = Some _ |- _ => discriminate E
           | E : ?x = _ |- context [?x] => rewrite E
           end; try reflexivity; try congruence.
  apply nested_loop_unique; assumption.
Qed.

Lemma mentions_app c a b : mentions c (a ++ b) = mentions c a || mentions c b.
Proof.
  induction a as [|x a IH]; simpl; [reflexivity |].
  rewrite IH, orb_assoc. reflexivity.
Qed.

Lemma replace_all_removes c r s :
  mentions c r = false -> mentions c (replace_all c r s) = false.
Proof.
  intros Hr. induction s as [|a s IH]; simpl; [reflexivity |].
  destruct (Ascii.eqb a c) eqn:E; simpl.
  - rewrite mentions_app, Hr, IH. reflexivity.
  - rewrite E, IH. reflexivity.
Qed.

Lemma replace_all_keeps_out c d r s :
  mentions d r = false -> mentions d s = false ->
  mentions d (replace_all c r s) = false.
Proof.
  intros Hr. induction s as [|a s IH]; simpl; [reflexivity |].
  intros Hs. apply orb_false_elim in Hs. destruct Hs as [Ha Hs].
  destruct (Ascii.eqb a c); simpl.
  - rewrite mentions_app, Hr, IH by exact Hs. reflexivity.
  - rewrite Ha, IH by exact Hs. reflexivity.
Qed.

(** X7. Escaped plain text holds neither of the two markup delimiters. *)
Lemma escape_markup_no_delimiters s :
  mentions "<" (escape_markup s) = false /\ mentions ">" (escape_markup s) = false.
Proof.
  unfold escape_markup. split.
  - apply replace_all_keeps_out; [reflexivity |].
    apply replace_all_removes. reflexivity.
  - apply replace_all_removes. reflexivity.
Qed.

(** C3 (as amended). Body resolution follows the depth-first algorithm
    of the design where only the first direct child of each type is
    looked at: the body computed by [getEmailBody] is the one the
    resolution relation assigns (the root's body, base64url-decoded, when
    it has positive size and data; else the decoded body of the first
    [text/html] child when that child carries data; else that of the
    first [text/plain] child when that child carries data, with [<] and
    [>] escaped and wrapped in the fixed-width container; else the first
    non-empty body among the children, in order; else the empty string),
    for every payload, and it is the only one. *)
Theorem getEmailBody_follows_resolution :
  forall (p : MimePart) (s : string), Resolved p s <-> getEmailBody p = s.
Proof.
  intros p s. split.
  - apply resolved_unique.
  - intros <-. apply getEmailBody_resolved.
Qed.

(** C3 (counterexample). A container whose first [text/html] child has
    no body, whose second child is plain text and whose third is a
    [text/html] child with a body: resolution as the design words it
    prefers the [text/html] body, the code returns the escaped and
    wrapped plain text. *)
Lemma getEmailBody_later_html_child_loses :
  @Claimed lab lab_mixed "<p>paid</p>"
  /\ @getEmailBody lab lab_mixed
     = "<div style=" ++ dquote ++ "white-space: pre-wrap; font-family: monospace;"
         ++ dquote ++ ">a &lt; b</div>"
  /\ ~ (forall s : string, @Claimed lab lab_mixed s -> @getEmailBody lab lab_mixed = s).
Proof.
  assert (Hclaimed : @Claimed lab lab_mixed "<p>paid</p>").
  { unfold Claimed.
    change "<p>paid</p>" with (@base64url_decode lab "<p>paid</p>").
    eapply resolved_html; reflexivity. }
  split; [exact Hclaimed |]. split; [reflexivity |].
  intros Hall. specialize (Hall _ Hclaimed). vm_compute in Hall. discriminate Hall.
Qed.

End MimeProofs.

Section MonadProofs.
Context `{Outside}.

Lemma bind_ok {A B} (m : M A) (k : A -> M B) s a s1 :
  m s = (Ok a, s1) -> bind m k s = k a s1.
Proof. unfold bind. intros ->. reflexivity. Qed.

Lemma bind_throw {A B} (m : M A) (k : A -> M B) s e s1 :
  m s = (Throw e, s1) -> bind m k s = (Throw e, s1).
Proof. unfold bind. intros ->. reflexivity. Qed.

Lemma try_ok {A} (m : M A) h s a s1 :
  m s = (Ok a, s1) -> try_catch m h s = (Ok a, s1).
Proof. unfold try_catch. intros ->. reflexivity. Qed.

Lemma try_throw {A} (m : M A) h s e s1 :
  m s = (Throw e, s1) -> try_catch m h s = h e s1.
Proof. unfold try_catch. intros ->. reflexivity. Qed.

Lemma outside_only_ret {A} (a : A) : outside_only (ret a).
Proof. intros s r s' [= <- <-]. auto. Qed.

Lemma outside_only_throw {A} e : outside_only (@throw _ A e).
Proof. intros s r s' [= <- <-]. auto. Qed.

Lemma outside_only_call {A} (f : world -> Res A * world) : outside_only (call f).
Proof.
  intros s r s'. unfold call. destruct (f (ext s)) as [r0 w].
  intros [= <- <-]. simpl. auto.
Qed.

Lemma outside_only_call_ f : outside_only (call_ f).
Proof. apply outside_only_call. Qed.

Lemma outside_only_ask {A} (f : world -> A * world) : outside_only (ask f).
Proof. apply outside_only_call. Qed.

Lemma outside_only_bind {A B} (m : M A) (k : A -> M B) :
  outside_only m -> (forall a, outside_only (k a)) -> outside_only (bind m k).
Proof.
  intros Hm Hk s r s'. unfold bind.
  destruct (m s) as [[a|e] s1] eqn:E; intros Hr.
  - destruct (Hm _ _ _ E) as (? & ? & ? & ?).
    destruct (Hk a _ _ _ Hr) as (? & ? & ? & ?).
    repeat split; congruence.
  - injection Hr as <- <-. exact (Hm _ _ _ E).
Qed.

Lemma outside_only_try {A} (m : M A) h :
  outside_only m -> (forall e, outside_only (h e)) -> outside_only (try_catch m h).
Proof.
  intros Hm Hh s r s'. unfold try_catch.
  destruct (m s) as [[a|e] s1] eqn:E; intros Hr.
  - injection Hr as <- <-. exact (Hm _ _ _ E).
  - destruct (Hm _ _ _ E) as (? & ? & ? & ?).
    destruct (Hh e _ _ _ Hr) as (? & ? & ? & ?).
    repeat split; congruence.
Qed.

Lemma returns_ret {A} (a : A) : returns (ret a).
Proof. intros s. eauto. Qed.

Lemma returns_bind {A B} (m : M A) (k : A -> M B) :
  returns m -> (forall a, returns (k a)) -> returns (bind m k).
Proof.
  intros Hm Hk s. destruct (Hm s) as (a & s1 & E).
  rewrite (bind_ok _ _ _ _ _ E). apply Hk.
Qed.

Lemma returns_try {A} (m : M A) h :
  (forall e, returns (h e)) -> returns (try_catch m h).
Proof.
  intros Hh s. unfold try_catch.
  destruct (m s) as [[a|e] s1]; [eauto | apply Hh].
Qed.

Lemma returns_Promise_all {A B} (f : A -> M B) items :
  (forall x, returns (f x)) ->
  forall s, exists ys s', Promise_all f items s = (Ok ys, s') /\ length ys = length items.
Proof.
  intros Hf. induction items as [|x rest IH]; intros s; simpl.
  - exists [], s. split; reflexivity.
  - destruct (Hf x s) as (y & s1 & E). rewrite (bind_ok _ _ _ _ _ E).
    destruct (IH s1) as (ys & s2 & E2 & L). rewrite (bind_ok _ _ _ _ _ E2).
    exists (y :: ys), s2. split; [reflexivity | simpl; congruence].
Qed.

Lemma returns_Promise_all_where {A B} (f : A -> M B) (P : A -> Prop) items :
  (forall x, P x -> returns (f x)) -> Forall P items ->
  forall s, exists ys s', Promise_all f items s = (Ok ys, s') /\ length ys = length items.
Proof.
  intros Hf HP. induction HP as [|x rest Hx _ IH]; intros s; simpl.
  - exists [], s. split; reflexivity.
  - destruct (Hf x Hx s) as (y & s1 & E). rewrite (bind_ok _ _ _ _ _ E).
    destruct (IH s1) as (ys & s2 & E2 & L). rewrite (bind_ok _ _ _ _ _ E2).
    exists (y :: ys), s2. split; [reflexivity | simpl; congruence].
Qed.

Lemma outside_only_Promise_all {A B} (f : A -> M B) items :
  (forall x, outside_only (f x)) -> outside_only (Promise_all f items).
Proof.
  intros Hf. induction items as [|x rest IH]; simpl.
  - apply outside_only_ret.
  - apply outside_only_bind; [apply Hf |]. intros y.
    apply outside_only_bind; [exact IH |]. intros ys. apply outside_only_ret.
Qed.

End MonadProofs.

Create HintDb paygo.
#[local] Hint Resolve outside_only_ret outside_only_throw outside_only_call
  outside_only_call_ outside_only_ask returns_ret : paygo.

Section AttachmentProofs.
Context `{Outside}.

Lemma outside_only_materialise u mid fn aid part :
  outside_only (materialise u mid fn aid part).
Proof.
  unfold materialise.
  apply outside_only_bind; [auto with paygo |]. intros [d|]; [|auto with paygo].
  destruct (truthy d); [|auto with paygo].
  destruct u as [user|]; [|auto with paygo].
  apply outside_only_bind; [auto with paygo |]. intros present.
  apply outside_only_bind; [destruct present; auto with paygo |]. intros _.
  apply outside_only_bind; [auto with paygo |]. intros _.
  destruct (encodeURIComponent fn); auto with paygo.
Qed.

Lemma outside_only_process_part u mid acc part :
  outside_only (process_part u mid acc part).
Proof.
  unfold process_part. destruct (attachment_of part) as [[fn aid]|]; [|auto with paygo].
  apply outside_only_try; [|auto with paygo].
  apply outside_only_bind; [apply outside_only_materialise | auto with paygo].
Qed.

Lemma outside_only_for_parts u mid parts :
  forall acc, outside_only (for_parts u mid acc parts).
Proof.
  induction parts as [|part rest IH]; intros acc; simpl; [auto with paygo |].
  apply outside_only_bind; [apply outside_only_process_part | auto].
Qed.

(** One turn of the loop always returns, and only ever appends. *)
Lemma process_part_returns u mid acc part s :
  exists more s', process_part u mid acc part s = (Ok (acc ++ more)%list, s').
Proof.
  unfold process_part. destruct (attachment_of part) as [[fn aid]|].
  - unfold try_catch, bind at 1.
    destruct (materialise u mid fn aid part s) as [[[a|]|e] s1].
    + exists [a], s1. reflexivity.
    + exists [], s1. unfold ret. rewrite app_nil_r. reflexivity.
    + exists [unsaved fn part], s1. reflexivity.
  - exists [], s. unfold ret. rewrite app_nil_r. reflexivity.
Qed.

Lemma process_part_failed u mid acc part fn aid s e s1 :
  attachment_of part = Some (fn, aid) ->
  materialise u mid fn aid part s = (Throw e, s1) ->
  process_part u mid acc part s = (Ok (acc ++ [unsaved fn part])%list, s1).
Proof.
  intros Ha Hm. unfold process_part. rewrite Ha.
  unfold try_catch, bind at 1. rewrite Hm. reflexivity.
Qed.

Lemma for_parts_returns u mid parts :
  forall acc s, exists more s',
    for_parts u mid acc parts s = (Ok (acc ++ more)%list, s').
Proof.
  induction parts as [|part rest IH]; intros acc s; simpl.
  - exists [], s. unfold ret. rewrite app_nil_r. reflexivity.
  - destruct (process_part_returns u mid acc part s) as (m1 & s1 & E1).
    rewrite (bind_ok _ _ _ _ _ E1).
    destruct (IH (acc ++ m1)%list s1) as (m2 & s2 & E2).
    exists (m1 ++ m2)%list, s2. rewrite E2, app_assoc. reflexivity.
Qed.

Lemma for_parts_app u mid pre post :
  forall acc s,
    for_parts u mid acc (pre ++ post) s =
    bind (for_parts u mid acc pre) (fun acc' => for_parts u mid acc' post) s.
Proof.
  induction pre as [|part rest IH]; intros acc s; simpl.
  - reflexivity.
  - unfold bind. destruct (process_part u mid acc part s) as [[a|e] s1].
    + rewrite IH. reflexivity.
    + reflexivity.
Qed.

Lemma processEmail_returns u message hs :
  headers_of (payload message) = Some hs -> returns (processEmail u message).
Proof.
  intros Hhs s. unfold processEmail. rewrite Hhs.
  destruct (parseEmailAddress _) as [fromName fromEmail].
  destruct (for_parts_returns u (msg_id message)
              (default [] (parts_of (payload message))) [] s) as (more & s1 & E).
  rewrite (bind_ok _ _ _ _ _ E). eauto.
Qed.

Lemma processEmail_attachments u message s pe s1 :
  processEmail u message s = (Ok pe, s1) ->
  for_parts u (msg_id message) []
    (default [] (parts_of (payload message))) s = (Ok (pe_attachments pe), s1)
  /\ pe_hasAttachments pe = (0 <? Z.of_nat (length (pe_attachments pe))).
Proof.
  unfold processEmail. destruct (headers_of (payload message)) as [hs|]; [| discriminate].
  destruct (parseEmailAddress _) as [fromName fromEmail].
  unfold bind.
  destruct (for_parts _ _ _ _ s) as [[atts|e] s2]; [|discriminate].
  intros [= <- <-]. split; reflexivity.
Qed.


Lemma outside_only_processEmail u message : outside_only (processEmail u message).
Proof.
  unfold processEmail. destruct (headers_of (payload message)) as [hs|];
    [| auto with paygo].
  destruct (parseEmailAddress _) as [fromName fromEmail].
  apply outside_only_bind; [apply outside_only_for_parts | auto with paygo].
Qed.

(** C1. An attachment part (filename and attachment identifier both
    present) whose byte fetch, decoding, directory creation or file write
    throws still appears in the processed message's attachment list, with
    the filename and size of the part's metadata and no url; the parts
    before it keep their entries, the parts after it are processed from
    the state the failure left, and the message itself is returned. The
    message is one whose parts are looked at: its payload has a header
    list (without one the call throws before the first part). The user
    may be any, [undefined] included. *)
Theorem processEmail_keeps_failed_attachment :
  forall (u : option string) (message : Message) (hs : list Header)
         (before : list MimePart)
         (part : MimePart) (after : list MimePart) (fn aid : string)
         (earlier : list EmailAttachment) (s s1 : State) (e : Err) (s2 : State),
    headers_of (payload message) = Some hs ->
    parts_of (payload message) = Some (before ++ part :: after)%list ->
    attachment_of part = Some (fn, aid) ->
    for_parts u (msg_id message) [] before s = (Ok earlier, s1) ->
    materialise u (msg_id message) fn aid part s1 = (Throw e, s2) ->
    exists (later : list EmailAttachment) (pe : ProcessedEmail) (s3 : State),
      processEmail u message s = (Ok pe, s3)
      /\ pe_attachments pe =
           (earlier
              ++ mkAttachment fn (mimeType_of part)
                   (default 0 (body_of part ≫= body_size)) None
              :: later)%list
      /\ for_parts u (msg_id message) (earlier ++ [unsaved fn part])%list after s2
         = (Ok (pe_attachments pe), s3)
      /\ pe_hasAttachments pe = true.
Proof.
  intros u message hs before part after fn aid earlier s s1 e s2
    Hhs Hparts Hatt Hpre Hfail.
  destruct (for_parts_returns u (msg_id message) after
              (earlier ++ [unsaved fn part])%list s2) as (later & s3 & Hpost).
  assert (Hloop :
    for_parts u (msg_id message) [] (before ++ part :: after)%list s
    = (Ok (earlier ++ unsaved fn part :: later)%list, s3)).
  { rewrite for_parts_app, (bind_ok _ _ _ _ _ Hpre). simpl.
    rewrite (bind_ok _ _ _ _ _ (process_part_failed _ _ _ _ _ _ _ _ _ Hatt Hfail)).
    rewrite Hpost, <- app_assoc. reflexivity. }
  destruct (processEmail_returns u message hs Hhs s) as (pe & s4 & Hpe).
  destruct (processEmail_attachments _ _ _ _ _ Hpe) as [Hloop' Hflag].
  rewrite Hparts in Hloop'. simpl in Hloop'. rewrite Hloop in Hloop'.
  injection Hloop' as Hatts <-.
  exists later, pe, s3. split; [exact Hpe |]. split; [symmetry; exact Hatts |].
  split.
  - rewrite Hpost, <- Hatts, <- app_assoc. reflexivity.
  - rewrite Hflag, <- Hatts, length_app. simpl. apply Z.ltb_lt. lia.
Qed.

End AttachmentProofs.

Section ForwarderProofs.
Context `{Outside}.

Lemma or_else_first_filename l : or_else (first_filename l) None = first_filename l.
Proof.
  unfold or_else, first_filename. destruct l as [|a l]; [reflexivity |].
  destruct (truthy (att_filename a)) eqn:E; simpl; [rewrite E|]; reflexivity.
Qed.

Lemma json_with_status_not_ok st b s r s' :
  ok_status st = false ->
  json_with_status st b s = (r, s') ->
  s' = s /\ match r with Ok resp => ok_status (status resp) = false | Throw _ => True end.
Proof.
  intros Hst. unfold json_with_status.
  destruct ((200 <=? st) && (st <=? 599)); intros [= <- <-]; auto.
Qed.

(** The route answers with a failure status, and leaves the store alone,
    when the classifier call fails. *)
Lemma verify_invoice_classifier_down request vq s :
  classifier_fails
    (mkClassify (default "" (vq_subject vq)) (default "" (vq_body vq))
       (or_else (vq_attachment_filename vq) None)) (ext s) ->
  exists resp s',
    verify_invoice_POST request (Some vq) s = (Ok resp, s')
    /\ ok_status (status resp) = false
    /\ db s' = db s.
Proof.
  intros Hdown. unfold verify_invoice_POST, try_catch, request_json.
  unfold bind at 1. unfold ret at 1.
  destruct (negb (truthy_opt (vq_subject vq)) && negb (truthy_opt (vq_body vq))).
  { eexists _, s. split; [reflexivity |]. split; reflexivity. }
  unfold bind at 1, call. unfold classifier_fails in Hdown.
  destruct (classifier_fetch _ (ext s)) as [[reply|e] w]; simpl in *.
  - rewrite Hdown. simpl.
    match goal with |- context [json_with_status ?st ?b ?s0] =>
      destruct (json_with_status st b s0) as [[resp|e] s1] eqn:E;
      destruct (json_with_status_not_ok _ _ _ _ _ Hdown E) as [-> Hr]
    end.
    + eexists _, _. split; [reflexivity |]. split; [exact Hr | reflexivity].
    + eexists _, _. split; [reflexivity |]. split; reflexivity.
  - eexists _, _. split; [reflexivity |]. split; reflexivity.
Qed.

(** The body the route posts to [/api/mails] lacks [scraped_data]: the
    schema rejects it, whatever the revision. *)
Lemma mail_request_rejected userUuid :
  MailSchema_ok false (mail_request userUuid) = false.
Proof.
  unfold MailSchema_ok, mail_request. simpl.
  destruct (is_uuid userUuid); reflexivity.
Qed.

Lemma verify_invoice_returns request vq : returns (verify_invoice_POST request vq).
Proof. apply returns_try. intros e. apply returns_ret. Qed.

Lemma processEmailWithVerification_returns u p emailData :
  with_headers emailData ->
  returns (processEmailWithVerification u p emailData).
Proof.
  intros [hs Hhs]. unfold processEmailWithVerification.
  apply returns_bind; [apply (processEmail_returns _ _ hs Hhs) |]. intros pe.
  apply returns_try. intros e. apply returns_ret.
Qed.

(** C5. A message whose classifier call throws or answers with a non-2xx
    status is still returned, with [isInvoice = false] and
    [invoiceConfidence = null], and the document store is left as it was:
    no mail record is persisted for it. *)
Theorem classifier_failure_degrades_gracefully :
  forall (u : option string) (p : string) (emailData : Message) (s : State)
         (pe : ProcessedEmail) (s1 : State),
    processEmail u emailData s = (Ok pe, s1) ->
    (forall w, loopback_fetch "/api/verify-invoice" (ext s1) = (None, w) ->
               classifier_fails (classify_request emailData pe) w) ->
    exists s2 : State,
      processEmailWithVerification u p emailData s
      = (Ok (mkVerified pe false None), s2)
      /\ db s2 = db s.
Proof.
  intros u p emailData s pe s1 Hpe Hdown.
  destruct (outside_only_processEmail u emailData _ _ _ Hpe) as (Hdb & _).
  unfold processEmailWithVerification.
  rewrite (bind_ok _ _ _ _ _ Hpe). unfold try_catch.
  unfold bind at 1. unfold bind at 1, call_, call.
  destruct (loopback_fetch "/api/verify-invoice" (ext s1)) as [[e|] w] eqn:Hloop;
    cbn [foreign].
  - eexists. split; [reflexivity | exact Hdb].
  - specialize (Hdown w eq_refl).
    match goal with |- context [verify_invoice_POST ?rq (Some ?vq) ?s0] =>
      destruct (verify_invoice_classifier_down rq vq s0) as (resp & s2 & E & Hst & Hdb2)
    end.
    { simpl. rewrite or_else_first_filename. exact Hdown. }
    rewrite E, Hst. eexists. split; [reflexivity |].
    rewrite Hdb2. exact Hdb.
Qed.

End ForwarderProofs.

Section FetcherProofs.
Context `{Outside}.

Lemma deliver_counts u p lr s details s1 :
  Promise_all (fun id => call (gmail_get id)) (default [] (messages lr)) s
  = (Ok details, s1) ->
  Forall with_headers details ->
  exists emails total unread invoices s2,
    deliver u p lr s = (Ok (json 200 (JsonEmails emails total unread invoices)), s2)
    /\ length emails = length (default [] (messages lr))
    /\ (default [] (messages lr) = [] ->
        emails = [] /\ total = 0 /\ unread = 0 /\ invoices = None).
Proof.
  intros Hfetch Hheaders. unfold deliver.
  destruct (default [] (messages lr)) as [|id ids] eqn:Hids.
  - simpl. exists [], 0, 0, None, s. repeat split; reflexivity.
  - change ((length (id :: ids) =? 0)%nat) with false. cbv iota.
    rewrite (bind_ok _ _ _ _ _ Hfetch).
    destruct (returns_Promise_all_where (processEmailWithVerification u p)
                with_headers details
                (processEmailWithVerification_returns u p) Hheaders s1)
      as (emails & s2 & E & L).
    rewrite (bind_ok _ _ _ _ _ E).
    assert (Ld : length details = length (id :: ids)).
    { clear - Hfetch. revert s details s1 Hfetch.
      generalize (id :: ids) as l.
      induction l as [|x l IH]; intros s details s1; simpl.
      - intros [= <- _]. reflexivity.
      - unfold bind at 1. destruct (call (gmail_get x) s) as [[m|e] s0]; [|discriminate].
        unfold bind at 1.
        destruct (Promise_all _ l s0) as [[ms|e] s3] eqn:E; [|discriminate].
        intros [= <- _]. simpl. f_equal. eapply IH. exact E. }
    eexists emails, _, _, _, s2. split; [reflexivity |].
    split; [congruence | discriminate].
Qed.

(** A full-message fetch that throws ends the request. *)
Lemma getEmails_fetch_throws request s t sess s1 s2 u s3 lr s4 e s5 :
  getTokens request s = (Ok (Some t), s1) ->
  getSession request s1 = (Ok (Some sess), s2) ->
  session_profile request sess s2 = (Ok u, s3) ->
  list_inbox request s3 = (Ok lr, s4) ->
  Promise_all (fun id => call (gmail_get id)) (default [] (messages lr)) s4
  = (Throw e, s5) ->
  getEmails request s = (Ok (fetch_error e), s5).
Proof.
  intros Ht Hs Hp Hl Hf.
  unfold getEmails, try_catch.
  rewrite (bind_ok _ _ _ _ _ Ht), (bind_ok _ _ _ _ _ Hs).
  rewrite (bind_ok _ _ _ _ _ Hp), (bind_ok _ _ _ _ _ Hl).
  unfold deliver.
  destruct (default [] (messages lr)) as [|id ids] eqn:Hids.
  - simpl in Hf. discriminate.
  - change ((length (id :: ids) =? 0)%nat) with false. cbv iota.
    rewrite (bind_throw _ _ _ _ _ Hf). reflexivity.
Qed.

(** C2 (as amended). When the request is authorised and the mailbox
    list call answers: if the full-message fetch of every listed id
    returns, and each message has a payload with a header list, the
    response carries exactly one entry per listed id, whatever happens to
    the attachments and to the classification of each message, and an
    empty list gives [{emails: [], total: 0, unreadCount: 0}]; if one of
    the fetches throws, the request is answered with the error of that
    fetch (401 when its code is 401, 500 otherwise) and no list. *)
Theorem getEmails_one_entry_per_listed_message :
  forall (request : Request) (s : State) (t : Tokens) (sess : SessionValue)
         (s1 s2 : State) (u : string) (s3 : State) (lr : ListResponse)
         (s4 : State) (fetched : Res (list Message)) (s5 : State),
    getTokens request s = (Ok (Some t), s1) ->
    getSession request s1 = (Ok (Some sess), s2) ->
    session_profile request sess s2 = (Ok u, s3) ->
    list_inbox request s3 = (Ok lr, s4) ->
    Promise_all (fun id => call (gmail_get id)) (default [] (messages lr)) s4
    = (fetched, s5) ->
    match fetched with
    | Ok details =>
        Forall with_headers details ->
        exists (emails : list VerifiedEmail) (total unread : Z)
               (invoices : option Z) (s6 : State),
          getEmails request s
          = (Ok (json 200 (JsonEmails emails total unread invoices)), s6)
          /\ length emails = length (default [] (messages lr))
          /\ (default [] (messages lr) = [] ->
              emails = [] /\ total = 0 /\ unread = 0 /\ invoices = None)
    | Throw e =>
        getEmails request s = (Ok (fetch_error e), s5)
        /\ status (fetch_error e) = (if err_code e is Some 401 then 401 else 500)
        /\ (forall emails total unread invoices,
              content (fetch_error e) <> JsonEmails emails total unread invoices)
    end.
Proof.
  intros request s t sess s1 s2 u s3 lr s4 [details | e] s5 Ht Hs Hp Hl Hf.
  - intros Hh.
    destruct (deliver_counts (user_of sess) u lr s4 details s5 Hf Hh)
      as (emails & total & unread & invoices & s6 & E & L & Z0).
    exists emails, total, unread, invoices, s6. split; [| split; assumption].
    unfold getEmails, try_catch.
    rewrite (bind_ok _ _ _ _ _ Ht), (bind_ok _ _ _ _ _ Hs).
    rewrite (bind_ok _ _ _ _ _ Hp), (bind_ok _ _ _ _ _ Hl), E. reflexivity.
  - split; [exact (getEmails_fetch_throws _ _ _ _ _ _ _ _ _ _ _ _ Ht Hs Hp Hl Hf) |].
    unfold fetch_error. destruct (err_code e) as [c|];
      [| split; [reflexivity | discriminate]].
    repeat match goal with
           | |- context [match ?x with _ => _ end] => destruct x
           end; (split; [reflexivity | discriminate]).
Qed.

(** X3. [GET /api/emails] does not catch a failing message fetch per
    message: when the tokens, the session, the profile and the list call
    are there and one full-message fetch of the batch throws, the request
    is answered with the error of that fetch (401 when its code is 401,
    500 otherwise) and no list. *)
Lemma getEmails_fetch_failure request s t sess s1 s2 u s3 lr s4 e s5 :
  getTokens request s = (Ok (Some t), s1) ->
  getSession request s1 = (Ok (Some sess), s2) ->
  session_profile request sess s2 = (Ok u, s3) ->
  list_inbox request s3 = (Ok lr, s4) ->
  Promise_all (fun id => call (gmail_get id)) (default [] (messages lr)) s4
  = (Throw e, s5) ->
  getEmails request s = (Ok (fetch_error e), s5).
Proof. apply getEmails_fetch_throws. Qed.

End FetcherProofs.

(** Steps through the driver calls of a handler. *)
Ltac driver :=
  match goal with
  | |- context [mongo_call ?w] =>
      let E := fresh "E" in
      destruct (mongo_call w) as [[?|] ?] eqn:E; simpl
  end.

Ltac open_handler :=
  unfold try_catch, getDb, mails_findOne, mails_deleteOne, mails_deleteMany,
    mails_insertOne, mails_updateOne, profiles_findOne, profiles_deleteOne,
    profiles_updateMany, profiles_insertOne, mongo, call_, call, ask, bind, ret,
    throw, json;
  simpl.

Section StoreProofs.
Context `{Outside}.

Lemma includes_In x l : includes x l = true <-> In x l.
Proof.
  unfold includes. rewrite existsb_exists. split.
  - intros (y & Hy & E). apply String.eqb_eq in E. subst. exact Hy.
  - intros Hx. exists x. split; [exact Hx | apply String.eqb_refl].
Qed.

Lemma find_none_existsb {A} (q : A -> bool) l :
  List.find q l = None <-> existsb q l = false.
Proof.
  induction l as [|x l IH]; simpl; [tauto |].
  destruct (q x); simpl; [split; discriminate | exact IH].
Qed.

Lemma scanned_has_pull id p : scanned_has id (pull_scanned id p) = false.
Proof.
  unfold scanned_has, pull_scanned. simpl.
  destruct (p_scanned p) as [l|]; simpl; [|reflexivity].
  apply not_true_is_false. rewrite includes_In, filter_In.
  intros [_ E]. rewrite String.eqb_refl in E. discriminate.
Qed.

Lemma purged_clean id ps p : In p (purged id ps) -> scanned_has id p = false.
Proof.
  unfold purged. rewrite in_map_iff. intros (q & <- & _).
  destruct (scanned_has id q) eqn:E; [apply scanned_has_pull | exact E].
Qed.

Lemma purged_scanned id ps p x :
  In p (purged id ps) -> In x (default [] (p_scanned p)) ->
  x <> id /\ exists q, In q ps /\ In x (default [] (p_scanned q)).
Proof.
  intros Hp Hx. pose proof (purged_clean _ _ _ Hp) as Hc.
  split.
  - intros ->. apply includes_In in Hx. unfold scanned_has in Hc. congruence.
  - unfold purged in Hp. apply in_map_iff in Hp. destruct Hp as (q & <- & Hq).
    exists q. split; [exact Hq |].
    destruct (scanned_has id q); [| exact Hx].
    unfold pull_scanned in Hx. simpl in Hx.
    destruct (p_scanned q) as [l|]; simpl in *; [| contradiction].
    apply filter_In in Hx. tauto.
Qed.

Lemma In_delete_first {A} (q : A -> bool) l x :
  In x l -> q x = false -> In x (delete_first q l).
Proof.
  induction l as [|y l IH]; simpl; [tauto |].
  intros [-> | Hx] Hq.
  - rewrite Hq. left. reflexivity.
  - destruct (q y); [exact Hx | right; auto].
Qed.

Lemma delete_first_In {A} (q : A -> bool) l x :
  In x (delete_first q l) -> In x l.
Proof.
  induction l as [|y l IH]; simpl; [tauto |].
  destruct (q y); simpl; [tauto |]. intros [-> | Hx]; auto.
Qed.

Lemma delete_first_absent {A} (q : A -> bool) l :
  existsb q l = false -> delete_first q l = l.
Proof.
  induction l as [|y l IH]; simpl; [reflexivity |].
  destruct (q y); simpl; [discriminate |]. intros E. f_equal. auto.
Qed.

Lemma existsb_purged id ps : existsb (scanned_has id) (purged id ps) = false.
Proof.
  destruct (existsb _ _) eqn:E; [| reflexivity].
  apply existsb_exists in E. destruct E as (p & Hin & Hp).
  rewrite (purged_clean _ _ _ Hin) in Hp. discriminate.
Qed.

Lemma length_delete_first {A} (q : A -> bool) l :
  existsb q l = true -> length (delete_first q l) = pred (length l).
Proof.
  induction l as [|y l IH]; simpl; [discriminate |].
  destruct (q y) eqn:Hq; simpl; [reflexivity |].
  intros E. rewrite (IH E). destruct l; [discriminate | reflexivity].
Qed.

Lemma scans_resolve_purged id d :
  scans_resolve d -> scans_resolve (mkDb (purged id (profiles d)) (mails d)).
Proof.
  intros Hd p x Hp Hx. simpl in *.
  destruct (purged_scanned _ _ _ _ Hp Hx) as (_ & q & Hq & Hxq). eauto.
Qed.

Lemma scans_resolve_deleted id d :
  scans_resolve d ->
  scans_resolve (mkDb (purged id (profiles d))
                      (delete_first (mail_by_uuid id) (mails d))).
Proof.
  intros Hd p x Hp Hx. simpl in *.
  destruct (purged_scanned _ _ _ _ Hp Hx) as (Hne & q & Hq & Hxq).
  destruct (Hd q x Hq Hxq) as (m & Hm & <-).
  exists m. split; [| reflexivity].
  apply In_delete_first; [exact Hm |].
  unfold mail_by_uuid. apply String.eqb_neq. exact Hne.
Qed.

(** Every run of [DELETE /api/mails/[id]]. *)
Lemma mails_id_DELETE_run :
  forall (id : string) (s : State),
  exists (resp : Response) (s' : State),
    mails_id_DELETE id s = (Ok resp, s')
    /\ (existsb (mail_by_uuid id) (mails (db s)) = false ->
        db s' = db s
        /\ (status resp = 404 \/ status resp = 500)
        /\ (store_reachable -> status resp = 404))
    /\ (status resp = 404 ->
        existsb (mail_by_uuid id) (mails (db s)) = false /\ db s' = db s)
    /\ (db s' = db s
        \/ db s' = mkDb (purged id (profiles (db s))) (mails (db s))
        \/ db s' = mkDb (purged id (profiles (db s)))
                        (delete_first (mail_by_uuid id) (mails (db s))))
    /\ (status resp = 200 ->
        db s' = mkDb (purged id (profiles (db s)))
                     (delete_first (mail_by_uuid id) (mails (db s))))
    /\ (mails (db s') <> mails (db s) ->
        forall p, In p (profiles (db s')) -> scanned_has id p = false)
    /\ (scans_resolve (db s) -> scans_resolve (db s')).
Proof.
  intros id s. unfold mails_id_DELETE. open_handler.
  assert (Hself : forall d : Db, mkDb (profiles d) (mails d) = d) by (intros []; reflexivity).
  driver.
  { eexists _, _. split; [reflexivity |]. simpl.
    repeat split; auto; try discriminate; try congruence.
    intros R. specialize (R (ext s)). rewrite E in R. discriminate. }
  driver.
  { eexists _, _. split; [reflexivity |]. simpl.
    repeat split; auto; try discriminate; try congruence.
    intros R. match goal with E : mongo_call ?w = (Some _, _) |- _ =>
      specialize (R w); rewrite E in R end. discriminate. }
  destruct (List.find (mail_by_uuid id) (mails (db s))) as [mail|] eqn:Hfind; simpl.
  2:{ apply find_none_existsb in Hfind.
      eexists _, _. split; [reflexivity |]. simpl.
      repeat split; auto; try discriminate; try congruence. }
  assert (Hex : existsb (mail_by_uuid id) (mails (db s)) = true).
  { destruct (existsb _ _) eqn:X; [reflexivity |].
    apply find_none_existsb in X. congruence. }
  driver.
  { eexists _, _. split; [reflexivity |]. simpl.
    repeat split; auto; try discriminate; try congruence. }
  driver.
  { eexists _, _. split; [reflexivity |]. simpl.
    split; [congruence |]. split; [discriminate |].
    split; [right; left; reflexivity |]. split; [discriminate |].
    split; [congruence |]. apply scans_resolve_purged. }
  eexists _, _. split; [reflexivity |]. simpl.
  split; [congruence |]. split; [discriminate |].
  split; [right; right; reflexivity |]. split; [reflexivity |].
  split; [intros _ p; apply purged_clean |]. apply scans_resolve_deleted.
Qed.

End StoreProofs.

Section OwnershipProofs.
Context `{Outside}.

Lemma find_by_uuid_owner id ps p :
  List.find (by_uuid id) ps = Some p -> In p ps /\ p_uuid p = id.
Proof.
  intros Hf. apply find_some in Hf. destruct Hf as [Hin E].
  split; [exact Hin | apply String.eqb_eq; exact E].
Qed.

Lemma owned_insert d m p :
  owned d -> In p (profiles d) -> p_uuid p = m_user_uuid m ->
  owned (mkDb (profiles d) (mails d ++ [m])).
Proof.
  intros Hd Hp E x Hx. simpl in *. apply in_app_or in Hx.
  destruct Hx as [Hx | [<- | []]]; [apply Hd; exact Hx | eauto].
Qed.

(** X18. [POST /api/mails] keeps every mail owned, and stores nothing unless a
    profile with the submitted [user_uuid] exists, in which case it answers
    201; when none exists and the calls return, it answers 404. *)
Lemma mails_POST_checks_owner raw s :
  exists resp s',
    mails_POST (Some raw) s = (Ok resp, s')
    /\ (owned (db s) -> owned (db s'))
    /\ (db s' = db s \/ status resp = 201)
    /\ (existsb (by_uuid (default "" (r_user_uuid raw))) (profiles (db s)) = false ->
        db s' = db s /\ status resp <> 201
        /\ (store_reachable -> MailSchema_ok false raw = true -> status resp = 404)).
Proof.
  unfold mails_POST, request_json, MailSchema_parse. open_handler.
  destruct (MailSchema_ok false raw) eqn:Hok; simpl.
  2:{ eexists _, _. split; [reflexivity |]. simpl.
      split; [auto |]. split; [left; reflexivity |]. intros _.
      split; [reflexivity |]. split; [discriminate |]. intros _ X. discriminate. }
  set (fresh := match r_uuid raw with
                | Some u => if truthy u then _ else _
                | None => _
                end).
  assert (Hfresh : exists u w,
             fresh s = (Ok u, mkState w (db s) (heap s) (storageCache s) (file s))).
  { subst fresh. destruct (r_uuid raw) as [u0|]; [destruct (truthy u0)|].
    - exists u0, (ext s). destruct s; reflexivity.
    - unfold call. destruct (randomUUID (ext s)) as [a w']. simpl. eauto.
    - unfold call. destruct (randomUUID (ext s)) as [a w']. simpl. eauto. }
  destruct Hfresh as (u & w & Hfresh). rewrite Hfresh. simpl.
  driver.
  { eexists _, _. split; [reflexivity |]. simpl.
    split; [auto |]. split; [left; reflexivity |]. intros _.
    split; [reflexivity |]. split; [discriminate |]. intros R _.
    specialize (R w). rewrite E in R. discriminate. }
  driver.
  { eexists _, _. split; [reflexivity |]. simpl.
    split; [auto |]. split; [left; reflexivity |]. intros _.
    split; [reflexivity |]. split; [discriminate |]. intros R _.
    match goal with E : mongo_call ?w0 = (Some _, _) |- _ =>
      specialize (R w0); rewrite E in R end. discriminate. }
  destruct (List.find (by_uuid (default "" (r_user_uuid raw))) (profiles (db s)))
    as [p|] eqn:Hfind; simpl.
  2:{ eexists _, _. split; [reflexivity |]. simpl.
      split; [auto |]. split; [left; reflexivity |]. intros _.
      split; [reflexivity |]. split; [discriminate |]. reflexivity. }
  destruct (find_by_uuid_owner _ _ _ Hfind) as [Hin Hp].
  assert (Hex : existsb (by_uuid (default "" (r_user_uuid raw))) (profiles (db s)) = true).
  { destruct (existsb _ _) eqn:X; [reflexivity |].
    apply find_none_existsb in X. congruence. }
  driver.
  { eexists _, _. split; [reflexivity |]. simpl.
    split; [auto |]. split; [left; reflexivity |]. intros X. congruence. }
  eexists _, _. split; [reflexivity |]. simpl.
  split; [intros Hd; apply owned_insert with (p := p); auto |].
  split; [right; reflexivity |].
  intros X. congruence.
Qed.

Lemma owned_without_mails d (q : MailDoc -> bool) :
  owned d -> owned (mkDb (profiles d) (List.filter (fun m => negb (q m)) (mails d))).
Proof.
  intros Hd m Hm. simpl in *. apply filter_In in Hm. apply Hd. tauto.
Qed.

Lemma owned_cascade id d :
  owned d ->
  owned (mkDb (delete_first (by_uuid id) (profiles d))
              (List.filter (fun m => negb (mail_by_user id m)) (mails d))).
Proof.
  intros Hd m Hm. simpl in *. apply filter_In in Hm. destruct Hm as [Hm Hne].
  destruct (Hd m Hm) as (p & Hp & E). exists p. split; [| exact E].
  apply In_delete_first; [exact Hp |].
  unfold by_uuid. rewrite E. unfold mail_by_user in Hne.
  destruct (String.eqb (m_user_uuid m) id); [discriminate | reflexivity].
Qed.

(** X23. [DELETE /api/profiles/[id]] keeps every mail owned; when it answers
    200 or 404 no mail of that owner is left; no profile that stays is
    modified, its [scanned] array included. *)
Lemma profiles_id_DELETE_cascades id s :
  exists resp s',
    profiles_id_DELETE id s = (Ok resp, s')
    /\ (owned (db s) -> owned (db s'))
    /\ (status resp <> 500 ->
        forall m, In m (mails (db s')) -> m_user_uuid m <> id)
    /\ (forall p, In p (profiles (db s')) -> In p (profiles (db s))).
Proof.
  unfold profiles_id_DELETE. open_handler.
  driver.
  { eexists _, _. split; [reflexivity |]. simpl. repeat split; auto; congruence. }
  driver.
  { eexists _, _. split; [reflexivity |]. simpl. repeat split; auto; congruence. }
  driver.
  { eexists _, _. split; [reflexivity |]. simpl.
    split; [apply owned_without_mails |]. split; [congruence | auto]. }
  assert (Hgone : forall m,
            In m (List.filter (fun m => negb (mail_by_user id m)) (mails (db s))) ->
            m_user_uuid m <> id).
  { intros m Hm. apply filter_In in Hm. destruct Hm as [_ Hne].
    intros Eq. unfold mail_by_user in Hne. rewrite Eq, String.eqb_refl in Hne.
    discriminate. }
  destruct (count_one (by_uuid id) (profiles (db s)) =? 0);
    (eexists _, _; split; [reflexivity |]; simpl;
     split; [apply owned_cascade |]; split; [intros _; exact Hgone |];
     intros p; apply delete_first_In).
Qed.

End OwnershipProofs.

(** C4 (failing input). [PUT /api/mails/[id]] with a body that sets
    [user_uuid] to a uuid no profile carries is answered 200 and leaves a
    mail record without an owner: the update path does not make the check
    that [POST /api/mails] makes. *)
Theorem mails_id_PUT_orphans_a_mail :
  ownedb lab_db = true
  /\ existsb (by_uuid uuid_x) (profiles lab_db) = false
  /\ exists (s' : @State lab) (m : MailDoc),
       @mails_id_PUT lab uuid_m
         (Some (mkRawMail None (Some uuid_x) None None None None None None None None None))
         lab_state
       = (Ok (json 200 (JsonMail m)), s')
       /\ mails (db s') = [m]
       /\ m_user_uuid m = uuid_x
       /\ ownedb (db s') = false.
Proof.
  split; [reflexivity |]. split; [reflexivity |].
  eexists _, _. split; [vm_compute; reflexivity |].
  repeat split; reflexivity.
Qed.

(** C8 (failing input). Deleting profile [uuid_a] removes its mail
    [uuid_m], yet the [scanned] array of the other profile still lists
    [uuid_m]: the cascade does not purge the back-references, which
    [DELETE /api/mails/[id]] does. *)
Theorem profiles_id_DELETE_leaves_scanned_reference :
  scans_resolveb lab_db = true
  /\ exists s' : @State lab,
       @profiles_id_DELETE lab uuid_a lab_state
       = (Ok (json 200 (JsonMessage "Profile deleted")), s')
       /\ db s' = mkDb [bo] []
       /\ p_scanned bo = Some [uuid_m]
       /\ scans_resolveb (db s') = false.
Proof.
  split; [reflexivity |].
  eexists. split; [vm_compute; reflexivity |].
  repeat split; reflexivity.
Qed.

Section ProfileProofs.
Context `{Outside}.

Lemma find_app_last {A} (q : A -> bool) l x :
  List.find q l = None ->
  List.find q (l ++ [x]) = if q x then Some x else None.
Proof.
  induction l as [|y l IH]; simpl; [reflexivity |].
  destruct (q y); [discriminate | exact IH].
Qed.

Lemma find_app_first {A} (q : A -> bool) l r x :
  List.find q l = Some x -> List.find q (l ++ r) = Some x.
Proof.
  induction l as [|y l IH]; simpl; [discriminate |].
  destruct (q y); [trivial | exact IH].
Qed.

Lemma filter_find_none {A} (q : A -> bool) l :
  List.find q l = None -> List.filter q l = [].
Proof.
  induction l as [|y l IH]; simpl; [reflexivity |].
  destruct (q y); [discriminate | exact IH].
Qed.

Lemma filter_find_some {A} (q : A -> bool) l x :
  List.find q l = Some x -> (1 <= length (List.filter q l))%nat.
Proof.
  induction l as [|y l IH]; simpl; [discriminate |].
  destruct (q y); simpl; [lia | exact IH].
Qed.

(** What one run of find-or-create does, whether it returns or throws:
    with a profile of that identity on file the store is not written and
    that profile is the result; with none, at most one document is
    appended, carrying the identity, and its uuid is the result. *)
Lemma find_or_create_profile_run g e s r s' :
  find_or_create_profile g e s = (r, s') ->
  match List.find (by_google_id g) (profiles (db s)) with
  | Some p => db s' = db s /\ (forall p', r = Ok p' -> p' = p)
  | None =>
      (db s' = db s /\ forall p', r <> Ok p')
      \/ exists u,
           db s' = mkDb (profiles (db s) ++ [mkProfile u (Some g) None e None])
                        (mails (db s))
           /\ (forall p', r = Ok p' -> p_uuid p' = u)
  end.
Proof.
  assert (Hpair : forall (a b : Res ProfileDoc) (x y : State),
             (a, x) = (b, y) -> a = b /\ x = y) by (intros a b x y [= -> ->]; auto).
  unfold find_or_create_profile, profiles_findOne, profiles_insertOne, mongo,
    ask, call_, call, bind, ret, throw. simpl.
  destruct (mongo_call (ext s)) as [[e0|] w0]; simpl.
  { intros Hr. apply Hpair in Hr. destruct Hr as [<- <-]. simpl.
    destruct (List.find _ _); [split; [reflexivity | discriminate] |].
    left. split; [reflexivity | discriminate]. }
  destruct (List.find (by_google_id g) (profiles (db s))) as [p|] eqn:Hfind; simpl.
  { intros Hr. apply Hpair in Hr. destruct Hr as [<- <-]. simpl.
    split; [reflexivity |]. intros p' [= <-]. reflexivity. }
  destruct (randomUUID w0) as [u w1]; simpl.
  destruct (mongo_call w1) as [[e1|] w2]; simpl.
  { intros Hr. apply Hpair in Hr. destruct Hr as [<- <-]. simpl.
    left. split; [reflexivity | discriminate]. }
  destruct (mongo_call w2) as [[e2|] w3]; simpl.
  { intros Hr. apply Hpair in Hr. destruct Hr as [<- <-]. simpl.
    right. exists u. split; [reflexivity | discriminate]. }
  destruct (List.find (by_uuid u) _) as [p|] eqn:Hu; simpl;
    intros Hr; apply Hpair in Hr; destruct Hr as [<- <-]; simpl;
    right; exists u; (split; [reflexivity |]).
  - intros p' [= <-]. apply find_some in Hu. apply String.eqb_eq. tauto.
  - discriminate.
Qed.

(** With a database that answers, find-or-create returns a profile. *)
Lemma find_or_create_profile_returns g e :
  store_reachable -> returns (find_or_create_profile g e).
Proof.
  intros Hup s.
  assert (Hcall : forall w, exists w', mongo_call w = (None, w')).
  { intros w. specialize (Hup w). destruct (mongo_call w) as [o w'].
    simpl in Hup. subst o. eauto. }
  unfold find_or_create_profile, profiles_findOne, profiles_insertOne, mongo,
    ask, call_, call, bind, ret, throw. simpl.
  destruct (Hcall (ext s)) as (w0 & ->). simpl.
  destruct (List.find (by_google_id g) (profiles (db s))) as [p|] eqn:Hfind; simpl;
    [eauto |].
  destruct (randomUUID w0) as [u w1]. simpl.
  destruct (Hcall w1) as (w2 & ->). simpl.
  destruct (Hcall w2) as (w3 & ->). simpl.
  destruct (List.find (by_uuid u) (profiles (db s))) as [p|] eqn:Hu.
  - rewrite (find_app_first _ _ _ _ Hu). eauto.
  - rewrite (find_app_last _ _ _ Hu). unfold by_uuid. simpl.
    rewrite String.eqb_refl. eauto.
Qed.

(** C9. Two find-or-create calls in sequence for the same external
    identity give the same profile uuid; the second call writes nothing,
    and the first adds a document only when the identity had none, and
    then exactly one. *)
Theorem find_or_create_profile_is_idempotent :
  forall (g e1 e2 : string) (s s1 s2 : State) (p1 p2 : ProfileDoc),
    find_or_create_profile g e1 s = (Ok p1, s1) ->
    find_or_create_profile g e2 s1 = (Ok p2, s2) ->
    p_uuid p2 = p_uuid p1
    /\ db s2 = db s1
    /\ length (with_identity g (db s1))
       = Nat.max 1 (length (with_identity g (db s))).
Proof.
  intros g e1 e2 s s1 s2 p1 p2 H1 H2.
  apply find_or_create_profile_run in H1, H2. unfold with_identity.
  destruct (List.find (by_google_id g) (profiles (db s))) as [p|] eqn:Hfind.
  - destruct H1 as [Hdb Hp]. rewrite Hdb in *. rewrite Hfind in H2.
    destruct H2 as [Hdb2 Hp2].
    rewrite (Hp p1 eq_refl), (Hp2 p2 eq_refl).
    split; [reflexivity |]. split; [exact Hdb2 |].
    pose proof (filter_find_some _ _ _ Hfind). lia.
  - destruct H1 as [[_ Hno] | (u & Hdb & Hp)]; [destruct (Hno p1 eq_refl) |].
    rewrite Hdb in *. simpl in H2.
    rewrite (find_app_last _ _ _ Hfind) in H2.
    assert (Hnew : by_google_id g (mkProfile u (Some g) None e1 None) = true)
      by (unfold by_google_id; simpl; apply String.eqb_refl).
    rewrite Hnew in H2. destruct H2 as [Hdb2 Hp2].
    rewrite (Hp p1 eq_refl), (Hp2 p2 eq_refl).
    split; [reflexivity |]. split; [exact Hdb2 |].
    simpl. rewrite List.filter_app, (filter_find_none _ _ Hfind). simpl.
    rewrite Hnew. reflexivity.
Qed.

(** X17. The find-or-insert of a profile by [google_id] never gives an
    identity a second profile: whatever the outcome of a call, an
    identity that had at most one profile still has at most one. *)
Lemma find_or_create_profile_never_duplicates g e s r s' :
  find_or_create_profile g e s = (r, s') ->
  (length (with_identity g (db s)) <= 1)%nat ->
  (length (with_identity g (db s')) <= 1)%nat.
Proof.
  intros Hrun Hle. apply find_or_create_profile_run in Hrun. unfold with_identity in *.
  destruct (List.find (by_google_id g) (profiles (db s))) as [p|] eqn:Hfind.
  - destruct Hrun as [-> _]. exact Hle.
  - destruct Hrun as [[-> _] | (u & -> & _)]; [exact Hle |].
    simpl. rewrite List.filter_app, (filter_find_none _ _ Hfind). simpl.
    destruct (by_google_id g _); simpl; lia.
Qed.

End ProfileProofs.

Section SessionProofs.
Context `{Outside}.

Lemma deref_fresh hp d w b c f :
  deref (length hp) (mkState w b (hp ++ [d])%list c f) = d.
Proof.
  unfold deref. simpl. rewrite lookup_app_r by lia.
  rewrite Nat.sub_diag. reflexivity.
Qed.



Lemma deref_mutated r v hp w b c f :
  (r < length hp)%nat -> deref r (mkState w b (<[r := v]> hp) c f) = v.
Proof.
  intros Hr. unfold deref. simpl. rewrite list_lookup_insert_eq by exact Hr.
  reflexivity.
Qed.




End SessionProofs.

(** C6 (failing input). A disconnect for a live session whose token
    revocation is refused by the provider is answered with success and the
    cookie is dropped, but the token entry of the user and the session
    entry are still in the storage, in memory and on file: the statements
    that clear them follow the revocation inside the same [try] and are
    skipped when it throws. *)
Theorem authDisconnect_keeps_entries_when_revoke_throws :
  @getSession lab lab_request lab_state
  = (Ok (Some (Own (mkSession "g-100" "ana@example.org" (Some uuid_a)))),
     snd (@getSession lab lab_request lab_state))
  /\ fst (@revokeToken lab "ya29.old" tt) = Some (error "invalid_token")
  /\ exists s' : @State lab,
       @authDisconnect lab lab_request lab_state
       = (Ok (mkResponse 200 (JsonMessage "Disconnected") DeleteCookie), s')
       /\ tokens (@current lab s') !! "g-100"
          = Some (mkTokens (Some "ya29.old") (Some "1//refresh") None)
       /\ sessions (@current lab s') !! "sess_1"
          = Some (mkSession "g-100" "ana@example.org" (Some uuid_a))
       /\ file s' = Stored lab_storage.
Proof.
  split; [vm_compute; reflexivity |]. split; [reflexivity |].
  eexists. split; [vm_compute; reflexivity |].
  repeat split; vm_compute; reflexivity.
Qed.

(** * The statements at work in the lab deployment *)

(** A [multipart/alternative] with a plain-text part only resolves to the
    escaped text in the fixed-width container. *)
Example getEmailBody_plain_only :
  @getEmailBody lab lab_plain_only
  = "<div style=" ++ dquote ++ "white-space: pre-wrap; font-family: monospace;"
      ++ dquote ++ ">a &lt; b</div>".
Proof. vm_compute. reflexivity. Qed.

Lemma processEmail_keeps_failed_attachment_witness :
  exists (later : list EmailAttachment) (pe : ProcessedEmail) (s3 : @State lab),
    @processEmail lab (Some "g-100") (lab_message "m1") lab_state = (Ok pe, s3)
    /\ pe_attachments pe =
         ([] ++ mkAttachment "invoice.pdf" (mimeType_of lab_pdf_part)
                  (default 0 (body_of lab_pdf_part ≫= body_size)) None
             :: later)%list
    /\ @for_parts lab (Some "g-100") (msg_id (lab_message "m1"))
         ([] ++ [unsaved "invoice.pdf" lab_pdf_part])%list [] lab_state
       = (Ok (pe_attachments pe), s3)
    /\ pe_hasAttachments pe = true.
Proof.
  apply (@processEmail_keeps_failed_attachment lab (Some "g-100") (lab_message "m1")
           [mkHeader "From" "billing@vendor.example"; mkHeader "Subject" "Invoice 42"]
           [lab_text_part] lab_pdf_part [] "invoice.pdf" "att-1" []
           lab_state lab_state (error "socket hang up") lab_state);
    vm_compute; reflexivity.
Defined.

Lemma getEmails_one_entry_per_listed_message_witness :
  exists (emails : list VerifiedEmail) (total unread : Z)
         (invoices : option Z) (s6 : @State lab),
    @getEmails lab lab_request lab_state
    = (Ok (json 200 (JsonEmails emails total unread invoices)), s6)
    /\ length emails = length (default [] (messages (mkList (Some ["m1"; "m2"]) None)))
    /\ (default [] (messages (mkList (Some ["m1"; "m2"]) None)) = [] ->
        emails = [] /\ total = 0 /\ unread = 0 /\ invoices = None).
Proof.
  eapply (@getEmails_one_entry_per_listed_message lab lab_request lab_state
            (mkTokens (Some "ya29.old") (Some "1//refresh") None)
            (Own (mkSession "g-100" "ana@example.org" (Some uuid_a)))
            _ _ uuid_a _ (mkList (Some ["m1"; "m2"]) None) _
            (Ok [lab_message "m1"; lab_message "m2"]) _);
    try (vm_compute; reflexivity).
  repeat constructor; eexists; reflexivity.
Defined.

(** C2 (counterexample). A mailbox that lists two ids and fails the
    full-message fetch of the second: the request is authorised, the
    profile is there and the list call answers with two ids, yet the
    response is the 500 error and carries no list, so not one entry per
    listed id. No attachment and no classification has failed: no message
    was processed. *)
Lemma getEmails_fetch_failure_drops_batch :
  exists (t : Tokens) (sess : SessionValue) (s1 s2 : @State lab_flaky)
         (u : string) (s3 : @State lab_flaky) (lr : ListResponse)
         (s4 : @State lab_flaky),
    @getTokens lab_flaky lab_request flaky_state = (Ok (Some t), s1)
    /\ @getSession lab_flaky lab_request s1 = (Ok (Some sess), s2)
    /\ @session_profile lab_flaky lab_request sess s2 = (Ok u, s3)
    /\ @list_inbox lab_flaky lab_request s3 = (Ok lr, s4)
    /\ length (default [] (messages lr)) = 2%nat
    /\ fst (@getEmails lab_flaky lab_request flaky_state)
       = Ok (json 500 (JsonError "Failed to fetch emails" None))
    /\ ~ (exists (emails : list VerifiedEmail) (total unread : Z)
                 (invoices : option Z) (s6 : @State lab_flaky),
            @getEmails lab_flaky lab_request flaky_state
            = (Ok (json 200 (JsonEmails emails total unread invoices)), s6)
            /\ length emails = length (default [] (messages lr))).
Proof.
  do 8 eexists.
  split; [vm_compute; reflexivity |].
  split; [vm_compute; reflexivity |].
  split; [vm_compute; reflexivity |].
  split; [vm_compute; reflexivity |].
  split; [reflexivity |].
  split; [vm_compute; reflexivity |].
  intros (emails & total & unread & invoices & s6 & E & _).
  vm_compute in E. discriminate E.
Qed.

Lemma classifier_failure_degrades_gracefully_witness :
  exists s2 : @State lab,
    @processEmailWithVerification lab (Some "g-100") uuid_a (lab_message "m1") lab_state
    = (Ok (mkVerified
             (mkProcessed "m1" "thread-1" "Invoice 42" "billing@vendor.example"
                "billing@vendor.example" "" "" "Invoice attached"
                (@getEmailBody lab (payload (lab_message "m1"))) false true
                [mkAttachment "invoice.pdf" "application/pdf" 1024 None]
                ["INBOX"; "UNREAD"])
             false None), s2)
    /\ db s2 = db lab_state.
Proof.
  apply (@classifier_failure_degrades_gracefully lab (Some "g-100") uuid_a
           (lab_message "m1") lab_state _ lab_state).
  - vm_compute. reflexivity.
  - intros w _. vm_compute. exact I.
Defined.


(** C7. The callback at a [state] that names no session but a method of
    [Object.prototype]: the session store has no entry [toString] and the
    token store none under [undefined], yet the read
    [storage.sessions[state]] answers with the inherited function, the
    guard [!session] lets it pass, the code is exchanged for tokens, and
    the tokens are stored under the key [undefined], in memory and in the
    storage file, behind the "Auth Success" page. A later request whose
    session cookie is [toString] is handed that token set. *)
Theorem authGoogleCallback_inherited_state_stores_tokens :
  sessions (@loaded_view lab lab_state) !! "toString" = None
  /\ tokens (@loaded_view lab lab_state) !! "undefined" = None
  /\ exists s' : @State lab,
       @authGoogleCallback lab lab_forged_callback lab_state
       = (Ok (mkResponse 200
                (Html "Auth Success"
                   "Your account is connected. This window will close automatically.")
                KeepCookie), s')
       /\ tokens (current s') !! "undefined"
          = Some (mkTokens (Some "ya29.new") None None)
       /\ file s' = Stored (current s')
       /\ fst (@getTokens lab lab_forged_request s')
          = Ok (Some (mkTokens (Some "ya29.new") None None)).
Proof.
  split; [vm_compute; reflexivity |]. split; [vm_compute; reflexivity |].
  eexists. split; [vm_compute; reflexivity |].
  repeat split; vm_compute; reflexivity.
Qed.

Lemma find_or_create_profile_is_idempotent_witness :
  exists (s1 s2 : @State lab) (p1 p2 : ProfileDoc),
    @find_or_create_profile lab "g-200" "cy@example.org" lab_state = (Ok p1, s1)
    /\ @find_or_create_profile lab "g-200" "cy@example.org" s1 = (Ok p2, s2)
    /\ p_uuid p2 = p_uuid p1
    /\ db s2 = db s1
    /\ length (with_identity "g-200" (db s1))
       = Nat.max 1 (length (with_identity "g-200" (db lab_state))).
Proof.
  eexists _, _, _, _.
  assert (H1 : @find_or_create_profile lab "g-200" "cy@example.org" lab_state
               = (Ok (mkProfile "0f0e0d0c-0b0a-4908-8706-050403020100"
                        (Some "g-200") None "cy@example.org" None),
                  snd (@find_or_create_profile lab "g-200" "cy@example.org" lab_state)))
    by (vm_compute; reflexivity).
  assert (H2 : @find_or_create_profile lab "g-200" "cy@example.org"
                 (snd (@find_or_create_profile lab "g-200" "cy@example.org" lab_state))
               = (Ok (mkProfile "0f0e0d0c-0b0a-4908-8706-050403020100"
                        (Some "g-200") None "cy@example.org" None),
                  snd (@find_or_create_profile lab "g-200" "cy@example.org"
                         (snd (@find_or_create_profile lab "g-200" "cy@example.org"
                                 lab_state)))))
    by (vm_compute; reflexivity).
  split; [exact H1 |]. split; [exact H2 |].
  exact (@find_or_create_profile_is_idempotent lab "g-200" "cy@example.org"
           "cy@example.org" _ _ _ _ _ H1 H2).
Defined.

(** Deleting the mail that another profile has scanned pulls the entry
    before the mail goes; an unknown uuid is answered 404 and changes
    nothing. *)
Example mails_id_DELETE_in_lab :
  (exists s' : @State lab,
     @mails_id_DELETE lab uuid_m lab_state
     = (Ok (json 200 (JsonMessage "Mail deleted")), s')
     /\ db s' = mkDb [ana; mkProfile uuid_b None (Some "Bo") "bo@example.org" (Some [])] []
     /\ scans_resolveb (db s') = true)
  /\ @mails_id_DELETE lab uuid_x lab_state
     = (Ok (json 404 (JsonError "Mail not found" None)), lab_state).
Proof.
  split.
  - eexists. split; [vm_compute; reflexivity |]. split; reflexivity.
  - vm_compute. reflexivity.
Qed.

(** * Further properties *)

Section FrameProofs.
Context `{Outside}.

#[global] Instance same_store_refl : Reflexive same_store.
Proof. intros s. reflexivity. Qed.
#[global] Instance same_store_trans : Transitive same_store.
Proof. unfold same_store. intros a b c ? ?. congruence. Qed.
#[global] Instance same_mails_refl : Reflexive same_mails.
Proof. intros s. reflexivity. Qed.
#[global] Instance same_mails_trans : Transitive same_mails.
Proof. unfold same_mails. intros a b c ? ?. congruence. Qed.
#[global] Instance same_outside_refl : Reflexive same_outside.
Proof. intros s. reflexivity. Qed.
#[global] Instance same_outside_trans : Transitive same_outside.
Proof. unfold same_outside. intros a b c ? ?. congruence. Qed.
#[global] Instance same_file_refl : Reflexive same_file.
Proof. intros s. reflexivity. Qed.
#[global] Instance same_file_trans : Transitive same_file.
Proof. unfold same_file. intros a b c ? ?. congruence. Qed.

Lemma pair_eq {A B} (a a' : A) (b b' : B) : (a, b) = (a', b') -> a = a' /\ b = b'.
Proof. intros E. split; congruence. Qed.

Section Generic.
Variable R : State -> State -> Prop.
Hypothesis R_refl : Reflexive R.
Hypothesis R_trans : Transitive R.

Lemma preserves_ret {A} (a : A) : preserves R (ret a).
Proof using R_refl. intros s r s' E. apply pair_eq in E. destruct E as [_ <-]. apply R_refl. Qed.

Lemma preserves_throw {A} e : preserves R (@throw _ A e).
Proof using R_refl. intros s r s' E. apply pair_eq in E. destruct E as [_ <-]. apply R_refl. Qed.

Lemma preserves_peek {A} (f : world -> A) : preserves R (peek f).
Proof using R_refl. intros s r s' E. apply pair_eq in E. destruct E as [_ <-]. apply R_refl. Qed.

Lemma preserves_bind {A B} (m : M A) (k : A -> M B) :
  preserves R m -> (forall a, preserves R (k a)) -> preserves R (bind m k).
Proof using R_trans.
  intros Hm Hk s r s'. unfold bind.
  destruct (m s) as [[a|e] s1] eqn:E; intros Hr.
  - eapply R_trans; [exact (Hm _ _ _ E) | exact (Hk a _ _ _ Hr)].
  - apply pair_eq in Hr. destruct Hr as [_ <-]. exact (Hm _ _ _ E).
Qed.

Lemma preserves_try {A} (m : M A) h :
  preserves R m -> (forall e, preserves R (h e)) -> preserves R (try_catch m h).
Proof using R_trans.
  intros Hm Hh s r s'. unfold try_catch.
  destruct (m s) as [[a|e] s1] eqn:E; intros Hr.
  - apply pair_eq in Hr. destruct Hr as [_ <-]. exact (Hm _ _ _ E).
  - eapply R_trans; [exact (Hm _ _ _ E) | exact (Hh e _ _ _ Hr)].
Qed.

Lemma preserves_Promise_all {A B} (f : A -> M B) items :
  (forall x, preserves R (f x)) -> preserves R (Promise_all f items).
Proof using R_refl R_trans.
  intros Hf. induction items as [|x rest IH]; simpl.
  - apply preserves_ret.
  - apply preserves_bind; [apply Hf |]. intros y.
    apply preserves_bind; [exact IH |]. intros ys. apply preserves_ret.
Qed.

End Generic.

(** A state function that changes some fields only. *)
Lemma preserves_update R {A} (f : State -> A * State) :
  (forall s, R s (snd (f s))) ->
  preserves R (fun s => let (a, s') := f s in (Ok a, s')).
Proof.
  intros Hf s r s' E. specialize (Hf s). destruct (f s) as [a s1].
  apply pair_eq in E. destruct E as [_ <-]. exact Hf.
Qed.

End FrameProofs.

Create HintDb frames.

Ltac frame :=
  repeat match goal with
  | |- preserves _ (bind _ _) => apply preserves_bind; [apply _ | | intros ?]
  | |- preserves _ (try_catch _ _) => apply preserves_try; [apply _ | | intros ?]
  | |- preserves _ (ret _) => apply preserves_ret; apply _
  | |- preserves _ (throw _) => apply preserves_throw; apply _
  | |- preserves _ (peek _) => apply preserves_peek; apply _
  | |- preserves _ (Promise_all _ _) =>
      apply preserves_Promise_all; [apply _ | apply _ | intros ?]
  | |- preserves _ (match ?x with _ => _ end) => destruct x
  | |- preserves _ _ => solve [auto with frames]
  end.

(** Closes a frame goal for a state function written out in full. *)
Ltac frame_prim :=
  let s := fresh "s" in let r := fresh "r" in let s' := fresh "s'" in
  let E := fresh "E" in
  intros s r s' E; apply pair_eq in E; destruct E as [_ <-];
  repeat split; reflexivity.

Section StorageFrames.
Context `{Outside}.

#[global] Instance memory_only_refl : Reflexive memory_only.
Proof. intros s. repeat split. Qed.
#[global] Instance memory_only_trans : Transitive memory_only.
Proof.
  unfold memory_only. intros a b c (? & ? & ?) (? & ? & ?).
  repeat split; congruence.
Qed.

Lemma preserves_weaken (R R' : State -> State -> Prop) {A} (m : M A) :
  (forall s s', R s s' -> R' s s') -> preserves R m -> preserves R' m.
Proof. intros HR Hm s r s' E. apply HR. exact (Hm _ _ _ E). Qed.

Lemma memory_only_read r : preserves memory_only (read r).
Proof. frame_prim. Qed.
Lemma memory_only_get_cache : preserves memory_only get_cache.
Proof. frame_prim. Qed.
Lemma memory_only_mutate r f : preserves memory_only (mutate r f).
Proof. frame_prim. Qed.
Lemma memory_only_cache_fresh d : preserves memory_only (cache_fresh d).
Proof. frame_prim. Qed.
Lemma memory_only_set_cache r : preserves memory_only (set_cache r).
Proof. frame_prim. Qed.
Lemma memory_only_exists : preserves memory_only storage_file_exists.
Proof. frame_prim. Qed.
Lemma memory_only_read_file : preserves memory_only read_storage_file.
Proof.
  intros s r s' E. unfold read_storage_file in E.
  destruct (file s); apply pair_eq in E; destruct E as [_ <-]; repeat split.
Qed.

Hint Resolve memory_only_read memory_only_get_cache memory_only_mutate
  memory_only_cache_fresh memory_only_set_cache memory_only_exists
  memory_only_read_file : frames.

Lemma memory_only_loadStorage : preserves memory_only loadStorage.
Proof. unfold loadStorage. frame. Qed.
Hint Resolve memory_only_loadStorage : frames.

Lemma memory_only_getSession request : preserves memory_only (getSession request).
Proof. unfold getSession. frame. Qed.
Hint Resolve memory_only_getSession : frames.

Lemma memory_only_getTokens request : preserves memory_only (getTokens request).
Proof. unfold getTokens. frame. Qed.

End StorageFrames.

#[global] Hint Resolve memory_only_read memory_only_get_cache memory_only_mutate
  memory_only_cache_fresh memory_only_set_cache memory_only_exists
  memory_only_read_file memory_only_loadStorage memory_only_getSession
  memory_only_getTokens : frames.

Section StoreFrames.
Context `{Outside}.

Lemma memory_only_same_store s s' : memory_only s s' -> same_store s s'.
Proof. intros (_ & E & _). exact E. Qed.

Lemma same_store_same_mails s s' : same_store s s' -> same_mails s s'.
Proof. unfold same_store, same_mails. intros ->. reflexivity. Qed.

Lemma keeps_store_memory {A} (m : M A) : preserves memory_only m -> keeps_store m.
Proof. apply preserves_weaken. apply memory_only_same_store. Qed.

Lemma keeps_store_outside {A} (m : M A) : outside_only m -> keeps_store m.
Proof. intros Hm s r s' E. exact (proj1 (Hm _ _ _ E)). Qed.

Lemma keeps_store_call {A} (f : world -> Res A * world) : preserves same_store (call f).
Proof. apply keeps_store_outside, outside_only_call. Qed.
Lemma keeps_store_call_ f : preserves same_store (call_ f).
Proof. apply keeps_store_outside, outside_only_call_. Qed.
Lemma keeps_store_ask {A} (f : world -> A * world) : preserves same_store (ask f).
Proof. apply keeps_store_outside, outside_only_ask. Qed.
Lemma keeps_store_read r : preserves same_store (read r).
Proof. apply keeps_store_memory. auto with frames. Qed.
Lemma keeps_store_mutate r f : preserves same_store (mutate r f).
Proof. apply keeps_store_memory. auto with frames. Qed.
Lemma keeps_store_set_cache r : preserves same_store (set_cache r).
Proof. apply keeps_store_memory. auto with frames. Qed.
Lemma keeps_store_get_cache : preserves same_store get_cache.
Proof. apply keeps_store_memory. auto with frames. Qed.
Lemma keeps_store_loadStorage : preserves same_store loadStorage.
Proof. apply keeps_store_memory. auto with frames. Qed.
Lemma keeps_store_getSession request : preserves same_store (getSession request).
Proof. apply keeps_store_memory. auto with frames. Qed.
Lemma keeps_store_getTokens request : preserves same_store (getTokens request).
Proof. apply keeps_store_memory. auto with frames. Qed.

Hint Resolve keeps_store_call keeps_store_call_ keeps_store_ask keeps_store_read
  keeps_store_mutate keeps_store_set_cache keeps_store_get_cache
  keeps_store_loadStorage keeps_store_getSession keeps_store_getTokens : frames.

Lemma keeps_store_write d : preserves same_store (write_storage_file d).
Proof. unfold write_storage_file. frame. frame_prim. Qed.
Hint Resolve keeps_store_write : frames.

Lemma keeps_store_saveStorage r : preserves same_store (saveStorage r).
Proof. unfold saveStorage. frame. Qed.
Hint Resolve keeps_store_saveStorage : frames.

Lemma keeps_store_backfill request storage uuid :
  preserves same_store (backfill_profile request storage uuid).
Proof.
  unfold backfill_profile. frame.
Qed.

Lemma keeps_store_processEmail u message : preserves same_store (processEmail u message).
Proof. apply keeps_store_outside, outside_only_processEmail. Qed.

(** The save request of the verification route is answered 400 and
    nothing is stored. *)
Lemma mails_POST_rejects_save userUuid s :
  mails_POST (Some (mail_request userUuid)) s
  = (Ok (json 400 (JsonError "Validation failed" None)), s).
Proof.
  unfold mails_POST, try_catch, request_json, MailSchema_parse.
  unfold bind at 1. unfold ret at 1. unfold bind at 1.
  rewrite mail_request_rejected. reflexivity.
Qed.

Lemma keeps_store_rejected_save userUuid :
  preserves same_store (mails_POST (Some (mail_request userUuid))).
Proof.
  intros s r s' E. rewrite mails_POST_rejects_save in E.
  apply pair_eq in E. destruct E as [_ <-]. reflexivity.
Qed.
Hint Resolve keeps_store_rejected_save : frames.

Lemma keeps_store_json_with_status st b : preserves same_store (json_with_status st b).
Proof. unfold json_with_status. frame. Qed.
Hint Resolve keeps_store_json_with_status : frames.

Lemma keeps_store_request_json {A} (b : option A) : preserves same_store (request_json b).
Proof. unfold request_json. frame. Qed.
Hint Resolve keeps_store_request_json : frames.

Lemma keeps_store_verify_invoice request body :
  preserves same_store (verify_invoice_POST request body).
Proof. unfold verify_invoice_POST. frame. Qed.

End StoreFrames.

#[global] Hint Resolve keeps_store_call keeps_store_call_ keeps_store_ask keeps_store_read
  keeps_store_mutate keeps_store_set_cache keeps_store_get_cache
  keeps_store_loadStorage keeps_store_getSession keeps_store_getTokens
  keeps_store_write keeps_store_saveStorage keeps_store_backfill
  keeps_store_processEmail keeps_store_rejected_save keeps_store_json_with_status
  keeps_store_request_json keeps_store_verify_invoice : frames.

Section ProducesProofs.
Context `{Outside}.

Lemma produces_ret {A} (P : A -> Prop) a : P a -> produces P (ret a).
Proof. intros Ha s a' s' E. apply pair_eq in E. destruct E as [E _]. congruence. Qed.

Lemma produces_throw {A} (P : A -> Prop) e : produces P (throw e).
Proof. intros s a s' E. discriminate. Qed.

Lemma produces_bind {A B} (P : A -> Prop) (Q : B -> Prop) (m : M A) (k : A -> M B) :
  produces P m -> (forall a, P a -> produces Q (k a)) -> produces Q (bind m k).
Proof.
  intros Hm Hk s b s'. unfold bind.
  destruct (m s) as [[a|e] s1] eqn:E; [| discriminate].
  intros Hr. exact (Hk a (Hm _ _ _ E) _ _ _ Hr).
Qed.

Lemma produces_any {A} (m : M A) : produces (fun _ => True) m.
Proof. intros s a s' _. exact I. Qed.

Lemma produces_try {A} (P : A -> Prop) (m : M A) h :
  produces P m -> (forall e, produces P (h e)) -> produces P (try_catch m h).
Proof.
  intros Hm Hh s a s'. unfold try_catch.
  destruct (m s) as [[a0|e] s1] eqn:E; intros Hr.
  - apply pair_eq in Hr. destruct Hr as [Hr _]. injection Hr as <-.
    exact (Hm _ _ _ E).
  - exact (Hh e _ _ _ Hr).
Qed.

End ProducesProofs.

Ltac produce :=
  repeat match goal with
  | |- produces _ (ret _) => apply produces_ret
  | |- produces _ (throw _) => apply produces_throw
  | |- produces _ (try_catch _ _) => apply produces_try; [| intros ?]
  | |- produces _ (match ?x with _ => _ end) => destruct x eqn:?
  end.

Section ForwarderFacts.
Context `{Outside}.

Lemma rejected_save_status userUuid :
  produces (fun r : Response => ok_status (status r) = false)
    (call_ (loopback_fetch "/api/mails") ;; mails_POST (Some (mail_request userUuid))).
Proof.
  eapply produces_bind; [apply produces_any |]. intros _ _ s r s' E.
  rewrite mails_POST_rejects_save in E. apply pair_eq in E. destruct E as [E _].
  injection E as <-. reflexivity.
Qed.

Lemma json_with_status_not_saved st e d :
  produces not_saved (json_with_status st (JsonError e d)).
Proof. unfold json_with_status. produce. exact I. Qed.

(** X1. [POST /api/verify-invoice] always answers, never writes the
    document store, and never reports [saved_to_db: true]: the body it
    posts to [/api/mails] has no [scraped_data], which [MailSchema]
    requires, so the save is answered 400 whatever the classifier said. *)
Theorem verify_invoice_never_saves :
  forall (request : Request) (body : option VerifyRequest) (s : State),
  exists (resp : Response) (s' : State),
    verify_invoice_POST request body s = (Ok resp, s')
    /\ db s' = db s
    /\ not_saved resp.
Proof.
  intros request body s.
  destruct (verify_invoice_returns request body s) as (resp & s' & E).
  exists resp, s'. split; [exact E |].
  split; [exact (keeps_store_verify_invoice _ _ _ _ _ E) |].
  revert s resp s' E. change (produces not_saved (verify_invoice_POST request body)).
  unfold verify_invoice_POST.
  apply produces_try; [| intros e; apply produces_ret; exact I].
  eapply produces_bind; [apply produces_any |]. intros vq _.
  destruct (negb _ && negb _); [apply produces_ret; exact I |].
  eapply produces_bind; [apply produces_any |]. intros reply _.
  destruct (negb (ok_status (reply_status reply)));
    [apply json_with_status_not_saved |].
  eapply produces_bind; [apply produces_any |]. intros v _.
  destruct (vq_emailData vq) as [ed|]; [| apply produces_ret; reflexivity].
  destruct (v_is_invoice v); [| apply produces_ret; reflexivity].
  apply produces_try; [| intros e; apply produces_ret; reflexivity].
  destruct (or_else _ _) as [userUuid|]; [| apply produces_ret; reflexivity].
  eapply produces_bind; [apply rejected_save_status |]. intros r Hr.
  cbv beta in Hr. rewrite Hr. apply produces_ret. reflexivity.
Qed.

End ForwarderFacts.

Section FetcherFacts.
Context `{Outside}.

Lemma keeps_mails_of_store {A} (m : M A) : preserves same_store m -> preserves same_mails m.
Proof. apply preserves_weaken. apply same_store_same_mails. Qed.
Hint Resolve keeps_mails_of_store : frames.

Lemma keeps_mails_mongo {A} (f : Db -> A * Db) :
  (forall d, mails (snd (f d)) = mails d) -> preserves same_mails (mongo f).
Proof.
  intros Hf. unfold mongo. frame.
  intros s0 r0 s1 E. specialize (Hf (db s0)). destruct (f (db s0)) as [x d].
  apply pair_eq in E. destruct E as [_ <-]. exact Hf.
Qed.

Lemma keeps_mails_getDb : preserves same_mails getDb.
Proof. unfold getDb. frame. Qed.
Lemma keeps_mails_profiles_findOne q : preserves same_mails (profiles_findOne q).
Proof. apply keeps_mails_mongo. reflexivity. Qed.
Lemma keeps_mails_profiles_insertOne p : preserves same_mails (profiles_insertOne p).
Proof. apply keeps_mails_mongo. reflexivity. Qed.
Hint Resolve keeps_mails_getDb keeps_mails_profiles_findOne
  keeps_mails_profiles_insertOne : frames.

Lemma keeps_mails_find_or_create g e : preserves same_mails (find_or_create_profile g e).
Proof. unfold find_or_create_profile. frame. Qed.
Hint Resolve keeps_mails_find_or_create : frames.

Lemma keeps_mails_find_or_create_for session :
  preserves same_mails (find_or_create_for session).
Proof. unfold find_or_create_for, find_or_create_unlinked. frame. Qed.

Lemma keeps_store_assign session uuid :
  preserves same_store (assign_profile session uuid).
Proof. unfold assign_profile. frame. Qed.
Hint Resolve keeps_mails_find_or_create_for keeps_store_assign : frames.

Lemma keeps_store_forwarder u p emailData :
  preserves same_store (processEmailWithVerification u p emailData).
Proof. unfold processEmailWithVerification. frame. Qed.
Hint Resolve keeps_store_forwarder : frames.

Lemma keeps_mails_session_profile request session :
  preserves same_mails (session_profile request session).
Proof. unfold session_profile. frame. Qed.

Lemma keeps_store_deliver u p lr : preserves same_store (deliver u p lr).
Proof. unfold deliver. frame. Qed.

Lemma keeps_store_list_inbox request : preserves same_store (list_inbox request).
Proof. unfold list_inbox. frame. Qed.
Hint Resolve keeps_mails_session_profile keeps_store_deliver keeps_store_list_inbox
  : frames.

(** X2. [GET /api/emails] never throws, answers with status 200, 401 or
    500, and never creates, changes or removes a mail record, whatever
    the mailbox, the classifier and the database do. *)
Theorem getEmails_answers_and_keeps_mails :
  forall (request : Request) (s : State),
  exists (resp : Response) (s' : State),
    getEmails request s = (Ok resp, s')
    /\ (status resp = 200 \/ status resp = 401 \/ status resp = 500)
    /\ mails (db s') = mails (db s).
Proof.
  intros request s.
  assert (Hret : returns (getEmails request)).
  { apply returns_try. intros e. apply returns_ret. }
  destruct (Hret s) as (resp & s' & E). exists resp, s'.
  split; [exact E |]. split.
  - revert s resp s' E.
    change (produces (fun r : Response =>
                        status r = 200 \/ status r = 401 \/ status r = 500)
                     (getEmails request)).
    unfold getEmails. apply produces_try.
    + eapply produces_bind; [apply produces_any |]. intros t _.
      eapply produces_bind; [apply produces_any |]. intros sess _.
      destruct t; [destruct sess |]; try (apply produces_ret; auto).
      eapply produces_bind; [apply produces_any |]. intros u _.
      eapply produces_bind; [apply produces_any |]. intros lr _.
      unfold deliver. destruct (_ =? _)%nat; [apply produces_ret; auto |].
      eapply produces_bind; [apply produces_any |]. intros details _.
      eapply produces_bind; [apply produces_any |]. intros emails _.
      apply produces_ret. auto.
    + intros e. apply produces_ret. unfold fetch_error.
      destruct (err_code e) as [[|c|c]|]; simpl; auto.
      repeat (destruct c as [c|c|]; simpl; auto).
  - revert s resp s' E Hret.
    assert (Hk : preserves same_mails (getEmails request)).
    { unfold getEmails. frame. }
    intros s resp s' E _. exact (Hk _ _ _ E).
Qed.

End FetcherFacts.

Section StorageFacts.
Context `{Outside}.

#[global] Instance heap_grows_refl : Reflexive heap_grows.
Proof. intros s. exists []. rewrite app_nil_r. reflexivity. Qed.
#[global] Instance heap_grows_trans : Transitive heap_grows.
Proof.
  intros a b c [m1 E1] [m2 E2]. exists (m1 ++ m2)%list.
  rewrite E2, E1, app_assoc. reflexivity.
Qed.

Lemma deref_grows r s s' :
  heap_grows s s' -> (r < length (heap s))%nat -> deref r s' = deref r s.
Proof.
  intros [more E] Hr. unfold deref. rewrite E, lookup_app_l by exact Hr.
  reflexivity.
Qed.

Lemma grows_length s s' : heap_grows s s' -> (length (heap s) <= length (heap s'))%nat.
Proof. intros [more E]. rewrite E, length_app. lia. Qed.

(** [loadStorage] in full: the reference it returns is the cache, the
    object behind it holds the visible storage, and a second load shows
    the same storage. *)
Lemma loadStorage_spec s :
  exists s1,
    loadStorage s = (Ok (storageCache s1), s1)
    /\ memory_only s s1
    /\ heap_grows s s1
    /\ current s1 = loaded_view s
    /\ loaded_view s1 = loaded_view s
    /\ (cache_alive s -> cache_alive s1).
Proof.
  unfold loadStorage, loaded_view, current, cache_alive, memory_only.
  destruct production eqn:Hprod.
  { exists s. unfold get_cache. repeat split; auto. reflexivity. }
  unfold try_catch, storage_file_exists, read_storage_file, cache_fresh,
    get_cache, bind, ret. simpl.
  destruct (file s) as [| |d] eqn:Hf; simpl; rewrite ?Hf; simpl.
  - exists s. rewrite Hf. repeat split; auto. reflexivity.
  - eexists (mkState _ _ _ _ _). split; [reflexivity |]. simpl.
    repeat split; auto.
    + exists [empty_storage]. reflexivity.
    + apply deref_fresh.
    + intros _. rewrite length_app. simpl. lia.
  - eexists (mkState _ _ _ _ _). split; [reflexivity |]. simpl.
    repeat split; auto.
    + exists [d]. reflexivity.
    + apply deref_fresh.
    + intros _. rewrite length_app. simpl. lia.
Qed.

(** [getSession] resolves the cookie in the visible storage. *)
Lemma getSession_spec request s :
  exists s1,
    getSession request s = (Ok (session_of request s), s1)
    /\ memory_only s s1
    /\ heap_grows s s1
    /\ current s1 = loaded_view s
    /\ loaded_view s1 = loaded_view s
    /\ (cache_alive s -> cache_alive s1).
Proof.
  destruct (loadStorage_spec s) as (s1 & Hload & Hmem & Hgrow & Hcur & Hview & Halive).
  exists s1. unfold getSession, session_of.
  rewrite (bind_ok _ _ _ _ _ Hload).
  refine (conj _ (conj Hmem (conj Hgrow (conj Hcur (conj Hview Halive))))).
  destruct (session_cookie request) as [sid|]; [| reflexivity].
  destruct (truthy sid); [| reflexivity].
  unfold bind, read, peek, ret. fold (current s1).
  rewrite Hcur, (proj1 Hmem). reflexivity.
Qed.

(** [getTokens] gives the token set of the session's user, read from the
    storage object loaded first. *)
Lemma getTokens_spec request s :
  cache_alive s ->
  exists s2,
    getTokens request s = (Ok (tokens_of request s), s2)
    /\ memory_only s s2
    /\ heap_grows s s2
    /\ current s2 = loaded_view s
    /\ loaded_view s2 = loaded_view s
    /\ cache_alive s2.
Proof.
  intros Halive.
  destruct (loadStorage_spec s) as (s1 & Hload & Hmem & Hgrow & Hcur & Hview & Ha1).
  destruct (getSession_spec request s1) as (s2 & Hsess & Hmem2 & Hgrow2 & Hcur2 & Hview2 & Ha2).
  exists s2. unfold getTokens, tokens_of.
  rewrite (bind_ok _ _ _ _ _ Hload), (bind_ok _ _ _ _ _ Hsess).
  assert (Hso : session_of request s1 = session_of request s)
    by (unfold session_of; rewrite Hview, (proj1 Hmem); reflexivity).
  rewrite Hso. split.
  - destruct (session_of request s) as [sess|]; [| reflexivity].
    unfold bind, read, peek, ret. simpl.
    rewrite (deref_grows _ _ _ Hgrow2 (Ha1 Halive)).
    fold (current s1). rewrite Hcur, (proj1 Hmem2), (proj1 Hmem). reflexivity.
  - split; [etransitivity; eassumption |].
    split; [etransitivity; eassumption |].
    split; [congruence |]. split; [congruence | auto].
Qed.

End StorageFacts.

Section CommitFacts.
Context `{Outside}.

#[global] Instance same_memory_refl : Reflexive same_memory.
Proof. intros s. repeat split. Qed.
#[global] Instance same_memory_trans : Transitive same_memory.
Proof.
  unfold same_memory. intros a b c (? & ? & ?) (? & ? & ?).
  repeat split; congruence.
Qed.

Lemma same_memory_call {A} (f : world -> Res A * world) : preserves same_memory (call f).
Proof. intros s r s' E. apply outside_only_call in E. unfold same_memory. tauto. Qed.
Lemma same_memory_call_ f : preserves same_memory (call_ f).
Proof. apply same_memory_call. Qed.
Lemma same_memory_ask {A} (f : world -> A * world) : preserves same_memory (ask f).
Proof. apply same_memory_call. Qed.
Hint Resolve same_memory_call same_memory_call_ same_memory_ask : frames.

Lemma same_memory_mongo {A} (f : Db -> A * Db) : preserves same_memory (mongo f).
Proof.
  unfold mongo. frame.
  intros s0 r0 s1 E. destruct (f (db s0)) as [x d].
  apply pair_eq in E. destruct E as [_ <-]. repeat split.
Qed.
Hint Resolve same_memory_mongo : frames.

Lemma same_memory_getDb : preserves same_memory getDb.
Proof. unfold getDb. frame. Qed.
Hint Resolve same_memory_getDb : frames.

Lemma same_memory_find_or_create g e : preserves same_memory (find_or_create_profile g e).
Proof.
  unfold find_or_create_profile, profiles_findOne, profiles_insertOne. frame.
Qed.

Lemma deref_same_memory r s s' : same_memory s s' -> deref r s' = deref r s.
Proof. intros (E & _). unfold deref. rewrite E. reflexivity. Qed.

(** [saveStorage] of an object that is alive. *)
Lemma saveStorage_spec r s :
  exists s',
    saveStorage r s = (Ok tt, s')
    /\ heap s' = heap s
    /\ db s' = db s
    /\ (production = true -> s' = s)
    /\ (production = false ->
        storageCache s' = r
        /\ (file s' = Stored (deref r s) \/ file s' = file s)
        /\ (disk_writable -> file s' = Stored (deref r s))).
Proof.
  unfold saveStorage. destruct production eqn:Hprod.
  { exists s. unfold ret. repeat split; auto; discriminate. }
  unfold try_catch, set_cache, read, write_storage_file, call_, call, bind, ret.
  simpl.
  destruct (fs_writeFileSync STORAGE_FILE
              (JSON_stringify
                 (deref r (mkState (ext s) (db s) (heap s) r (file s)))) (ext s))
    as [[e|] w] eqn:Hw; simpl.
  - eexists (mkState _ _ _ _ _). split; [reflexivity |]. simpl.
    repeat split; auto; try discriminate.
    intros Hdisk. specialize (Hdisk STORAGE_FILE
      (JSON_stringify (deref r (mkState (ext s) (db s) (heap s) r (file s)))) (ext s)).
    rewrite Hw in Hdisk. discriminate.
  - eexists (mkState _ _ _ _ _). split; [reflexivity |]. simpl.
    repeat split; auto; try discriminate.
Qed.

(** An in-place update of the loaded storage object followed by
    [saveStorage]: the cache holds the updated object; with a disk that
    takes the write, so does the next load. *)
Lemma commit_spec r f s :
  (r < length (heap s))%nat ->
  (production = true \/ file s = NoFile -> r = storageCache s) ->
  exists s0 s',
    mutate r f s = (Ok tt, s0)
    /\ saveStorage r s0 = (Ok tt, s')
    /\ current s' = f (deref r s)
    /\ cache_alive s'
    /\ db s' = db s
    /\ (production = true \/ file s = NoFile \/ disk_writable ->
        loaded_view s' = current s').
Proof.
  intros Hr Hcache.
  set (s1 := mkState (ext s) (db s) (<[r := f (deref r s)]> (heap s))
                     (storageCache s) (file s)).
  assert (Hmut : mutate r f s = (Ok tt, s1)) by reflexivity.
  assert (Hd1 : deref r s1 = f (deref r s)) by (apply deref_mutated; exact Hr).
  destruct (saveStorage_spec r s1) as (s' & Hsave & Hheap & Hdb & Hprod & Hdev).
  exists s1, s'. split; [exact Hmut |]. split; [exact Hsave |].
  unfold cache_alive, loaded_view, current.
  destruct production eqn:Hp.
  - rewrite (Hprod eq_refl). rewrite (Hcache (or_introl eq_refl)) in *.
    repeat split; auto.
    subst s1. simpl. rewrite length_insert. exact Hr.
  - destruct (Hdev eq_refl) as (Hc & Hfile & Hdisk). rewrite Hc.
    assert (Hd' : deref r s' = f (deref r s)).
    { rewrite <- Hd1. unfold deref. rewrite Hheap. reflexivity. }
    rewrite Hd'. split; [reflexivity |].
    split; [rewrite Hheap; subst s1; simpl; rewrite length_insert; exact Hr |].
    split; [rewrite Hdb; reflexivity |].
    intros [Habs | [Hnf | Hw]]; [discriminate | |].
    + destruct Hfile as [-> | ->]; [rewrite Hd1; reflexivity |].
      subst s1. simpl. rewrite Hnf. reflexivity.
    + rewrite (Hdisk Hw), Hd1. reflexivity.
Qed.

End CommitFacts.

Section OAuthFacts.
Context `{Outside}.

Lemma or_else_truthy v : truthy v = true -> or_else (Some v) None = Some v.
Proof. intros Hv. unfold or_else. simpl. rewrite Hv. reflexivity. Qed.

Lemma authGoogleCallback_success :
  forall (request : Request) (s : State) (code state : string)
         (sess : Session) (t : Tokens) (w : world),
    cache_alive s ->
    searchParams request !! "code" = Some code -> truthy code = true ->
    searchParams request !! "state" = Some state -> truthy state = true ->
    sessions (loaded_view s) !! state = Some sess ->
    getToken code (ext s) = (Ok t, w) ->
    exists s' : State,
      authGoogleCallback request s
      = (Ok (mkResponse 200
               (Html "Auth Success"
                  "Your account is connected. This window will close automatically.")
               KeepCookie), s')
      /\ current s' = put_tokens (userId sess) t (loaded_view s)
      /\ cache_alive s'
      /\ db s' = db s
      /\ (production = true \/ file s = NoFile \/ disk_writable ->
          loaded_view s' = current s').
Proof.
  intros request s code state sess t w Halive Hcode Hc Hstate Hs Hsess Htok.
  destruct (loadStorage_spec s)
    as (s1 & Hload & (Hext & Hdb & Hfile) & Hgrow & Hcur & Hview & Ha1).
  specialize (Ha1 Halive).
  set (s2 := mkState w (db s1) (heap s1) (storageCache s1) (file s1)).
  assert (Hcall : call (getToken code) s1 = (Ok t, s2)).
  { unfold call. rewrite Hext, Htok. reflexivity. }
  destruct (commit_spec (storageCache s1) (put_tokens (userId sess) t) s2)
    as (s3 & s' & Hmut & Hsave & Hcur' & Ha' & Hdb' & Hview').
  { exact Ha1. }
  { reflexivity. }
  exists s'. unfold authGoogleCallback.
  rewrite (bind_ok _ _ _ _ _ Hload). unfold try_catch.
  rewrite Hcode, Hstate, (or_else_truthy _ Hc), (or_else_truthy _ Hs).
  unfold bind at 1, read. fold (current s1). rewrite Hcur.
  unfold bind at 1, peek, sessions_get. rewrite Hsess. cbv beta iota.
  change (user_key (Own sess)) with (userId sess).
  rewrite (bind_ok _ _ _ _ _ Hcall), (bind_ok _ _ _ _ _ Hmut).
  rewrite (bind_ok _ _ _ _ _ Hsave).
  split; [reflexivity |].
  assert (Hd2 : deref (storageCache s1) s2 = loaded_view s).
  { rewrite <- Hcur. reflexivity. }
  rewrite Hd2 in Hcur'.
  split; [exact Hcur' |]. split; [exact Ha' |].
  split; [rewrite Hdb'; exact Hdb |].
  intros Hok. apply Hview'. subst s2. simpl. rewrite Hfile. exact Hok.
Qed.

(** X11. A callback whose [state] names a session and whose code the
    provider exchanges answers with the success page and leaves the token
    set under that session's user, every other entry of the visible
    storage being kept; the document store is not touched, and with a
    disk that takes the write (or in production, or without a storage
    file) the next load sees the same storage. *)
Theorem authGoogleCallback_stores_tokens :
  forall (request : Request) (s : State) (code state : string)
         (sess : Session) (t : Tokens) (w : world),
    cache_alive s ->
    searchParams request !! "code" = Some code -> truthy code = true ->
    searchParams request !! "state" = Some state -> truthy state = true ->
    sessions (loaded_view s) !! state = Some sess ->
    getToken code (ext s) = (Ok t, w) ->
    exists s' : State,
      authGoogleCallback request s
      = (Ok (mkResponse 200
               (Html "Auth Success"
                  "Your account is connected. This window will close automatically.")
               KeepCookie), s')
      /\ current s' = put_tokens (userId sess) t (loaded_view s)
      /\ cache_alive s'
      /\ db s' = db s
      /\ (production = true \/ file s = NoFile \/ disk_writable ->
          loaded_view s' = current s').
Proof. exact authGoogleCallback_success. Qed.

(** X12. Consent round trip: after such a callback, a request that carries
    the session handle as its cookie is handed the tokens the provider
    issued. *)
Theorem authGoogleCallback_then_getTokens :
  forall (request : Request) (s : State) (code state : string)
         (sess : Session) (t : Tokens) (w : world) (later : Request),
    cache_alive s ->
    production = true \/ file s = NoFile \/ disk_writable ->
    searchParams request !! "code" = Some code -> truthy code = true ->
    searchParams request !! "state" = Some state -> truthy state = true ->
    sessions (loaded_view s) !! state = Some sess ->
    getToken code (ext s) = (Ok t, w) ->
    session_cookie later = Some state ->
    exists (resp : Response) (s' s'' : State),
      authGoogleCallback request s = (Ok resp, s')
      /\ status resp = 200
      /\ getTokens later s' = (Ok (Some t), s'').
Proof.
  intros request s code state sess t w later Halive Hdisk Hcode Hc Hstate Hs
    Hsess Htok Hlater.
  destruct (authGoogleCallback_success request s code state sess t w
              Halive Hcode Hc Hstate Hs Hsess Htok)
    as (s' & Hrun & Hcur & Ha' & _ & Hview).
  specialize (Hview Hdisk).
  destruct (getTokens_spec later s' Ha') as (s'' & Hget & _).
  eexists _, s', s''. split; [exact Hrun |]. split; [reflexivity |].
  rewrite Hget. f_equal. f_equal.
  unfold tokens_of, session_of, sessions_get, tokens_get.
  rewrite Hlater, Hs, Hview, Hcur. simpl.
  rewrite Hsess. simpl. rewrite lookup_insert_eq. reflexivity.
Qed.

End OAuthFacts.

Section SignInFacts.
Context `{Outside}.

Lemma ask_runs {A} (f : world -> A * world) s :
  exists s', ask f s = (Ok (fst (f (ext s))), s') /\ same_memory s s' /\ db s' = db s.
Proof.
  unfold ask, call. destruct (f (ext s)) as [a w]. simpl.
  eexists (mkState _ _ _ _ _). split; [reflexivity |]. repeat split.
Qed.

Lemma getDb_runs s :
  store_reachable ->
  exists s', getDb s = (Ok tt, s') /\ same_memory s s' /\ db s' = db s.
Proof.
  intros Hup. unfold getDb, call_, call. specialize (Hup (ext s)).
  destruct (mongo_call (ext s)) as [o w]. simpl in Hup. subst o. simpl.
  eexists (mkState _ _ _ _ _). split; [reflexivity |]. repeat split.
Qed.

(** The profile found or created carries the identity, under the uuid
    returned. *)
Lemma find_or_create_profile_member g e s p s' :
  find_or_create_profile g e s = (Ok p, s') ->
  exists q, In q (profiles (db s'))
            /\ p_google_id q = Some g /\ p_uuid q = p_uuid p.
Proof.
  intros Hrun. apply find_or_create_profile_run in Hrun.
  destruct (List.find (by_google_id g) (profiles (db s))) as [p0|] eqn:Hfind.
  - destruct Hrun as [-> Hp]. rewrite (Hp p eq_refl).
    apply find_some in Hfind. destruct Hfind as [Hin Hg].
    exists p0. split; [exact Hin |]. split; [| reflexivity].
    unfold by_google_id in Hg. destruct (p_google_id p0) as [g0|]; [| discriminate].
    apply String.eqb_eq in Hg. congruence.
  - destruct Hrun as [[_ Hno] | (u & -> & Hp)]; [destruct (Hno p eq_refl) |].
    exists (mkProfile u (Some g) None e None). simpl.
    split; [apply in_or_app; right; left; reflexivity |].
    split; [reflexivity |]. symmetry. apply Hp. reflexivity.
Qed.

Lemma authGoogle_success body s cred uid payload w :
  cache_alive s ->
  store_reachable ->
  credential body = Some cred -> truthy cred = true ->
  verifyIdToken cred (ext s) = (Ok payload, w) ->
  sub payload = Some uid -> truthy uid = true ->
  exists (sessionId : string) (p : ProfileDoc) (s' : State),
    authGoogle (Some body) s
    = (Ok (mkResponse 200 (JsonAuthUrl (generateAuthUrl sessionId))
             (SetCookie sessionId)), s')
    /\ current s'
       = put_session sessionId
           (mkSession uid
              (default "" (or_else (credential_email body) (ticket_email payload)))
              (Some (p_uuid p)))
           (loaded_view s)
    /\ cache_alive s'
    /\ (exists q, In q (profiles (db s'))
                  /\ p_google_id q = Some uid /\ p_uuid q = p_uuid p)
    /\ (production = true \/ file s = NoFile \/ disk_writable ->
        loaded_view s' = current s')
    /\ (exists w0, sessionId = fst (new_session_id w0)).
Proof.
  intros Halive Hup Hcred Hc Hverify Hsub Hu.
  destruct (loadStorage_spec s)
    as (s1 & Hload & (Hext & Hdb & Hfile) & Hgrow & Hcur & Hview & Ha1).
  specialize (Ha1 Halive).
  set (s2 := mkState w (db s1) (heap s1) (storageCache s1) (file s1)).
  assert (Hcall : call (verifyIdToken cred) s1 = (Ok payload, s2)).
  { unfold call. rewrite Hext, Hverify. reflexivity. }
  destruct (getDb_runs s2 Hup) as (s3 & Hdb3 & Hm3 & _).
  set (userEmail := default "" (or_else (credential_email body) (ticket_email payload))).
  destruct (find_or_create_profile_returns uid userEmail Hup s3) as (p & s4 & Hfind).
  pose proof (same_memory_find_or_create _ _ _ _ _ Hfind) as Hm4.
  destruct (ask_runs new_session_id s4) as (s5 & Hsid & Hm5 & Hdb5).
  set (sid := fst (new_session_id (ext s4))) in *.
  assert (Hmem : same_memory s2 s5).
  { etransitivity; [exact Hm3 |]. etransitivity; [exact Hm4 | exact Hm5]. }
  destruct Hmem as (Hheap & Hcache & Hfile5).
  destruct (commit_spec (storageCache s1)
              (put_session sid (mkSession uid userEmail (Some (p_uuid p)))) s5)
    as (s6 & s' & Hmut & Hsave & Hcur' & Ha' & Hdb' & Hview').
  { rewrite Hheap. exact Ha1. }
  { intros _. rewrite Hcache. reflexivity. }
  exists sid, p, s'. unfold authGoogle.
  rewrite (bind_ok _ _ _ _ _ Hload). unfold try_catch.
  unfold bind at 1. unfold request_json, ret at 1.
  rewrite Hcred, (or_else_truthy _ Hc).
  rewrite (bind_ok _ _ _ _ _ Hcall), Hsub, (or_else_truthy _ Hu).
  rewrite (bind_ok _ _ _ _ _ Hdb3). fold userEmail.
  rewrite (bind_ok _ _ _ _ _ Hfind), (bind_ok _ _ _ _ _ Hsid).
  rewrite (bind_ok _ _ _ _ _ Hmut), (bind_ok _ _ _ _ _ Hsave).
  split; [reflexivity |].
  assert (Hd5 : deref (storageCache s1) s5 = loaded_view s).
  { rewrite <- Hcur. unfold current, deref. rewrite Hheap. reflexivity. }
  rewrite Hd5 in Hcur'.
  split; [exact Hcur' |]. split; [exact Ha' |]. split.
  - rewrite Hdb', Hdb5. eapply find_or_create_profile_member. exact Hfind.
  - split; [| exists (ext s4); reflexivity].
    intros Hok. apply Hview'. rewrite Hfile5. subst s2. simpl. rewrite Hfile.
    exact Hok.
Qed.

End SignInFacts.

Section SignInTheorems.
Context `{Outside}.

(** X9. Sign-in binds three things to one session handle: the cookie it sets,
    the [state] of the consent url it hands out, and the key of the
    session it stores, whose user is the verified subject and whose
    profile is one of that identity in the store. *)
Theorem authGoogle_binds_session :
  forall (body : Credential) (s : State) (cred uid : string)
         (payload : TicketPayload) (w : world),
    cache_alive s ->
    store_reachable ->
    credential body = Some cred -> truthy cred = true ->
    verifyIdToken cred (ext s) = (Ok payload, w) ->
    sub payload = Some uid -> truthy uid = true ->
    exists (sessionId : string) (p : ProfileDoc) (s' : State),
      authGoogle (Some body) s
      = (Ok (mkResponse 200 (JsonAuthUrl (generateAuthUrl sessionId))
               (SetCookie sessionId)), s')
      /\ current s'
         = put_session sessionId
             (mkSession uid
                (default "" (or_else (credential_email body) (ticket_email payload)))
                (Some (p_uuid p)))
             (loaded_view s)
      /\ cache_alive s'
      /\ (exists q, In q (profiles (db s'))
                    /\ p_google_id q = Some uid /\ p_uuid q = p_uuid p)
      /\ (production = true \/ file s = NoFile \/ disk_writable ->
          loaded_view s' = current s')
      /\ (exists w0, sessionId = fst (new_session_id w0)).
Proof. exact authGoogle_success. Qed.

(** X13. The whole sign-in: identity verified, consent callback received with
    the handle as [state], and a later request with the handle as cookie
    is handed the tokens the provider issued for the code. *)
Theorem sign_in_round_trip :
  forall (body : Credential) (s : State) (cred uid : string)
         (payload : TicketPayload) (w : world) (code : string) (t : Tokens),
    cache_alive s ->
    store_reachable ->
    production = true \/ disk_writable ->
    (forall w0, truthy (fst (new_session_id w0)) = true) ->
    credential body = Some cred -> truthy cred = true ->
    verifyIdToken cred (ext s) = (Ok payload, w) ->
    sub payload = Some uid -> truthy uid = true ->
    truthy code = true ->
    (forall w0, exists w1, getToken code w0 = (Ok t, w1)) ->
    exists (sessionId : string) (s1 : State),
      (exists authUrl,
         authGoogle (Some body) s
         = (Ok (mkResponse 200 (JsonAuthUrl authUrl) (SetCookie sessionId)), s1))
      /\ forall callback : Request,
           searchParams callback !! "code" = Some code ->
           searchParams callback !! "state" = Some sessionId ->
           exists (page : Response) (s2 : State),
             authGoogleCallback callback s1 = (Ok page, s2)
             /\ status page = 200
             /\ forall later : Request,
                  session_cookie later = Some sessionId ->
                  exists s3, getTokens later s2 = (Ok (Some t), s3).
Proof.
  intros body s cred uid payload w code t Halive Hup Hdisk Hsid Hcred Hc
    Hverify Hsub Hu Hcode Hprov.
  assert (Hdisk' : forall f, production = true \/ f = NoFile \/ disk_writable)
    by (intros f; destruct Hdisk; auto).
  destruct (authGoogle_success body s cred uid payload w Halive Hup Hcred Hc
              Hverify Hsub Hu)
    as (sid & p & s1 & Hrun & Hcur & Ha1 & _ & Hview & w0 & Hw0).
  specialize (Hview (Hdisk' _)).
  assert (Htruthy : truthy sid = true) by (rewrite Hw0; apply Hsid).
  exists sid, s1. split; [eexists; exact Hrun |].
  intros callback Hpc Hps.
  set (sess := mkSession uid
                 (default "" (or_else (credential_email body) (ticket_email payload)))
                 (Some (p_uuid p))).
  assert (Hsess : sessions (loaded_view s1) !! sid = Some sess).
  { rewrite Hview, Hcur. simpl. apply lookup_insert_eq. }
  destruct (Hprov (ext s1)) as (w1 & Htok).
  destruct (authGoogleCallback_success callback s1 code sid sess t w1
              Ha1 Hpc Hcode Hps Htruthy Hsess Htok)
    as (s2 & Hcb & Hcur2 & Ha2 & _ & Hview2).
  specialize (Hview2 (Hdisk' _)).
  eexists _, s2. split; [exact Hcb |]. split; [reflexivity |].
  intros later Hlater.
  destruct (getTokens_spec later s2 Ha2) as (s3 & Hget & _).
  exists s3. rewrite Hget. f_equal. f_equal.
  unfold tokens_of, session_of, sessions_get, tokens_get.
  rewrite Hlater, Htruthy, Hview2, Hcur2. simpl.
  rewrite Hsess. simpl. rewrite lookup_insert_eq. reflexivity.
Qed.

End SignInTheorems.

Section SignInFailures.
Context `{Outside}.

Lemma current_same_memory s s' : same_memory s s' -> current s' = current s.
Proof.
  intros (Hh & Hc & _). unfold current, deref. rewrite Hh, Hc. reflexivity.
Qed.

(** X10. Sign-in stores a session only when it answers 200: with a missing
    or refused credential, an unreachable database or any other failure,
    the storage a handler sees and the storage file are as before. *)
Theorem authGoogle_stores_only_on_success :
  forall (body : option Credential) (s : State) (resp : Response) (s' : State),
    authGoogle body s = (Ok resp, s') ->
    status resp <> 200 ->
    current s' = loaded_view s /\ file s' = file s.
Proof.
  intros body s resp s' Hrun Hst.
  destruct (loadStorage_spec s)
    as (s1 & Hload & (Hext & Hdb & Hfile) & Hgrow & Hcur & Hview & Ha1).
  assert (Hend : forall s2, same_memory s1 s2 ->
                   current s2 = loaded_view s /\ file s2 = file s).
  { intros s2 Hm. rewrite (current_same_memory _ _ Hm), Hcur.
    destruct Hm as (_ & _ & ->). auto. }
  revert Hrun. unfold authGoogle.
  rewrite (bind_ok _ _ _ _ _ Hload). unfold try_catch.
  destruct body as [b|]; unfold bind at 1; unfold request_json, ret at 1;
    [| unfold throw, ret; intros E; apply pair_eq in E; destruct E as [_ <-];
       apply Hend; reflexivity].
  destruct (or_else (credential b) None) as [cred|];
    [| unfold ret; intros E; apply pair_eq in E; destruct E as [_ <-];
       apply Hend; reflexivity].
  unfold bind at 1.
  destruct (call (verifyIdToken cred) s1) as [[pl|e] s2] eqn:E2;
    pose proof (same_memory_call _ _ _ _ E2) as Hm2;
    [| unfold ret; intros E; apply pair_eq in E; destruct E as [_ <-];
       apply Hend; exact Hm2].
  destruct (or_else (sub pl) None) as [uid|];
    [| unfold ret; intros E; apply pair_eq in E; destruct E as [_ <-];
       apply Hend; exact Hm2].
  unfold bind at 1.
  destruct (getDb s2) as [[[]|e] s3] eqn:E3;
    pose proof (same_memory_getDb _ _ _ E3) as Hm3;
    [| unfold ret; intros E; apply pair_eq in E; destruct E as [_ <-];
       apply Hend; etransitivity; eassumption].
  unfold bind at 1.
  destruct (find_or_create_profile _ _ s3) as [[p|e] s4] eqn:E4;
    pose proof (same_memory_find_or_create _ _ _ _ _ E4) as Hm4;
    [| unfold ret; intros E; apply pair_eq in E; destruct E as [_ <-];
       apply Hend; etransitivity; [eassumption |]; etransitivity; eassumption].
  destruct (ask_runs new_session_id s4) as (s5 & E5 & _).
  rewrite (bind_ok _ _ _ _ _ E5).
  unfold bind at 1, mutate. unfold bind at 1.
  match goal with |- context [saveStorage ?r ?st] =>
    destruct (saveStorage_spec r st) as (s6 & -> & _) end.
  unfold ret. intros E. apply pair_eq in E. destruct E as [E _].
  injection E as <-. simpl in Hst. congruence.
Qed.

End SignInFailures.

Section GateFacts.
Context `{Outside}.

Lemma memory_only_trans3 a b c : memory_only a b -> memory_only b c -> memory_only a c.
Proof. intros ? ?. etransitivity; eassumption. Qed.

(** X4. Without a token set for the session of the request (no cookie, a
    cookie under which the session store reads nothing, own or
    inherited, or a session under whose user id the token store reads
    nothing) [GET /api/emails] answers 401 "Not authenticated" and has
    called neither the mailbox nor the database nor written the storage
    file. *)
Theorem getEmails_requires_tokens :
  forall (request : Request) (s : State),
    cache_alive s ->
    tokens_of request s = None ->
    exists s' : State,
      getEmails request s
      = (Ok (json 401 (JsonError "Not authenticated" None)), s')
      /\ memory_only s s'.
Proof.
  intros request s Halive Hnone.
  destruct (getTokens_spec request s Halive)
    as (s1 & Hget & Hm1 & _ & _ & Hview1 & Ha1).
  destruct (getSession_spec request s1) as (s2 & Hsess & Hm2 & _).
  exists s2. split; [| etransitivity; eassumption].
  unfold getEmails, try_catch.
  rewrite (bind_ok _ _ _ _ _ Hget), (bind_ok _ _ _ _ _ Hsess), Hnone.
  reflexivity.
Qed.

(** X14. [GET /api/auth/status] for a request under whose cookie the
    session store reads nothing, or reads a value that already has a
    truthy [profile_uuid] (a session entry, or a value inherited from
    [Object.prototype]): it reports [isAuthenticated] exactly when the
    token store reads something under the value's user id, with the
    value's email and profile uuid, and calls nothing outside the
    process. A value without a profile uuid, a builtin of the platform
    among them, is outside this statement: for it the handler goes to the
    database. *)
Theorem authStatus_reports_tokens :
  forall (request : Request) (s : State),
    (forall v, session_of request s = Some v ->
               truthy_opt (profile_uuid_of v (ext s)) = true) ->
    exists s' : State,
      authStatus request s
      = (Ok (json 200
               (JsonStatus
                  (bool_decide (is_Some (tokens_of request s)))
                  (session_of request s ≫= fun v => or_else (email_of v) None)
                  (session_of request s
                     ≫= fun v => or_else (profile_uuid_of v (ext s)) None))),
         s')
      /\ memory_only s s'.
Proof.
  intros request s Hprofile.
  destruct (getSession_spec request s) as (s1 & Hsess & Hm1 & _ & Hcur & _).
  exists s1. split; [| exact Hm1].
  unfold authStatus. rewrite (bind_ok _ _ _ _ _ Hsess).
  unfold bind at 1, get_cache. unfold tokens_of.
  pose proof Hprofile as Hp.
  unfold session_of in Hp |- *.
  destruct (session_cookie request) as [sid|] eqn:Hcookie;
    [| simpl; reflexivity].
  destruct (truthy sid); [| simpl; reflexivity].
  destruct (sessions_get (loaded_view s) sid (ext s)) as [v|] eqn:Hso;
    [| simpl; reflexivity].
  specialize (Hp v eq_refl). simpl.
  unfold bind at 1, peek at 1. rewrite (proj1 Hm1), Hp. simpl.
  unfold bind at 1, ret at 1.
  unfold profile_uuid_now. rewrite Hcookie.
  unfold bind, read, peek, ret. fold (current s1).
  rewrite Hcur, (proj1 Hm1), Hso. simpl. reflexivity.
Qed.

End GateFacts.

Section MarkReadFacts.
Context `{Outside}.
Variable gmail_modify : string -> world -> option Err * world.

(** X16. [POST /api/emails/[id]/read] never throws and never writes the
    document store; without a token set for the session it answers 401
    and the mailbox is not called; with one, it answers 200 when the
    mailbox accepts the change and 500 when it throws. *)
Theorem markEmailAsRead_gate :
  forall (request : Request) (id : string) (s : State),
    cache_alive s ->
    exists (resp : Response) (s' : State),
      markEmailAsRead gmail_modify request id s = (Ok resp, s')
      /\ db s' = db s
      /\ (tokens_of request s = None ->
          resp = json 401 (JsonError "Not authenticated" None) /\ ext s' = ext s)
      /\ (forall t, tokens_of request s = Some t ->
          match fst (gmail_modify id (ext s)) with
          | None => resp = json 200 JsonSuccess
          | Some _ => resp = json 500 (JsonError "Failed to mark email as read" None)
          end).
Proof.
  intros request id s Halive.
  destruct (getTokens_spec request s Halive)
    as (s1 & Hget & (Hext & Hdb & Hfile) & _).
  unfold markEmailAsRead, try_catch. rewrite (bind_ok _ _ _ _ _ Hget).
  destruct (tokens_of request s) as [t|].
  - unfold bind, call_, call. rewrite Hext.
    destruct (gmail_modify id (ext s)) as [[e|] w]; simpl.
    + eexists _, _. split; [reflexivity |]. simpl.
      split; [exact Hdb |]. split; [discriminate |]. intros t0 _. reflexivity.
    + eexists _, _. split; [reflexivity |]. simpl.
      split; [exact Hdb |]. split; [discriminate |]. intros t0 _. reflexivity.
  - eexists _, s1. split; [reflexivity |].
    split; [exact Hdb |]. split; [auto | discriminate].
Qed.

End MarkReadFacts.

Section ScanFacts.
Context `{Outside}.

Lemma by_uuid_add_scanned id m p : by_uuid id (add_scanned m p) = by_uuid id p.
Proof. reflexivity. Qed.

Lemma scanned_has_add m p : scanned_has m (add_scanned m p) = true.
Proof.
  unfold scanned_has, add_scanned. simpl.
  destruct (includes m (default [] (p_scanned p))) eqn:E; [exact E |].
  apply includes_In, in_or_app. right. left. reflexivity.
Qed.

Lemma add_scanned_twice m p : add_scanned m (add_scanned m p) = add_scanned m p.
Proof.
  unfold add_scanned at 1. simpl.
  pose proof (scanned_has_add m p) as E. unfold scanned_has in E. simpl in E.
  rewrite E. reflexivity.
Qed.

Lemma update_first_twice {A} (q : A -> bool) f l :
  (forall x, q (f x) = q x) -> (forall x, f (f x) = f x) ->
  update_first q f (update_first q f l) = update_first q f l.
Proof.
  intros Hq Hf. induction l as [|x l IH]; simpl; [reflexivity |].
  destruct (q x) eqn:E; simpl.
  - rewrite Hq, E, Hf. reflexivity.
  - rewrite E, IH. reflexivity.
Qed.

Lemma find_update_first {A} (q : A -> bool) f l x :
  (forall y, q (f y) = q y) ->
  List.find q l = Some x -> List.find q (update_first q f l) = Some (f x).
Proof.
  intros Hq. induction l as [|y l IH]; simpl; [discriminate |].
  destruct (q y) eqn:E; simpl.
  - intros [= <-]. rewrite Hq, E. reflexivity.
  - rewrite E. exact IH.
Qed.

Lemma In_update_first {A} (q : A -> bool) f l x :
  In x (update_first q f l) -> In x l \/ exists y, In y l /\ q y = true /\ x = f y.
Proof.
  induction l as [|y l IH]; simpl; [tauto |].
  destruct (q y) eqn:E; simpl.
  - intros [<- | Hx]; [right; exists y; auto | auto].
  - intros [<- | Hx]; [auto |]. destruct (IH Hx) as [? | (z & ? & ? & ?)]; [auto |].
    right. exists z. auto.
Qed.

Lemma find_some_existsb {A} (q : A -> bool) l x :
  List.find q l = Some x -> existsb q l = true.
Proof.
  intros F. destruct (existsb q l) eqn:E; [reflexivity |].
  apply find_none_existsb in E. congruence.
Qed.

Lemma existsb_find {A} (q : A -> bool) l :
  existsb q l = true -> exists x, List.find q l = Some x.
Proof.
  intros E. destruct (List.find q l) as [x|] eqn:F; [eauto |].
  apply find_none_existsb in F. congruence.
Qed.

Lemma scans_resolve_scanned pu m d :
  existsb (mail_by_uuid m) (mails d) = true ->
  scans_resolve d -> scans_resolve (scanned_db pu m d).
Proof.
  intros Hm Hd p x Hp Hx. simpl in *.
  destruct (In_update_first _ _ _ _ Hp) as [Hin | (y & Hy & _ & ->)];
    [exact (Hd p x Hin Hx) |].
  unfold add_scanned in Hx. simpl in Hx.
  destruct (includes m (default [] (p_scanned y))); [exact (Hd y x Hy Hx) |].
  apply in_app_or in Hx. destruct Hx as [Hx | [<- | []]]; [exact (Hd y x Hy Hx) |].
  apply existsb_exists in Hm. destruct Hm as (mail & Hin & E).
  exists mail. split; [exact Hin | apply String.eqb_eq; exact E].
Qed.

(** Every run of [POST /api/scan]: it answers, and the store is as
    before or holds the scan of an existing mail by an existing profile;
    the answer is 200 only in the second case, with the profile as it now
    is. *)
Lemma scan_POST_run body s :
  exists resp s',
    scan_POST body s = (Ok resp, s')
    /\ (db s' = db s /\ rest_status resp <> 200
        \/ exists pu m p,
             body = Some (mkRawScan (Some pu) (Some m))
             /\ List.find (by_uuid pu) (profiles (db s)) = Some p
             /\ existsb (mail_by_uuid m) (mails (db s)) = true
             /\ db s' = scanned_db pu m (db s)
             /\ (rest_status resp = 200 \/ rest_status resp = 500)
             /\ (rest_status resp = 200 ->
                 rest_body resp = RScanned (Some (add_scanned m p))))
    /\ (store_reachable ->
        forall pu m, body = Some (mkRawScan (Some pu) (Some m)) ->
        is_uuid pu = true -> is_uuid m = true ->
        existsb (by_uuid pu) (profiles (db s)) = true ->
        existsb (mail_by_uuid m) (mails (db s)) = true ->
        rest_status resp = 200).
Proof.
  assert (Hreach : forall w e w', mongo_call w = (Some e, w') -> ~ store_reachable).
  { intros w e w' E R. specialize (R w). rewrite E in R. discriminate. }
  unfold scan_POST, request_json, ScanSchema_parse, profiles_updateOne.
  destruct body as [[pu m]|]; open_handler;
    [| eexists _, _; split; [reflexivity |]; split;
       [left; split; [reflexivity | discriminate] | intros _ ? ? [=]]].
  destruct pu as [pu|]; [destruct m as [m|] |]; simpl;
    try (eexists _, _; split; [reflexivity |]; split;
         [left; split; [reflexivity | discriminate] | intros _ ? ? [=]]).
  destruct (is_uuid pu && is_uuid m) eqn:Hid; simpl.
  2:{ eexists _, _. split; [reflexivity |]. split;
        [left; split; [reflexivity | discriminate] |].
      intros _ ? ? [= <- <-] Hp Hm. rewrite Hp, Hm in Hid. discriminate. }
  driver.
  { eexists _, _. split; [reflexivity |]. split;
      [left; split; [reflexivity | discriminate] |].
    intros R. destruct (Hreach _ _ _ E R). }
  driver.
  { eexists _, _. split; [reflexivity |]. split;
      [left; split; [reflexivity | discriminate] |].
    intros R. destruct (Hreach _ _ _ E0 R). }
  driver.
  { eexists _, _. split; [reflexivity |]. split;
      [left; split; [reflexivity | discriminate] |].
    intros R. destruct (Hreach _ _ _ E1 R). }
  destruct (List.find (by_uuid pu) (profiles (db s))) as [p|] eqn:Hp; simpl.
  2:{ eexists _, _. split; [reflexivity |]. split;
        [left; split; [reflexivity | discriminate] |].
      intros _ ? ? [= <- <-] _ _ X _. apply find_none_existsb in Hp. congruence. }
  destruct (List.find (mail_by_uuid m) (mails (db s))) as [mail|] eqn:Hm; simpl.
  2:{ eexists _, _. split; [reflexivity |]. split;
        [left; split; [reflexivity | discriminate] |].
      intros _ ? ? [= <- <-] _ _ _ X. apply find_none_existsb in Hm. congruence. }
  pose proof (find_some_existsb _ _ _ Hm) as Hmx.
  assert (Hpx : count_one (by_uuid pu) (profiles (db s)) = 1).
  { unfold count_one. rewrite (find_some_existsb _ _ _ Hp). reflexivity. }
  driver.
  { eexists _, _. split; [reflexivity |]. split;
      [left; split; [reflexivity | discriminate] |].
    intros R. destruct (Hreach _ _ _ E2 R). }
  rewrite Hpx. simpl.
  driver.
  { eexists _, _. split; [reflexivity |]. split.
    - right. exists pu, m, p. repeat split; auto. discriminate.
    - intros R. destruct (Hreach _ _ _ E3 R). }
  eexists _, _. split; [reflexivity |]. simpl. split.
  - right. exists pu, m, p. repeat split; auto.
    intros _. rewrite (find_update_first _ _ _ p (by_uuid_add_scanned pu m) Hp).
    reflexivity.
  - intros _ ? ? _ _ _ _ _. reflexivity.
Qed.

End ScanFacts.

Section ScanTheorems.
Context `{Outside}.

(** X26. [POST /api/scan] records a mail in a profile's [scanned] array only
    when both exist: it never writes [mails], it keeps every [scanned]
    entry resolving to a mail, and a 200 answer carries the profile with
    the mail's uuid in its array. *)
Theorem scan_POST_links_existing_only :
  forall (body : option RawScan) (s : State),
  exists (resp : RestResponse) (s' : State),
    scan_POST body s = (Ok resp, s')
    /\ mails (db s') = mails (db s)
    /\ (scans_resolve (db s) -> scans_resolve (db s'))
    /\ (rest_status resp = 200 ->
        exists pu m p,
          body = Some (mkRawScan (Some pu) (Some m))
          /\ rest_body resp = RScanned (Some p)
          /\ p_uuid p = pu
          /\ scanned_has m p = true
          /\ existsb (mail_by_uuid m) (mails (db s)) = true).
Proof.
  intros body s.
  destruct (scan_POST_run body s) as (resp & s' & Hrun & Hcases & _).
  exists resp, s'. split; [exact Hrun |].
  destruct Hcases as [[Hdb Hst] | (pu & m & p & Hb & Hp & Hm & Hdb & Hst & Hbody)].
  - rewrite Hdb. repeat split; auto. intros X. congruence.
  - rewrite Hdb. split; [reflexivity |].
    split; [apply scans_resolve_scanned; exact Hm |].
    intros X. exists pu, m, (add_scanned m p).
    split; [exact Hb |]. split; [exact (Hbody X) |].
    split; [apply find_some in Hp; apply String.eqb_eq; tauto |].
    split; [apply scanned_has_add | exact Hm].
Qed.

(** X27. Scanning is idempotent: a second scan of the same mail by the same
    profile leaves the store as the first one left it. *)
Theorem scan_POST_is_idempotent :
  forall (body : option RawScan) (s s1 s2 : State) (r1 r2 : RestResponse),
    scan_POST body s = (Ok r1, s1) ->
    rest_status r1 = 200 ->
    scan_POST body s1 = (Ok r2, s2) ->
    db s2 = db s1.
Proof.
  intros body s s1 s2 r1 r2 H1 Hst H2.
  destruct (scan_POST_run body s) as (ra & sa & Ha & Hca & _).
  destruct (scan_POST_run body s1) as (rb & sb & Hb & Hcb & _).
  rewrite H1 in Ha. rewrite H2 in Hb.
  apply pair_eq in Ha, Hb. destruct Ha as [Ha <-]. destruct Hb as [Hb <-].
  injection Ha as <-. injection Hb as <-.
  destruct Hca as [[_ X] | (pu & m & p & Hbody & _ & _ & Hdb1 & _)]; [congruence |].
  destruct Hcb as [[Hdb2 _] | (pu' & m' & p' & Hbody' & _ & _ & Hdb2 & _)];
    [exact Hdb2 |].
  rewrite Hbody in Hbody'. injection Hbody' as <- <-.
  rewrite Hdb2, Hdb1. unfold scanned_db. simpl. f_equal.
  apply update_first_twice; [reflexivity | apply add_scanned_twice].
Qed.

End ScanTheorems.

Section MailFacts.
Context `{Outside}.

Lemma length_update_first {A} (q : A -> bool) f l :
  length (update_first q f l) = length l.
Proof.
  induction l as [|x l IH]; simpl; [reflexivity |].
  destruct (q x); simpl; congruence.
Qed.

Lemma update_first_absent {A} (q : A -> bool) f l :
  existsb q l = false -> update_first q f l = l.
Proof.
  induction l as [|x l IH]; simpl; [reflexivity |].
  destruct (q x); simpl; [discriminate |]. intros E. f_equal. auto.
Qed.

Lemma count_one_zero {A} (q : A -> bool) l :
  (count_one q l =? 0) = negb (existsb q l).
Proof. unfold count_one. destruct (existsb q l); reflexivity. Qed.

Lemma owned_updated id raw d :
  r_user_uuid raw = None -> owned d ->
  owned (mkDb (profiles d) (update_first (mail_by_uuid id) (set_fields raw) (mails d))).
Proof.
  intros Hraw Hd m Hm. simpl in *.
  destruct (In_update_first _ _ _ _ Hm) as [Hin | (y & Hy & _ & ->)];
    [exact (Hd m Hin) |].
  unfold set_fields. simpl. rewrite Hraw. simpl. exact (Hd y Hy).
Qed.

(** Every run of [PUT /api/mails/[id]]. *)
Lemma mails_id_PUT_run id body s :
  exists resp s',
    mails_id_PUT id body s = (Ok resp, s')
    /\ (db s' = db s /\ status resp <> 200
        \/ exists raw,
             body = Some raw
             /\ MailSchema_ok true raw = true
             /\ db s' = mkDb (profiles (db s))
                          (update_first (mail_by_uuid id) (set_fields raw) (mails (db s)))
             /\ (existsb (mail_by_uuid id) (mails (db s)) = true
                 -> status resp = 200 \/ status resp = 500)
             /\ (existsb (mail_by_uuid id) (mails (db s)) = false -> status resp = 404)).
Proof.
  unfold mails_id_PUT, request_json, MailSchema_parse.
  destruct body as [raw|]; open_handler;
    [| eexists _, _; split; [reflexivity |]; left; split; [reflexivity | discriminate]].
  destruct (MailSchema_ok true raw) eqn:Hok; simpl;
    [| eexists _, _; split; [reflexivity |]; left; split; [reflexivity | discriminate]].
  driver.
  { eexists _, _. split; [reflexivity |]. left. split; [reflexivity | discriminate]. }
  driver.
  { eexists _, _. split; [reflexivity |]. left. split; [reflexivity | discriminate]. }
  rewrite count_one_zero.
  destruct (existsb (mail_by_uuid id) (mails (db s))) eqn:Hex; simpl.
  2:{ eexists _, _. split; [reflexivity |]. right. exists raw. simpl.
      repeat split; auto; discriminate. }
  driver.
  { eexists _, _. split; [reflexivity |]. right. exists raw. simpl.
    repeat split; auto; discriminate. }
  eexists _, _. split; [reflexivity |]. right. exists raw. simpl.
  repeat split; auto; discriminate.
Qed.

End MailFacts.

Section MailFacts2.
Context `{Outside}.

Lemma db_eta (d : Db) : mkDb (profiles d) (mails d) = d.
Proof. destruct d; reflexivity. Qed.

(** Every run of [POST /api/mails]. *)
Lemma mails_POST_run body s :
  exists resp s',
    mails_POST body s = (Ok resp, s')
    /\ (db s' = db s /\ status resp <> 201
        \/ exists raw u,
             body = Some raw
             /\ MailSchema_ok false raw = true
             /\ existsb (by_uuid (default "" (r_user_uuid raw))) (profiles (db s)) = true
             /\ (forall u0, r_uuid raw = Some u0 -> truthy u0 = true -> u = u0)
             /\ resp = json 201 (JsonMail (mail_record u raw))
             /\ db s' = mkDb (profiles (db s)) (mails (db s) ++ [mail_record u raw]))
    /\ (store_reachable ->
        forall raw, body = Some raw -> MailSchema_ok false raw = true ->
        existsb (by_uuid (default "" (r_user_uuid raw))) (profiles (db s)) = true ->
        status resp = 201).
Proof.
  assert (Hreach : forall w e w', mongo_call w = (Some e, w') -> ~ store_reachable).
  { intros w e w' E R. specialize (R w). rewrite E in R. discriminate. }
  unfold mails_POST, request_json, MailSchema_parse.
  destruct body as [raw|]; open_handler;
    [| eexists _, _; split; [reflexivity |]; split;
       [left; split; [reflexivity | discriminate] | intros _ ? [=]]].
  destruct (MailSchema_ok false raw) eqn:Hok; simpl.
  2:{ eexists _, _. split; [reflexivity |]. split;
        [left; split; [reflexivity | discriminate] |].
      intros _ ? [= <-] X. congruence. }
  set (fresh := match r_uuid raw with
                | Some u => if truthy u then _ else _
                | None => _
                end).
  assert (Hfresh : exists u w,
             fresh s = (Ok u, mkState w (db s) (heap s) (storageCache s) (file s))
             /\ forall u0, r_uuid raw = Some u0 -> truthy u0 = true -> u = u0).
  { subst fresh. destruct (r_uuid raw) as [u0|]; [destruct (truthy u0) eqn:T|].
    - exists u0, (ext s). split; [destruct s; reflexivity |]. intros ? [= <-] _. reflexivity.
    - unfold call. destruct (randomUUID (ext s)) as [a w']. simpl.
      eexists _, _. split; [reflexivity |]. intros ? [= <-] X. congruence.
    - unfold call. destruct (randomUUID (ext s)) as [a w']. simpl.
      eexists _, _. split; [reflexivity |]. intros ? [=]. }
  destruct Hfresh as (u & w & Hfresh & Hu). rewrite Hfresh. simpl.
  driver.
  { eexists _, _. split; [reflexivity |]. split;
      [left; split; [reflexivity | discriminate] |].
    intros R. destruct (Hreach _ _ _ E R). }
  driver.
  { eexists _, _. split; [reflexivity |]. split;
      [left; split; [reflexivity | discriminate] |].
    intros R. destruct (Hreach _ _ _ E0 R). }
  destruct (List.find (by_uuid (default "" (r_user_uuid raw))) (profiles (db s)))
    as [p|] eqn:Hfind; simpl.
  2:{ eexists _, _. split; [reflexivity |]. split;
        [left; split; [reflexivity | discriminate] |].
      intros _ ? [= <-] _ X. apply find_none_existsb in Hfind. congruence. }
  pose proof (find_some_existsb _ _ _ Hfind) as Hex.
  driver.
  { eexists _, _. split; [reflexivity |]. split;
      [left; split; [reflexivity | discriminate] |].
    intros R. destruct (Hreach _ _ _ E1 R). }
  eexists _, _. split; [reflexivity |]. simpl. split.
  - right. exists raw, u. repeat split; auto.
  - intros _ ? _ _ _. reflexivity.
Qed.

End MailFacts2.

(** Steps through the driver calls of a handler when the database
    answers. *)
Ltac reach Hup :=
  match goal with
  | |- context [mongo_call ?w] =>
      let E := fresh "E" in
      let o := fresh "o" in
      pose proof (Hup w) as E;
      destruct (mongo_call w) as [o ?]; simpl in E; subst o; simpl
  end.

Section MailRoundTrips.
Context `{Outside}.

Lemma find_app_hit {A} (q : A -> bool) l x :
  q x = true -> List.find q (l ++ [x]) = Some (default x (List.find q l)).
Proof.
  intros Hx. induction l as [|y l IH]; simpl; [rewrite Hx; reflexivity |].
  destruct (q y); [reflexivity | exact IH].
Qed.

Lemma delete_first_last {A} (q : A -> bool) l x :
  existsb q l = false -> q x = true -> delete_first q (l ++ [x]) = l.
Proof.
  intros Hl Hx. induction l as [|y l IH]; simpl in *; [rewrite Hx; reflexivity |].
  destruct (q y); simpl in *; [discriminate |]. f_equal. auto.
Qed.

Lemma purged_unreferenced id d :
  scans_resolve d -> existsb (mail_by_uuid id) (mails d) = false ->
  purged id (profiles d) = profiles d.
Proof.
  intros Hd Hid. unfold purged. rewrite <- (map_id (profiles d)) at 2.
  apply map_ext_in. intros p Hp.
  destruct (scanned_has id p) eqn:E; [| reflexivity].
  unfold scanned_has in E. apply includes_In in E.
  destruct (Hd p id Hp E) as (m & Hm & Hu).
  assert (X : existsb (mail_by_uuid id) (mails d) = true).
  { apply existsb_exists. exists m. split; [exact Hm |].
    unfold mail_by_uuid. apply String.eqb_eq. exact Hu. }
  congruence.
Qed.

Lemma mails_id_GET_reachable id s :
  store_reachable ->
  exists s',
    mails_id_GET id s
    = (Ok (match List.find (mail_by_uuid id) (mails (db s)) with
           | Some m => mkRest 200 (RMail (Some m))
           | None => mkRest 404 (RError "Mail not found")
           end), s')
    /\ db s' = db s.
Proof.
  intros Hup. unfold mails_id_GET. open_handler.
  reach Hup. reach Hup.
  destruct (List.find _ _); simpl; eexists; split; reflexivity.
Qed.

Lemma mails_GET_reachable s :
  store_reachable ->
  exists s',
    mails_GET s = (Ok (mkRest 200 (RMails (mails (db s)))), s') /\ db s' = db s.
Proof.
  intros Hup. unfold mails_GET, mails_find_all. open_handler.
  reach Hup. reach Hup. eexists; split; reflexivity.
Qed.

Lemma mails_id_DELETE_reachable id s :
  store_reachable ->
  existsb (mail_by_uuid id) (mails (db s)) = true ->
  exists s',
    mails_id_DELETE id s = (Ok (json 200 (JsonMessage "Mail deleted")), s')
    /\ db s' = mkDb (purged id (profiles (db s)))
                    (delete_first (mail_by_uuid id) (mails (db s))).
Proof.
  intros Hup Hex. unfold mails_id_DELETE. open_handler.
  reach Hup. reach Hup.
  destruct (existsb_find _ _ Hex) as (m & ->). simpl.
  reach Hup. reach Hup. eexists; split; reflexivity.
Qed.

(** C10. [DELETE /api/mails/[id]]: when no mail has that uuid the answer
    is 404 (500 if the database call throws) and neither collection
    changes; otherwise the uuid is first pulled from the [scanned] array
    of every profile and only then is the mail deleted, so that the store
    is left untouched, or purged, or purged and deleted, and never holds a
    [scanned] entry for a mail this request removed. When the database
    answers every call and a mail has that uuid, the request is answered
    200 "Mail deleted", no profile lists the uuid any more and the first
    mail with that uuid is gone, the other mails staying as they were. *)
Theorem mails_id_DELETE_purges_then_deletes :
  forall (id : string) (s : State),
  exists (resp : Response) (s' : State),
    mails_id_DELETE id s = (Ok resp, s')
    /\ (existsb (mail_by_uuid id) (mails (db s)) = false ->
        db s' = db s
        /\ (status resp = 404 \/ status resp = 500)
        /\ (store_reachable -> status resp = 404))
    /\ (status resp = 404 ->
        existsb (mail_by_uuid id) (mails (db s)) = false /\ db s' = db s)
    /\ (db s' = db s
        \/ db s' = mkDb (purged id (profiles (db s))) (mails (db s))
        \/ db s' = mkDb (purged id (profiles (db s)))
                        (delete_first (mail_by_uuid id) (mails (db s))))
    /\ (status resp = 200 ->
        db s' = mkDb (purged id (profiles (db s)))
                     (delete_first (mail_by_uuid id) (mails (db s))))
    /\ (mails (db s') <> mails (db s) ->
        forall p, In p (profiles (db s')) -> scanned_has id p = false)
    /\ (scans_resolve (db s) -> scans_resolve (db s'))
    /\ (store_reachable ->
        existsb (mail_by_uuid id) (mails (db s)) = true ->
        resp = json 200 (JsonMessage "Mail deleted")
        /\ db s' = mkDb (purged id (profiles (db s)))
                        (delete_first (mail_by_uuid id) (mails (db s)))
        /\ existsb (scanned_has id) (profiles (db s')) = false
        /\ length (mails (db s')) = pred (length (mails (db s)))).
Proof.
  intros id s.
  destruct (mails_id_DELETE_run id s)
    as (resp & s' & Hrun & Hmiss & H404 & Hcases & H200 & Hclean & Hres).
  exists resp, s'.
  refine (conj Hrun (conj Hmiss (conj H404 (conj Hcases
            (conj H200 (conj Hclean (conj Hres _))))))).
  intros Hup Hex.
  destruct (mails_id_DELETE_reachable id s Hup Hex) as (s2 & H2 & Hdb2).
  rewrite Hrun in H2. apply pair_eq in H2. destruct H2 as [Hr <-].
  injection Hr as ->. split; [reflexivity |]. split; [exact Hdb2 |].
  rewrite Hdb2. simpl. split.
  - apply existsb_purged.
  - apply length_delete_first. exact Hex.
Qed.

(** What a 201 answer of [POST /api/mails] says of the store. *)
Lemma mails_POST_created body s m s1 :
  mails_POST body s = (Ok (json 201 (JsonMail m)), s1) ->
  db s1 = mkDb (profiles (db s)) (mails (db s) ++ [m])
  /\ existsb (by_uuid (m_user_uuid m)) (profiles (db s)) = true.
Proof.
  intros Hrun.
  destruct (mails_POST_run body s) as (resp & s' & Hrun' & Hcases & _).
  rewrite Hrun in Hrun'. apply pair_eq in Hrun'. destruct Hrun' as [Hr <-].
  injection Hr as <-.
  destruct Hcases as [[_ X] | (raw & u & _ & _ & Hex & _ & Hresp & Hdb)];
    [exfalso; apply X; reflexivity |].
  injection Hresp as ->. split; [exact Hdb | exact Hex].
Qed.

End MailRoundTrips.

Section MailTheorems.
Context `{Outside}.

(** X22. [PUT /api/mails/[id]] rewrites at most one record, one whose uuid
    was [id]: the profiles and the number of mails stay as they are,
    nothing changes when no mail has that uuid, and a body without
    [user_uuid] keeps every mail owned. The store afterwards is either
    the store before (and the answer is not 200), or the store before
    with the fields of the validated body set on the first mail whose
    uuid is [id] and on no other; then the answer is 200 or 500 when
    there is such a mail and 404 when there is none. *)
Theorem mails_id_PUT_rewrites_one_record :
  forall (id : string) (body : option RawMail) (s : State),
  exists (resp : Response) (s' : State),
    mails_id_PUT id body s = (Ok resp, s')
    /\ profiles (db s') = profiles (db s)
    /\ length (mails (db s')) = length (mails (db s))
    /\ (existsb (mail_by_uuid id) (mails (db s)) = false ->
        db s' = db s /\ status resp <> 200)
    /\ (forall m', In m' (mails (db s')) ->
        In m' (mails (db s))
        \/ exists raw m,
             body = Some raw /\ In m (mails (db s)) /\ m_uuid m = id
             /\ m' = set_fields raw m)
    /\ (owned (db s) ->
        (forall raw, body = Some raw -> r_user_uuid raw = None) ->
        owned (db s'))
    /\ (db s' = db s /\ status resp <> 200
        \/ exists raw,
             body = Some raw
             /\ MailSchema_ok true raw = true
             /\ db s' = mkDb (profiles (db s))
                          (update_first (mail_by_uuid id) (set_fields raw)
                             (mails (db s)))
             /\ (existsb (mail_by_uuid id) (mails (db s)) = true
                 -> status resp = 200 \/ status resp = 500)
             /\ (existsb (mail_by_uuid id) (mails (db s)) = false
                 -> status resp = 404)).
Proof.
  intros id body s.
  destruct (mails_id_PUT_run id body s) as (resp & s' & Hrun & Hcases).
  exists resp, s'. split; [exact Hrun |].
  cut ((profiles (db s') = profiles (db s)
        /\ length (mails (db s')) = length (mails (db s))
        /\ (existsb (mail_by_uuid id) (mails (db s)) = false ->
            db s' = db s /\ status resp <> 200)
        /\ (forall m', In m' (mails (db s')) ->
            In m' (mails (db s))
            \/ exists raw m,
                 body = Some raw /\ In m (mails (db s)) /\ m_uuid m = id
                 /\ m' = set_fields raw m)
        /\ (owned (db s) ->
            (forall raw, body = Some raw -> r_user_uuid raw = None) ->
            owned (db s')))).
  { intros (A & B & C & D & E). repeat (split; [assumption |]). exact Hcases. }
  destruct Hcases as [[Hdb Hst] | (raw & Hb & Hok & Hdb & Hhit & Hmiss)].
  - rewrite Hdb. repeat split; auto.
  - rewrite Hdb. simpl. split; [reflexivity |].
    split; [apply length_update_first |].
    split.
    { intros Hex. rewrite (update_first_absent _ _ _ Hex), db_eta.
      split; [reflexivity |]. rewrite (Hmiss Hex). discriminate. }
    split.
    { intros m' Hm'.
      destruct (In_update_first _ _ _ _ Hm') as [Hin | (y & Hy & Hq & ->)];
        [left; exact Hin |].
      right. exists raw, y. repeat split; auto.
      apply String.eqb_eq. exact Hq. }
    intros Hd Hraw. apply owned_updated; [apply Hraw; exact Hb | exact Hd].
Qed.

(** X19. [POST /api/mails] with a valid body whose [user_uuid] is the uuid of
    a profile answers 201 and appends exactly one record, under the
    submitted uuid when there is one; whether a mail with that uuid is
    already stored is not looked at. *)
Theorem mails_POST_appends_one_record :
  forall (raw : RawMail) (s : State),
    store_reachable ->
    MailSchema_ok false raw = true ->
    existsb (by_uuid (default "" (r_user_uuid raw))) (profiles (db s)) = true ->
    exists (u : string) (s' : State),
      mails_POST (Some raw) s = (Ok (json 201 (JsonMail (mail_record u raw))), s')
      /\ db s' = mkDb (profiles (db s)) (mails (db s) ++ [mail_record u raw])
      /\ (forall u0, r_uuid raw = Some u0 -> truthy u0 = true -> u = u0).
Proof.
  intros raw s Hup Hok Hex.
  destruct (mails_POST_run (Some raw) s) as (resp & s' & Hrun & Hcases & Hst).
  specialize (Hst Hup raw eq_refl Hok Hex).
  destruct Hcases as [[_ X] | (raw' & u & Hb & _ & _ & Hu & Hresp & Hdb)];
    [congruence |].
  injection Hb as <-. subst resp. exists u, s'. auto.
Qed.

(** X20. A mail that was created can be read back: [GET /api/mails] lists it
    after the mails stored before, and [GET /api/mails/[id]] under its
    uuid answers with it, unless an older mail carries the same uuid, in
    which case the older one is the answer. *)
Theorem mails_POST_then_GET :
  forall (body : option RawMail) (s s1 : State) (m : MailDoc),
    store_reachable ->
    mails_POST body s = (Ok (json 201 (JsonMail m)), s1) ->
    exists (s2 s3 : State),
      mails_GET s1 = (Ok (mkRest 200 (RMails (mails (db s) ++ [m]))), s2)
      /\ mails_id_GET (m_uuid m) s1
         = (Ok (mkRest 200
                  (RMail (Some (default m
                     (List.find (mail_by_uuid (m_uuid m)) (mails (db s))))))), s3).
Proof.
  intros body s s1 m Hup Hrun.
  destruct (mails_POST_created _ _ _ _ Hrun) as [Hdb _].
  destruct (mails_GET_reachable s1 Hup) as (s2 & H2 & _).
  destruct (mails_id_GET_reachable (m_uuid m) s1 Hup) as (s3 & H3 & _).
  exists s2, s3. rewrite H2, H3, Hdb. simpl.
  rewrite find_app_hit by apply String.eqb_refl. split; reflexivity.
Qed.

(** X21. Creating a mail under a uuid no stored mail carries and deleting it
    again gives back the store as it was, when every [scanned] entry
    resolved to a mail. *)
Theorem mails_POST_then_DELETE :
  forall (body : option RawMail) (s s1 : State) (m : MailDoc),
    store_reachable ->
    scans_resolve (db s) ->
    existsb (mail_by_uuid (m_uuid m)) (mails (db s)) = false ->
    mails_POST body s = (Ok (json 201 (JsonMail m)), s1) ->
    exists s2 : State,
      mails_id_DELETE (m_uuid m) s1 = (Ok (json 200 (JsonMessage "Mail deleted")), s2)
      /\ db s2 = db s.
Proof.
  intros body s s1 m Hup Hres Hfresh Hrun.
  destruct (mails_POST_created _ _ _ _ Hrun) as [Hdb _].
  assert (Hself : mail_by_uuid (m_uuid m) m = true) by apply String.eqb_refl.
  destruct (mails_id_DELETE_reachable (m_uuid m) s1 Hup) as (s2 & H2 & Hdb2).
  { rewrite Hdb. simpl. rewrite existsb_app. simpl. rewrite Hself.
    apply orb_true_iff. right. reflexivity. }
  exists s2. split; [exact H2 |].
  rewrite Hdb2, Hdb. simpl.
  rewrite (delete_first_last _ _ _ Hfresh Hself), (purged_unreferenced _ _ Hres Hfresh).
  apply db_eta.
Qed.

End MailTheorems.

Section ProfileRestFacts.
Context `{Outside}.
Variable is_email : string -> bool.

Lemma map_update_first {A B} (g : A -> B) (q : A -> bool) f l :
  (forall x, g (f x) = g x) -> map g (update_first q f l) = map g l.
Proof.
  intros Hg. induction l as [|x l IH]; simpl; [reflexivity |].
  destruct (q x); simpl; [rewrite Hg | rewrite IH]; reflexivity.
Qed.

Lemma with_identity_app g ps ms p :
  p_google_id p = None ->
  with_identity g (mkDb (ps ++ [p]) ms) = with_identity g (mkDb ps ms).
Proof.
  intros Hp. unfold with_identity. simpl. rewrite List.filter_app. simpl.
  unfold by_google_id at 2. rewrite Hp. apply app_nil_r.
Qed.

(** X24. [POST /api/profiles] creates profiles that carry no external
    identity: the profiles of every identity stay as they are, and no
    mail is written; a 201 answer carries the one profile appended, whose
    [scanned] array is set. *)
Theorem profiles_POST_creates_unlinked_profile :
  forall (body : option RawProfile) (s : State),
  exists (resp : RestResponse) (s' : State),
    profiles_POST is_email body s = (Ok resp, s')
    /\ mails (db s') = mails (db s)
    /\ (forall g, with_identity g (db s') = with_identity g (db s))
    /\ (db s' = db s /\ rest_status resp <> 201
        \/ exists p raw,
             body = Some raw
             /\ resp = mkRest 201 (RProfile (Some p))
             /\ profiles (db s') = (profiles (db s) ++ [p])%list
             /\ p_google_id p = None
             /\ p_scanned p = Some (default [] (rp_scanned raw))
             /\ (forall u, rp_uuid raw = Some u -> truthy u = true -> p_uuid p = u)).
Proof.
  intros body s.
  unfold profiles_POST, request_json, ProfileSchema_parse.
  destruct body as [raw|]; open_handler;
    [| eexists _, _; split; [reflexivity |]; simpl; repeat split; auto].
  destruct (ProfileSchema_ok is_email false raw) eqn:Hok; simpl;
    [| eexists _, _; split; [reflexivity |]; simpl; repeat split; auto].
  set (fresh := match rp_uuid raw with
                | Some u => if truthy u then _ else _
                | None => _
                end).
  assert (Hfresh : exists u w,
             fresh s = (Ok u, mkState w (db s) (heap s) (storageCache s) (file s))
             /\ forall u0, rp_uuid raw = Some u0 -> truthy u0 = true -> u = u0).
  { subst fresh. destruct (rp_uuid raw) as [u0|]; [destruct (truthy u0) eqn:T|].
    - exists u0, (ext s). split; [destruct s; reflexivity |]. intros ? [= <-] _. reflexivity.
    - unfold call. destruct (randomUUID (ext s)) as [a w']. simpl.
      eexists _, _. split; [reflexivity |]. intros ? [= <-] X. congruence.
    - unfold call. destruct (randomUUID (ext s)) as [a w']. simpl.
      eexists _, _. split; [reflexivity |]. intros ? [=]. }
  destruct Hfresh as (u & w & Hfresh & Hu). rewrite Hfresh. simpl.
  driver.
  { eexists _, _. split; [reflexivity |]. simpl. repeat split; auto. }
  driver.
  { eexists _, _. split; [reflexivity |]. simpl. repeat split; auto. }
  eexists _, _. split; [reflexivity |]. simpl.
  split; [reflexivity |].
  split; [intros g; rewrite <- (db_eta (db s)) at 2; apply with_identity_app; reflexivity |].
  right. eexists _, raw. repeat split; auto.
Qed.

(** X25. [PUT /api/profiles/[id]] never touches the external identity of a
    profile nor any mail: the identities of the stored profiles, in
    order, are as before, and so is the store when no profile has that
    uuid; a body without [uuid] keeps the uuids too. *)
Theorem profiles_id_PUT_keeps_identities :
  forall (id : string) (body : option RawProfile) (s : State),
  exists (resp : RestResponse) (s' : State),
    profiles_id_PUT is_email id body s = (Ok resp, s')
    /\ mails (db s') = mails (db s)
    /\ map p_google_id (profiles (db s')) = map p_google_id (profiles (db s))
    /\ (existsb (by_uuid id) (profiles (db s)) = false ->
        db s' = db s /\ rest_status resp <> 200)
    /\ ((forall raw, body = Some raw -> rp_uuid raw = None) ->
        map p_uuid (profiles (db s')) = map p_uuid (profiles (db s))).
Proof.
  intros id body s.
  unfold profiles_id_PUT, request_json, ProfileSchema_parse, profiles_updateOne.
  destruct body as [raw|]; open_handler;
    [| eexists _, _; split; [reflexivity |]; simpl; repeat split; auto; discriminate].
  driver.
  { eexists _, _. split; [reflexivity |]. simpl. repeat split; auto; discriminate. }
  destruct (ProfileSchema_ok is_email true raw) eqn:Hok; simpl;
    [| eexists _, _; split; [reflexivity |]; simpl; repeat split; auto; discriminate].
  driver.
  { eexists _, _. split; [reflexivity |]. simpl. repeat split; auto; discriminate. }
  rewrite count_one_zero.
  assert (Hid : map p_google_id
                  (update_first (by_uuid id) (set_profile_fields raw) (profiles (db s)))
                = map p_google_id (profiles (db s)))
    by (apply map_update_first; reflexivity).
  assert (Huu : (forall raw0, Some raw = Some raw0 -> rp_uuid raw0 = None) ->
                map p_uuid
                  (update_first (by_uuid id) (set_profile_fields raw) (profiles (db s)))
                = map p_uuid (profiles (db s))).
  { intros Hraw. apply map_update_first. intros x. unfold set_profile_fields. simpl.
    rewrite (Hraw raw eq_refl). reflexivity. }
  destruct (existsb (by_uuid id) (profiles (db s))) eqn:Hex; simpl.
  2:{ eexists _, _. split; [reflexivity |]. simpl.
      rewrite (update_first_absent _ _ _ Hex), db_eta.
      repeat split; auto; discriminate. }
  driver.
  { eexists _, _. split; [reflexivity |]. simpl. repeat split; auto; discriminate. }
  eexists _, _. split; [reflexivity |]. simpl. repeat split; auto; discriminate.
Qed.

End ProfileRestFacts.

Section AttachmentFacts.
Context `{Outside}.






End AttachmentFacts.

Section StorageRoundTrip.
Context `{Outside}.

(** X8. What [saveStorage] is given is what the next [loadStorage] hands
    out, in production (where the caller holds the cached object),
    without a storage file, and whenever the disk takes the write; a
    write that fails is swallowed, and the next [loadStorage] then hands
    out the content of the file as it was. *)
Theorem saveStorage_then_loadStorage :
  forall (r : nat) (s : State),
    (production = true -> r = storageCache s) ->
    exists (s1 s2 : State) (r' : nat),
      saveStorage r s = (Ok tt, s1)
      /\ loadStorage s1 = (Ok r', s2)
      /\ (production = true \/ file s = NoFile \/ disk_writable ->
          deref r' s2 = deref r s)
      /\ (forall d, production = false -> file s = Stored d ->
          deref r' s2 = deref r s \/ deref r' s2 = d).
Proof.
  intros r s Hprod.
  destruct (saveStorage_spec r s) as (s1 & Hsave & Hheap & _ & Hp & Hd).
  destruct (loadStorage_spec s1) as (s2 & Hload & _ & _ & Hcur & _).
  exists s1, s2, (storageCache s2). split; [exact Hsave |]. split; [exact Hload |].
  fold (current s2). rewrite Hcur. unfold loaded_view, current.
  assert (Hderef : forall x, deref x s1 = deref x s)
    by (intros x; unfold deref; rewrite Hheap; reflexivity).
  destruct production eqn:P.
  - rewrite (Hp eq_refl), <- (Hprod eq_refl). split; [reflexivity |]. intros d [=].
  - destruct (Hd eq_refl) as (Hr & Hfile & Hdisk). rewrite Hr, Hderef. split.
    + intros [X | [X | X]]; [discriminate | |].
      * destruct Hfile as [-> | ->]; [reflexivity | rewrite X; reflexivity].
      * rewrite (Hdisk X). reflexivity.
    + intros d _ Hs. destruct Hfile as [-> | ->]; [left; reflexivity |].
      rewrite Hs. right. reflexivity.
Qed.

End StorageRoundTrip.

Section EmptyBodies.
Context `{Outside}.

Lemma child_data_none q : carries_data q = false -> child_data (Some q) = None.
Proof.
  destruct q as [m f h [b|] ps]; simpl; [| reflexivity].
  intros E. apply orb_false_elim in E. destruct E as [E _]. rewrite E. reflexivity.
Qed.

Lemma root_data_none q : carries_data q = false -> root_data (body_of q) = None.
Proof.
  destruct q as [m f h [[n d a]|] ps]; simpl; [| reflexivity].
  intros E. apply orb_false_elim in E. destruct E as [E _].
  destruct n as [n|]; [| reflexivity]. destruct d as [d|]; [| reflexivity].
  simpl in E. rewrite E, andb_false_r. reflexivity.
Qed.

Lemma found_child_data_none (q : MimePart -> bool) l :
  existsb carries_data l = false -> child_data (List.find q l) = None.
Proof.
  intros E. destruct (List.find q l) as [x|] eqn:F; [| reflexivity].
  apply find_some in F. destruct F as [Hin _].
  apply child_data_none. destruct (carries_data x) eqn:C; [| reflexivity].
  assert (X : existsb carries_data l = true)
    by (apply existsb_exists; exists x; auto).
  congruence.
Qed.

(** X6. A message in which no part carries body data has an empty body, for
    the page ([getEmailBody]) and for the classifier
    ([extractEmailBody]). *)
Theorem bodies_empty_without_data :
  forall p : MimePart,
    carries_data p = false ->
    getEmailBody p = "" /\ extractEmailBody p = "".
Proof.
  induction p as [m f h b | m f h b ps IH] using MimePart_nested_ind; intros Hp.
  - pose proof (root_data_none _ Hp) as R. pose proof (child_data_none _ Hp) as C.
    simpl in R. split.
    + rewrite getEmailBody_unfold, R. reflexivity.
    + simpl in *. rewrite C. reflexivity.
  - pose proof (root_data_none _ Hp) as R. pose proof (child_data_none _ Hp) as C.
    simpl in R.
    assert (Hps : existsb carries_data ps = false).
    { simpl in Hp. apply orb_false_elim in Hp. tauto. }
    split.
    + rewrite getEmailBody_unfold, R, !found_child_data_none by exact Hps.
      clear Hp R C. induction IH as [|q rest Hq _ IHr]; simpl; [reflexivity |].
      simpl in Hps. apply orb_false_elim in Hps. destruct Hps as [Hq' Hrest].
      destruct (Hq Hq') as [-> _]. simpl. exact (IHr Hrest).
    + simpl in C. simpl. rewrite C, !found_child_data_none by exact Hps.
      clear Hp R C. induction IH as [|q rest Hq _ IHr]; simpl; [reflexivity |].
      simpl in Hps. apply orb_false_elim in Hps. destruct Hps as [Hq' Hrest].
      destruct (Hq Hq') as [_ E]. rewrite E. simpl.
      rewrite (IHr Hrest). destruct (parts_of q); reflexivity.
Qed.

End EmptyBodies.

Section VerdictFacts.
Context `{Outside}.

Lemma returns_and_produces {A} (P : A -> Prop) (m : M A) :
  returns m -> produces P m -> forall s, exists a s', m s = (Ok a, s') /\ P a.
Proof.
  intros Hr Hp s. destruct (Hr s) as (a & s' & E).
  exists a, s'. split; [exact E | exact (Hp _ _ _ E)].
Qed.

Lemma call_ok {A} (f : world -> Res A * world) s a w :
  f (ext s) = (Ok a, w) ->
  call f s = (Ok a, mkState w (db s) (heap s) (storageCache s) (file s)).
Proof. intros E. unfold call. rewrite E. reflexivity. Qed.

(** The route hands the verdict of the classifier on, with status 200,
    whatever becomes of the save. *)
Lemma verify_invoice_verdict request vq s r w v :
  truthy_opt (vq_subject vq) || truthy_opt (vq_body vq) = true ->
  classifier_fetch
    (mkClassify (default "" (vq_subject vq)) (default "" (vq_body vq))
       (or_else (vq_attachment_filename vq) None)) (ext s) = (Ok r, w) ->
  ok_status (reply_status r) = true ->
  reply_json r = Some v ->
  exists resp s',
    verify_invoice_POST request (Some vq) s = (Ok resp, s')
    /\ status resp = 200 /\ verdict_of resp = Some v.
Proof.
  intros Hask Hfetch Hok Hjson. unfold verify_invoice_POST.
  match goal with |- context [try_catch ?m ?h s] =>
    cut (exists resp s', m s = (Ok resp, s')
                         /\ status resp = 200 /\ verdict_of resp = Some v);
      [intros (resp & s' & E & HP); exists resp, s';
       split; [apply try_ok; exact E | exact HP] |]
  end.
  unfold request_json at 1. unfold bind at 1, ret at 1.
  assert (Hc : negb (truthy_opt (vq_subject vq)) && negb (truthy_opt (vq_body vq)) = false).
  { rewrite <- negb_orb, Hask. reflexivity. }
  rewrite Hc. rewrite (bind_ok _ _ _ _ _ (call_ok _ _ _ _ Hfetch)).
  rewrite Hok. simpl negb. cbv iota. rewrite Hjson.
  unfold request_json. unfold bind at 1, ret at 1.
  apply (returns_and_produces
           (fun resp => status resp = 200 /\ verdict_of resp = Some v)).
  - destruct (vq_emailData vq); [| apply returns_ret].
    destruct (v_is_invoice v); [| apply returns_ret].
    apply returns_try. intros ?. apply returns_ret.
  - destruct (vq_emailData vq); [| apply produces_ret; split; reflexivity].
    destruct (v_is_invoice v); [| apply produces_ret; split; reflexivity].
    apply produces_try; [| intros ?; apply produces_ret; split; reflexivity].
    destruct (or_else (req_headers request !! _) _);
      [| apply produces_ret; split; reflexivity].
    eapply produces_bind; [apply produces_any |]. intros sr _.
    destruct (ok_status (status sr)); apply produces_ret; split; reflexivity.
Qed.

End VerdictFacts.

Section VerdictTheorems.
Context `{Outside}.

(** X28. When the classifier answers a message with a verdict, the entry
    returned for the message carries that verdict: [isInvoice] is the
    verdict's [is_invoice] and [invoiceConfidence] its confidence (or
    [null]), whatever becomes of the attempt to save the mail; the
    document store is left as it was. *)
Theorem classifier_verdict_is_reported :
  forall (u : option string) (p : string) (emailData : Message) (s : State)
         (pe : ProcessedEmail) (s1 : State) (w : world)
         (r : HttpReply) (w' : world) (v : Verdict),
    processEmail u emailData s = (Ok pe, s1) ->
    loopback_fetch "/api/verify-invoice" (ext s1) = (None, w) ->
    truthy (subject_of emailData) || truthy (extractEmailBody (payload emailData)) = true ->
    classifier_fetch (classify_request emailData pe) w = (Ok r, w') ->
    ok_status (reply_status r) = true ->
    reply_json r = Some v ->
    exists s2 : State,
      processEmailWithVerification u p emailData s
      = (Ok (mkVerified pe (v_is_invoice v) (confidence_of v)), s2)
      /\ db s2 = db s.
Proof.
  intros u p emailData s pe s1 w r w' v Hpe Hloop Hask Hfetch Hok Hjson.
  destruct (outside_only_processEmail u emailData _ _ _ Hpe) as (Hdb & _).
  unfold processEmailWithVerification.
  rewrite (bind_ok _ _ _ _ _ Hpe). unfold try_catch.
  unfold bind at 1. unfold bind at 1, call_, call.
  rewrite Hloop. cbn [foreign].
  match goal with |- context [verify_invoice_POST ?rq (Some ?vq) ?s0] =>
    destruct (verify_invoice_verdict rq vq s0 r w' v) as (resp & s2 & E & Hst & Hv);
      [exact Hask | simpl; rewrite or_else_first_filename; exact Hfetch
       | exact Hok | exact Hjson |];
    pose proof (keeps_store_verify_invoice _ _ _ _ _ E) as Hdb2
  end.
  rewrite E, Hst. simpl.
  unfold verdict_of in Hv. destruct (content resp); try discriminate.
  injection Hv as ->. eexists. split; [reflexivity |].
  unfold same_store in Hdb2. simpl in Hdb2. rewrite Hdb2. exact Hdb.
Qed.

(** X29. A message without a subject and without body text is never shown to
    the classifier: the route answers 400 before calling it, and the
    message is returned with [isInvoice = false] and no confidence. *)
Theorem empty_message_is_not_classified :
  forall (u : option string) (p : string) (emailData : Message) (s : State)
         (pe : ProcessedEmail) (s1 : State),
    processEmail u emailData s = (Ok pe, s1) ->
    subject_of emailData = "" ->
    extractEmailBody (payload emailData) = "" ->
    exists s2 : State,
      processEmailWithVerification u p emailData s
      = (Ok (mkVerified pe false None), s2)
      /\ ext s2 = snd (loopback_fetch "/api/verify-invoice" (ext s1))
      /\ db s2 = db s.
Proof.
  intros u p emailData s pe s1 Hpe Hsub Hbody.
  destruct (outside_only_processEmail u emailData _ _ _ Hpe) as (Hdb & _).
  unfold processEmailWithVerification.
  rewrite (bind_ok _ _ _ _ _ Hpe), Hsub, Hbody. unfold try_catch.
  unfold bind at 1. unfold bind at 1, call_, call.
  destruct (loopback_fetch "/api/verify-invoice" (ext s1)) as [[e|] w] eqn:Hloop;
    cbn [foreign].
  - eexists. split; [reflexivity |]. split; [reflexivity | exact Hdb].
  - unfold verify_invoice_POST, request_json, try_catch.
    unfold bind at 1, ret at 1. simpl.
    eexists. split; [reflexivity |]. split; [reflexivity | exact Hdb].
Qed.

End VerdictTheorems.

(** ** The further statements at work in the lab deployments *)

Lemma authGoogleCallback_stores_tokens_witness :
  exists s' : @State lab,
    fst (@authGoogleCallback lab lab_return lab_state)
    = Ok (mkResponse 200
            (Html "Auth Success"
               "Your account is connected. This window will close automatically.")
            KeepCookie)
    /\ tokens (current s') !! "g-100" = Some (mkTokens (Some "ya29.new") None None).
Proof.
  destruct (@authGoogleCallback_stores_tokens lab lab_return lab_state
              "4/0AX4XfWh" "sess_1"
              (mkSession "g-100" "ana@example.org" (Some uuid_a))
              (mkTokens (Some "ya29.new") None None) tt)
    as (s' & Hrun & Hcur & _); try reflexivity.
  - unfold cache_alive. simpl. lia.
  - exists s'. split; [rewrite Hrun; reflexivity | rewrite Hcur; reflexivity].
Defined.

Lemma authGoogleCallback_then_getTokens_witness :
  exists (resp : Response) (s' s'' : @State lab),
    @authGoogleCallback lab lab_return lab_state = (Ok resp, s')
    /\ status resp = 200
    /\ @getTokens lab lab_request s' = (Ok (Some (mkTokens (Some "ya29.new") None None)), s'').
Proof.
  apply (@authGoogleCallback_then_getTokens lab lab_return lab_state
           "4/0AX4XfWh" "sess_1"
           (mkSession "g-100" "ana@example.org" (Some uuid_a))
           (mkTokens (Some "ya29.new") None None) tt lab_request);
    try reflexivity.
  - unfold cache_alive. simpl. lia.
  - right. right. intros path bytes w. reflexivity.
Defined.

Lemma authGoogle_binds_session_witness :
  exists (sessionId : string) (s' : @State lab),
    @authGoogle lab (Some lab_credential) lab_state
    = (Ok (mkResponse 200 (JsonAuthUrl (@generateAuthUrl lab sessionId))
             (SetCookie sessionId)), s')
    /\ userId <$> sessions (current s') !! sessionId = Some "g-100".
Proof.
  destruct (@authGoogle_binds_session lab lab_credential lab_state
              "eyJhbGciOiJSUzI1NiJ9" "g-100"
              (mkTicket (Some "g-100") (Some "ana@example.org")) tt)
    as (sid & p & s' & Hrun & Hcur & _); try reflexivity.
  - unfold cache_alive. simpl. lia.
  - intros w. reflexivity.
  - exists sid, s'. split; [exact Hrun |]. rewrite Hcur. simpl.
    rewrite lookup_insert_eq. reflexivity.
Defined.

Lemma sign_in_round_trip_witness :
  exists (sessionId : string) (s1 : @State lab),
    (exists authUrl,
       @authGoogle lab (Some lab_credential) lab_state
       = (Ok (mkResponse 200 (JsonAuthUrl authUrl) (SetCookie sessionId)), s1))
    /\ forall callback : Request,
         searchParams callback !! "code" = Some "4/0AX4XfWh" ->
         searchParams callback !! "state" = Some sessionId ->
         exists (page : Response) (s2 : @State lab),
           @authGoogleCallback lab callback s1 = (Ok page, s2)
           /\ status page = 200
           /\ forall later : Request,
                session_cookie later = Some sessionId ->
                exists s3, @getTokens lab later s2
                           = (Ok (Some (mkTokens (Some "ya29.new") None None)), s3).
Proof.
  apply (@sign_in_round_trip lab lab_credential lab_state
           "eyJhbGciOiJSUzI1NiJ9" "g-100"
           (mkTicket (Some "g-100") (Some "ana@example.org")) tt
           "4/0AX4XfWh" (mkTokens (Some "ya29.new") None None));
    try reflexivity.
  - unfold cache_alive. simpl. lia.
  - intros w. reflexivity.
  - right. intros path bytes w. reflexivity.
  - intros w0. exists w0. reflexivity.
Defined.

Lemma authGoogle_stores_only_on_success_witness :
  current (snd (@authGoogle lab None lab_state)) = loaded_view lab_state
  /\ file (snd (@authGoogle lab None lab_state)) = file lab_state.
Proof.
  eapply (@authGoogle_stores_only_on_success lab None lab_state _ _).
  - vm_compute. reflexivity.
  - simpl. lia.
Defined.

Lemma getEmails_requires_tokens_witness :
  exists s' : @State lab,
    @getEmails lab lab_anonymous lab_state
    = (Ok (json 401 (JsonError "Not authenticated" None)), s')
    /\ memory_only lab_state s'.
Proof.
  apply (@getEmails_requires_tokens lab lab_anonymous lab_state).
  - unfold cache_alive. simpl. lia.
  - reflexivity.
Defined.

Lemma authStatus_reports_tokens_witness :
  exists s' : @State lab,
    @authStatus lab lab_request lab_state
    = (Ok (json 200 (JsonStatus true (Some "ana@example.org") (Some uuid_a))), s')
    /\ memory_only lab_state s'.
Proof.
  apply (@authStatus_reports_tokens lab lab_request lab_state).
  intros sess E. vm_compute in E. injection E as <-. reflexivity.
Defined.

Lemma markEmailAsRead_gate_witness :
  exists (resp : Response) (s' : @State lab),
    @markEmailAsRead lab (fun _ w => (None, w)) lab_request "m1" lab_state = (Ok resp, s')
    /\ db s' = db lab_state
    /\ resp = json 200 JsonSuccess.
Proof.
  destruct (@markEmailAsRead_gate lab (fun _ w => (None, w)) lab_request "m1" lab_state)
    as (resp & s' & Hrun & Hdb & _ & Hok).
  - unfold cache_alive. simpl. lia.
  - exists resp, s'. split; [exact Hrun |]. split; [exact Hdb |].
    exact (Hok (mkTokens (Some "ya29.old") (Some "1//refresh") None) eq_refl).
Defined.

Lemma scan_POST_is_idempotent_witness :
  db (snd (@scan_POST lab (Some lab_scan)
             (snd (@scan_POST lab (Some lab_scan) lab_state))))
  = db (snd (@scan_POST lab (Some lab_scan) lab_state)).
Proof.
  eapply (@scan_POST_is_idempotent lab (Some lab_scan) lab_state
            (snd (@scan_POST lab (Some lab_scan) lab_state))
            (snd (@scan_POST lab (Some lab_scan)
                    (snd (@scan_POST lab (Some lab_scan) lab_state)))) _ _).
  - vm_compute. reflexivity.
  - reflexivity.
  - vm_compute. reflexivity.
Defined.

Lemma mails_POST_appends_one_record_witness :
  exists (u : string) (s' : @State lab),
    @mails_POST lab (Some lab_mail) lab_state
    = (Ok (json 201 (JsonMail (mail_record u lab_mail))), s')
    /\ db s' = mkDb (profiles (db lab_state))
                    (mails (db lab_state) ++ [mail_record u lab_mail])
    /\ (forall u0, r_uuid lab_mail = Some u0 -> truthy u0 = true -> u = u0).
Proof.
  apply (@mails_POST_appends_one_record lab lab_mail lab_state).
  - intros w. reflexivity.
  - reflexivity.
  - reflexivity.
Defined.

Lemma mails_POST_then_GET_witness :
  exists s2 s3 : @State lab,
    @mails_GET lab (snd (@mails_POST lab (Some lab_mail) lab_state))
    = (Ok (mkRest 200 (RMails [mail_of_ana; mail_record uuid_x lab_mail])), s2)
    /\ @mails_id_GET lab uuid_x (snd (@mails_POST lab (Some lab_mail) lab_state))
       = (Ok (mkRest 200 (RMail (Some (mail_record uuid_x lab_mail)))), s3).
Proof.
  apply (@mails_POST_then_GET lab (Some lab_mail) lab_state
           (snd (@mails_POST lab (Some lab_mail) lab_state))
           (mail_record uuid_x lab_mail)).
  - intros w. reflexivity.
  - vm_compute. reflexivity.
Defined.

Lemma mails_POST_then_DELETE_witness :
  exists s2 : @State lab,
    @mails_id_DELETE lab uuid_x (snd (@mails_POST lab (Some lab_mail) lab_state))
    = (Ok (json 200 (JsonMessage "Mail deleted")), s2)
    /\ db s2 = lab_db.
Proof.
  apply (@mails_POST_then_DELETE lab (Some lab_mail) lab_state
           (snd (@mails_POST lab (Some lab_mail) lab_state))
           (mail_record uuid_x lab_mail)).
  - intros w. reflexivity.
  - intros p x [<- | [<- | []]]; simpl; [intros [] |].
    intros [<- | []]. exists mail_of_ana. split; [left |]; reflexivity.
  - reflexivity.
  - vm_compute. reflexivity.
Defined.

Lemma saveStorage_then_loadStorage_witness :
  exists (s1 s2 : @State lab) (r' : nat),
    @saveStorage lab 0%nat lab_state = (Ok tt, s1)
    /\ @loadStorage lab s1 = (Ok r', s2)
    /\ deref r' s2 = lab_storage.
Proof.
  destruct (@saveStorage_then_loadStorage lab 0%nat lab_state)
    as (s1 & s2 & r' & Hsave & Hload & Hsame & _).
  - intros X. vm_compute in X. discriminate X.
  - exists s1, s2, r'. split; [exact Hsave |]. split; [exact Hload |].
    apply Hsame. right. right. intros path bytes w. reflexivity.
Defined.

Lemma bodies_empty_without_data_witness :
  @getEmailBody lab lab_hollow = "" /\ @extractEmailBody lab lab_hollow = "".
Proof. apply (@bodies_empty_without_data lab lab_hollow). reflexivity. Defined.


Lemma find_or_create_profile_never_duplicates_witness :
  (length (with_identity "g-100"
             (db (snd (@find_or_create_profile lab "g-100" "ana@example.org" lab_state))))
   <= 1)%nat.
Proof.
  eapply (@find_or_create_profile_never_duplicates lab "g-100" "ana@example.org"
            lab_state _ _).
  - vm_compute. reflexivity.
  - simpl. lia.
Defined.

Lemma getEmails_fetch_failure_witness :
  exists s5 : @State lab_flaky,
    @getEmails lab_flaky lab_request flaky_state
    = (Ok (json 500 (JsonError "Failed to fetch emails" None)), s5).
Proof.
  eexists.
  eapply (@getEmails_fetch_failure lab_flaky lab_request flaky_state
           (mkTokens (Some "ya29.old") (Some "1//refresh") None)
           (Own (mkSession "g-100" "ana@example.org" (Some uuid_a)))
           _ _ uuid_a _ (mkList (Some ["m1"; "m2"]) None) _
           (mkErr (Some 404) "Requested entity was not found." false) _);
    vm_compute; reflexivity.
Defined.

Lemma classifier_verdict_is_reported_witness :
  exists (pe : ProcessedEmail) (s2 : @State lab_calm),
    @processEmailWithVerification lab_calm (Some "g-100") uuid_a (lab_message "m1") calm_state
    = (Ok (mkVerified pe true (Some (9 # 10))), s2)
    /\ db s2 = db calm_state.
Proof.
  eexists.
  eapply (@classifier_verdict_is_reported lab_calm (Some "g-100") uuid_a (lab_message "m1")
            calm_state _ _ tt (mkReply 200 "ok" (Some lab_verdict)) tt lab_verdict);
    vm_compute; reflexivity.
Defined.

Lemma empty_message_is_not_classified_witness :
  exists (pe : ProcessedEmail) (s2 : @State lab),
    @processEmailWithVerification lab (Some "g-100") uuid_a lab_blank lab_state
    = (Ok (mkVerified pe false None), s2)
    /\ ext s2 = snd (@loopback_fetch lab "/api/verify-invoice" tt)
    /\ db s2 = db lab_state.
Proof.
  eexists.
  eapply (@empty_message_is_not_classified lab (Some "g-100") uuid_a lab_blank lab_state _
            (snd (@processEmail lab (Some "g-100") lab_blank lab_state)));
    vm_compute; reflexivity.
Defined.
